(** * Unfrazzle front end: conversational orchestration layer

    A shallow embedding of the chat orchestration code of the React front
    end (component [MainApp], hook [useBurnoutTimer], and the onboarding
    flow with the page that hosts it) and the properties its
    specification states about it, followed by further properties read
    off the code.

    Layout: the first part holds the definitions, one module per source
    unit; the second part holds the lemmas and the theorems.

    Conventions of the embedding.
    - A JavaScript string is a [string] holding its UTF-8 bytes.
    - A JavaScript number that the code only uses as an integer (counters,
      indices, epoch milliseconds, minutes) is a [Z] or a [nat]; the
      numbers of the interval formula are real numbers ([R]), which
      idealises IEEE-754 doubles.
    - A [useState] cell is a field of [AppState]; a handler reads the cells
      of the render it was created in and writes through the setters.
    - [fetch], the wall clock and [setTimeout] are effects of the monad
      [M]: requests are logged in order, answers come from a [Backend]
      oracle, timers are queued. *)

From Stdlib Require Import Reals Lra Lia ZArith List String Ascii Bool.
From Stdlib Require Import DecimalString Permutation Sorted QArith.
Import ListNotations.

(* ================================================================== *)
(** * Part I: definitions *)
(* ================================================================== *)

(** ** JavaScript string built-ins used by the code *)

Module JsString.
Local Open Scope string_scope.

Definition bytes2 (a b : nat) : string :=
  String (ascii_of_nat a) (String (ascii_of_nat b) EmptyString).

Definition bytes3 (a b c : nat) : string :=
  String (ascii_of_nat a) (bytes2 b c).

(** WhiteSpace and LineTerminator of ECMAScript (what [trim] strips and
    what [\s] matches), each as its UTF-8 encoding: TAB, LF, VT, FF, CR,
    SP, U+00A0, U+1680, U+2000..U+200A, U+2028, U+2029, U+202F, U+205F,
    U+3000, U+FEFF. *)
Definition whiteSpace : list string :=
  [ String (ascii_of_nat 9) EmptyString; String (ascii_of_nat 10) EmptyString;
    String (ascii_of_nat 11) EmptyString; String (ascii_of_nat 12) EmptyString;
    String (ascii_of_nat 13) EmptyString; " ";
    bytes2 194 160; bytes3 225 154 128;
    bytes3 226 128 128; bytes3 226 128 129; bytes3 226 128 130;
    bytes3 226 128 131; bytes3 226 128 132; bytes3 226 128 133;
    bytes3 226 128 134; bytes3 226 128 135; bytes3 226 128 136;
    bytes3 226 128 137; bytes3 226 128 138;
    bytes3 226 128 168; bytes3 226 128 169; bytes3 226 128 175;
    bytes3 226 129 159; bytes3 227 128 128; bytes3 239 187 191 ].

(** [dropPrefix p s] is the rest of [s] after its prefix [p]. *)
Fixpoint dropPrefix (p s : string) : option string :=
  match p, s with
  | EmptyString, _ => Some s
  | String a p', String b s' => if Ascii.eqb a b then dropPrefix p' s' else None
  | String _ _, EmptyString => None
  end.

Definition startsWith (s p : string) : bool :=
  match dropPrefix p s with Some _ => true | None => false end.

(** The text without the one of the [tokens] it starts with, if it starts
    with one. *)
Definition dropToken (tokens : list string) (s : string) : option string :=
  fold_right
    (fun t acc => match dropPrefix t s with Some r => Some r | None => acc end)
    None tokens.

(** Tokens dropped from the front for as long as there is one; every drop
    takes at least a byte, so the length of the text is fuel enough. *)
Fixpoint skipTokens (tokens : list string) (fuel : nat) (s : string) : string :=
  match fuel with
  | O => s
  | S fuel' =>
      match dropToken tokens s with
      | Some r => skipTokens tokens fuel' r
      | None => s
      end
  end.

Definition trimStart (s : string) : string :=
  skipTokens whiteSpace (String.length s) s.

Definition reverse (s : string) : string :=
  string_of_list_ascii (rev (list_ascii_of_string s)).

Definition trimEnd (s : string) : string :=
  let r := reverse s in
  reverse (skipTokens (map reverse whiteSpace) (String.length r) r).

(** [String.prototype.trim]. *)
Definition trim (s : string) : string := trimEnd (trimStart s).

Definition isUpper (c : ascii) : bool :=
  let n := nat_of_ascii c in (65 <=? n)%nat && (n <=? 90)%nat.

Definition lowerAscii (c : ascii) : ascii :=
  if isUpper c then ascii_of_nat (nat_of_ascii c + 32) else c.

(** [String.prototype.toLowerCase], as far as tests against ASCII words can
    tell: ASCII letters are mapped, and so is the one character outside
    ASCII whose lower case is an ASCII letter (U+212A KELVIN SIGN, bytes
    226 132 170, lower case [k]).  Every other character outside ASCII has
    a lower case outside ASCII and is kept as it is. *)
Fixpoint toLowerCase (s : string) : string :=
  match s with
  | EmptyString => EmptyString
  | String c r =>
      match r with
      | String c1 (String c2 r') =>
          if (nat_of_ascii c =? 226)%nat && (nat_of_ascii c1 =? 132)%nat
             && (nat_of_ascii c2 =? 170)%nat
          then String "k" (toLowerCase r')
          else String (lowerAscii c) (toLowerCase r)
      | _ => String (lowerAscii c) (toLowerCase r)
      end
  end.

(** [\w] of a regular expression without the [u] flag. *)
Definition isWordChar (c : ascii) : bool :=
  let n := nat_of_ascii c in
  ((48 <=? n) && (n <=? 57) || (65 <=? n) && (n <=? 90)
   || (97 <=? n) && (n <=? 122) || (n =? 95))%nat.

(** The pattern word [w] (lower case) matched at the head of [s] under the
    [i] flag; the rest of [s] on success.  Without the [u] flag a character
    outside ASCII never matches an ASCII letter. *)
Fixpoint matchIgnoreCase (w s : string) : option string :=
  match w, s with
  | EmptyString, _ => Some s
  | String a w', String b s' =>
      if Ascii.eqb a (lowerAscii b) then matchIgnoreCase w' s' else None
  | String _ _, EmptyString => None
  end.

(** [s.indexOf(p)] as a split: the text before the first occurrence of [p]
    and the text after it. *)
Fixpoint splitAtFirst (p s : string) : option (string * string) :=
  match dropPrefix p s with
  | Some rest => Some (EmptyString, rest)
  | None =>
      match s with
      | EmptyString => None
      | String c s' =>
          match splitAtFirst p s' with
          | Some (before, rest) => Some (String c before, rest)
          | None => None
          end
      end
  end.

Definition includes (s p : string) : bool :=
  match splitAtFirst p s with Some _ => true | None => false end.

(** A non-negative integer in decimal, as template literals and
    [toString] print it. *)
Definition natText (n : nat) : string := NilZero.string_of_uint (Nat.to_uint n).

Definition intText (z : Z) : string := NilZero.string_of_int (Z.to_int z).

(** [parts.join(sep)]. *)
Fixpoint join (sep : string) (parts : list string) : string :=
  match parts with
  | [] => EmptyString
  | [p] => p
  | p :: rest => p ++ sep ++ join sep rest
  end.

(** [Array.prototype.sort()] without a comparator, on strings: ascending
    by code unit.  Insertion into a sorted list, repeated. *)
Fixpoint insertSorted (k : string) (ks : list string) : list string :=
  match ks with
  | [] => [k]
  | k' :: rest => if String.leb k k' then k :: ks else k' :: insertSorted k rest
  end.

Definition sortStrings (ks : list string) : list string :=
  fold_right insertSorted [] ks.

End JsString.

(** ** JSON values and [JSON.parse] *)

Module Json.
Local Open Scope string_scope.

#[warnings="-register-all"]
Inductive JSON : Type :=
| JNull
| JBool (b : bool)
| JNumber (literal : string)
| JString (s : string)
| JArray (items : list JSON)
| JObject (members : list (string * JSON)).

(** JSON white space: SP, TAB, LF, CR. *)
Definition isJsonSpace (c : ascii) : bool :=
  let n := nat_of_ascii c in ((n =? 32) || (n =? 9) || (n =? 10) || (n =? 13))%nat.

Fixpoint skipWs (s : string) : string :=
  match s with
  | String c r => if isJsonSpace c then skipWs r else s
  | EmptyString => s
  end.

Definition isDigit (c : ascii) : bool :=
  let n := nat_of_ascii c in ((48 <=? n) && (n <=? 57))%nat.

Fixpoint takeDigits (s : string) : string * string :=
  match s with
  | String c r =>
      if isDigit c then let (d, rest) := takeDigits r in (String c d, rest)
      else (EmptyString, s)
  | EmptyString => (EmptyString, s)
  end.

(** number = [-] int [frac] [exp]; the literal is kept as text. *)
Definition parseNumber (s : string) : option (string * string) :=
  let (sign, s1) :=
    match s with String "-" r => ("-", r) | _ => (EmptyString, s) end in
  let (int, s2) := takeDigits s1 in
  match int with
  | EmptyString => None
  | String "0" (String _ _) => None
  | _ =>
      let fracPart :=
        match s2 with
        | String "." r =>
            let (f, s3) := takeDigits r in
            match f with
            | EmptyString => None
            | _ => Some ("." ++ f, s3)
            end
        | _ => Some (EmptyString, s2)
        end in
      match fracPart with
      | None => None
      | Some (frac, s3) =>
          let expPart :=
            match s3 with
            | String e r =>
                if Ascii.eqb e "e" || Ascii.eqb e "E" then
                  let (esign, r1) :=
                    match r with
                    | String "+" r' => ("+", r')
                    | String "-" r' => ("-", r')
                    | _ => (EmptyString, r)
                    end in
                  let (ds, s4) := takeDigits r1 in
                  match ds with
                  | EmptyString => None
                  | _ => Some (String e esign ++ ds, s4)
                  end
                else Some (EmptyString, s3)
            | EmptyString => Some (EmptyString, s3)
            end in
          match expPart with
          | None => None
          | Some (ex, s4) => Some (sign ++ int ++ frac ++ ex, s4)
          end
      end
  end.

Definition hexVal (c : ascii) : option N :=
  let n := N_of_ascii c in
  if ((48 <=? n) && (n <=? 57))%N then Some (n - 48)%N
  else if ((65 <=? n) && (n <=? 70))%N then Some (n - 55)%N
  else if ((97 <=? n) && (n <=? 102))%N then Some (n - 87)%N
  else None.

Definition hex4 (s : string) : option (N * string) :=
  match s with
  | String a (String b (String c (String d r))) =>
      match hexVal a, hexVal b, hexVal c, hexVal d with
      | Some x, Some y, Some z, Some w =>
          Some (((x * 16 + y) * 16 + z) * 16 + w, r)%N
      | _, _, _, _ => None
      end
  | _ => None
  end.

Definition byte (n : N) : string := String (ascii_of_N n) EmptyString.

(** The UTF-8 bytes of a code point. *)
Definition utf8 (cp : N) : string :=
  (if cp <? 128 then byte cp
   else if cp <? 2048 then byte (192 + cp / 64) ++ byte (128 + cp mod 64)
   else if cp <? 65536 then
     byte (224 + cp / 4096) ++ byte (128 + (cp / 64) mod 64)
     ++ byte (128 + cp mod 64)
   else
     byte (240 + cp / 262144) ++ byte (128 + (cp / 4096) mod 64)
     ++ byte (128 + (cp / 64) mod 64) ++ byte (128 + cp mod 64))%N.

Definition isHighSurrogate (u : N) : bool := ((55296 <=? u) && (u <=? 56319))%N.
Definition isLowSurrogate (u : N) : bool := ((56320 <=? u) && (u <=? 57343))%N.

(** The characters of a string literal after its opening quote, up to and
    including the closing quote (the character of code 034). *)
Fixpoint parseChars (fuel : nat) (s : string) : option (string * string) :=
  match fuel with
  | O => None
  | S fuel' =>
      match s with
      | EmptyString => None
      | String c r =>
          if Ascii.eqb c "034" then Some (EmptyString, r)
          else if (nat_of_ascii c <? 32)%nat then None
          else if Ascii.eqb c "\" then
            match r with
            | String e r1 =>
                let plain (ch : N) :=
                  match parseChars fuel' r1 with
                  | Some (t, rest) => Some (String (ascii_of_N ch) t, rest)
                  | None => None
                  end in
                if Ascii.eqb e "034" then plain 34%N
                else if Ascii.eqb e "\" then plain 92%N
                else if Ascii.eqb e "/" then plain 47%N
                else if Ascii.eqb e "b" then plain 8%N
                else if Ascii.eqb e "f" then plain 12%N
                else if Ascii.eqb e "n" then plain 10%N
                else if Ascii.eqb e "r" then plain 13%N
                else if Ascii.eqb e "t" then plain 9%N
                else if Ascii.eqb e "u" then
                  match hex4 r1 with
                  | Some (u, r2) =>
                      let single :=
                        match parseChars fuel' r2 with
                        | Some (t, rest) => Some (utf8 u ++ t, rest)
                        | None => None
                        end in
                      if isHighSurrogate u then
                        match r2 with
                        | String "\" (String "u" r3) =>
                            match hex4 r3 with
                            | Some (l, r4) =>
                                if isLowSurrogate l then
                                  match parseChars fuel' r4 with
                                  | Some (t, rest) =>
                                      Some (utf8 (65536 + (u - 55296) * 1024
                                                  + (l - 56320))%N ++ t, rest)
                                  | None => None
                                  end
                                else single
                            | None => single
                            end
                        | _ => single
                        end
                      else single
                  | None => None
                  end
                else None
            | EmptyString => None
            end
          else
            match parseChars fuel' r with
            | Some (t, rest) => Some (String c t, rest)
            | None => None
            end
      end
  end.

(** [parseValue] reads one value at the head of the text; [parseItems] the
    rest of an array after an element, [parseMembers] the rest of an object
    after a member. *)
Fixpoint parseValue (fuel : nat) (s : string) : option (JSON * string) :=
  match fuel with
  | O => None
  | S fuel' =>
      match skipWs s with
      | String "n" (String "u" (String "l" (String "l" r))) => Some (JNull, r)
      | String "t" (String "r" (String "u" (String "e" r))) => Some (JBool true, r)
      | String "f" (String "a" (String "l" (String "s" (String "e" r)))) =>
          Some (JBool false, r)
      | String "034" r =>
          match parseChars (S (String.length r)) r with
          | Some (t, rest) => Some (JString t, rest)
          | None => None
          end
      | String "[" r =>
          match skipWs r with
          | String "]" rest => Some (JArray [], rest)
          | _ =>
              match parseValue fuel' r with
              | Some (v, r1) =>
                  match parseItems fuel' r1 with
                  | Some (vs, rest) => Some (JArray (v :: vs), rest)
                  | None => None
                  end
              | None => None
              end
          end
      | String "{" r =>
          match skipWs r with
          | String "}" rest => Some (JObject [], rest)
          | _ =>
              match parseMember fuel' r with
              | Some (m, r1) =>
                  match parseMembers fuel' r1 with
                  | Some (ms, rest) => Some (JObject (m :: ms), rest)
                  | None => None
                  end
              | None => None
              end
          end
      | t =>
          match parseNumber t with
          | Some (lit, rest) => Some (JNumber lit, rest)
          | None => None
          end
      end
  end
with parseItems (fuel : nat) (s : string) : option (list JSON * string) :=
  match fuel with
  | O => None
  | S fuel' =>
      match skipWs s with
      | String "]" rest => Some ([], rest)
      | String "," r =>
          match parseValue fuel' r with
          | Some (v, r1) =>
              match parseItems fuel' r1 with
              | Some (vs, rest) => Some (v :: vs, rest)
              | None => None
              end
          | None => None
          end
      | _ => None
      end
  end
with parseMember (fuel : nat) (s : string) : option ((string * JSON) * string) :=
  match fuel with
  | O => None
  | S fuel' =>
      match skipWs s with
      | String "034" r =>
          match parseChars (S (String.length r)) r with
          | Some (k, r1) =>
              match skipWs r1 with
              | String ":" r2 =>
                  match parseValue fuel' r2 with
                  | Some (v, rest) => Some ((k, v), rest)
                  | None => None
                  end
              | _ => None
              end
          | None => None
          end
      | _ => None
      end
  end
with parseMembers (fuel : nat) (s : string)
  : option (list (string * JSON) * string) :=
  match fuel with
  | O => None
  | S fuel' =>
      match skipWs s with
      | String "}" rest => Some ([], rest)
      | String "," r =>
          match parseMember fuel' r with
          | Some (m, r1) =>
              match parseMembers fuel' r1 with
              | Some (ms, rest) => Some (m :: ms, rest)
              | None => None
              end
          | None => None
          end
      | _ => None
      end
  end.

(** [JSON.parse]: [None] when it throws a SyntaxError.  Every call of the
    parser consumes a byte before it calls itself again, so the length of
    the text bounds the depth. *)
Definition parse (s : string) : option JSON :=
  match parseValue (S (S (String.length s))) s with
  | Some (v, rest) =>
      match skipWs rest with
      | EmptyString => Some v
      | String _ _ => None
      end
  | None => None
  end.

(** [obj[key]] on a parsed object: the last member of that name. *)
Fixpoint member (key : string) (ms : list (string * JSON)) : option JSON :=
  match ms with
  | [] => None
  | (k, v) :: rest =>
      match member key rest with
      | Some v' => Some v'
      | None => if String.eqb k key then Some v else None
      end
  end.

End Json.

(** ** [Date]: parsing and the three renderings the code uses *)

Module JsDate.
Local Open Scope Z_scope.

(** The environment a page runs in: the offset of local time from UTC in
    minutes, east positive (taken as constant: no daylight-saving change
    inside the dates handled), and the short time text of the default
    locale, [toLocaleTimeString([], {hour: "2-digit", minute: "2-digit"})],
    as a function of the local hour and minute. *)
Record Host : Type := {
  tzOffset : Z;
  timeText : Z -> Z -> string
}.

(** Day number of a civil date, day 0 being 1970-01-01 (MakeDay). *)
Definition daysFromCivil (y m d : Z) : Z :=
  let y' := if m <=? 2 then y - 1 else y in
  let era := y' / 400 in
  let yoe := y' - era * 400 in
  let mp := (m + 9) mod 12 in
  let doy := (153 * mp + 2) / 5 + d - 1 in
  let doe := yoe * 365 + yoe / 4 - yoe / 100 + doy in
  era * 146097 + doe - 719468.

(** Civil date (year, month, day) of a day number. *)
Definition civilFromDays (n : Z) : Z * Z * Z :=
  let z := n + 719468 in
  let era := z / 146097 in
  let doe := z - era * 146097 in
  let yoe := (doe - doe / 1460 + doe / 36524 - doe / 146096) / 365 in
  let doy := doe - (365 * yoe + yoe / 4 - yoe / 100) in
  let mp := (5 * doy + 2) / 153 in
  let d := doy - (153 * mp + 2) / 5 + 1 in
  let m := if mp <? 10 then mp + 3 else mp - 9 in
  let y := yoe + era * 400 in
  (if m <=? 2 then y + 1 else y, m, d).

Definition msPerDay : Z := 86400000.
Definition msPerMinute : Z := 60000.

Definition digit (c : ascii) : option Z :=
  let n := Z.of_nat (nat_of_ascii c) in
  if (48 <=? n) && (n <=? 57) then Some (n - 48) else None.

(** Exactly [n] decimal digits at the head of the text. *)
Fixpoint digits (n : nat) (acc : Z) (s : string) : option (Z * string) :=
  match n with
  | O => Some (acc, s)
  | S n' =>
      match s with
      | String c r =>
          match digit c with
          | Some d => digits n' (acc * 10 + d) r
          | None => None
          end
      | EmptyString => None
      end
  end.

Definition expect (c : ascii) (s : string) : option string :=
  match s with
  | String c' r => if Ascii.eqb c c' then Some r else None
  | EmptyString => None
  end.

(** The fraction of a second after the point: at least one digit, the
    first three count. *)
Fixpoint fraction (place : Z) (acc : Z) (s : string) : Z * string :=
  match s with
  | String c r =>
      match digit c with
      | Some d => fraction (place / 10) (acc + d * place) r
      | None => (acc, s)
      end
  | EmptyString => (acc, s)
  end.

(** The zone designator that may end a date-time: [Z], [+HH:mm] or
    [-HH:mm]; [Some None] when there is none (local time).  The value is
    the offset in minutes. *)
Definition zone (s : string) : option (option Z) :=
  match s with
  | EmptyString => Some None
  | String c r =>
      if Ascii.eqb c "Z" then
        match r with EmptyString => Some (Some 0) | _ => None end
      else if Ascii.eqb c "+" || Ascii.eqb c "-" then
        match digits 2 0 r with
        | Some (hh, r1) =>
            match expect ":" r1 with
            | Some r2 =>
                match digits 2 0 r2 with
                | Some (mm, EmptyString) =>
                    if (hh <=? 23) && (mm <=? 59) then
                      Some (Some ((if Ascii.eqb c "+" then 1 else -1)
                                  * (hh * 60 + mm)))
                    else None
                | _ => None
                end
            | None => None
            end
        | None => None
        end
      else None
  end.

(** The time of day after the [T]: [HH:mm], [HH:mm:ss] or [HH:mm:ss.s+];
    milliseconds into the day and the rest of the text. *)
Definition timeOfDay (s : string) : option (Z * string) :=
  match digits 2 0 s with
  | Some (hh, r1) =>
      match expect ":" r1 with
      | Some r2 =>
          match digits 2 0 r2 with
          | Some (mm, r3) =>
              let '(ss, ms, r6) :=
                match expect ":" r3 with
                | Some r4 =>
                    match digits 2 0 r4 with
                    | Some (ss, r5) =>
                        match r5 with
                        | String "." (String c r') =>
                            match digit c with
                            | Some _ =>
                                let (ms, rest) := fraction 100 0 (String c r') in
                                (ss, ms, rest)
                            | None => (-1, 0, r5)
                            end
                        | _ => (ss, 0, r5)
                        end
                    | None => (-1, 0, r3)
                    end
                | None => (0, 0, r3)
                end in
              if (0 <=? ss) && (ss <=? 59) && (mm <=? 59)
                 && ((hh <=? 23) || (hh =? 24) && (mm =? 0) && (ss =? 0) && (ms =? 0))
              then Some (((hh * 60 + mm) * 60 + ss) * 1000 + ms, r6)
              else None
          | None => None
          end
      | None => None
      end
  | None => None
  end.

(** [new Date(text)] on the ISO-8601 forms [YYYY-MM-DD] (read as UTC) and
    [YYYY-MM-DDTHH:mm[:ss[.s+]]] followed by [Z], a numeric offset, or
    nothing (read as local time): epoch milliseconds, [None] for an Invalid
    Date.  Month 01..12 and day 01..31 are accepted, a day past the end of
    its month running into the next one.  Any other text counts as an
    Invalid Date (real engines fall back to parsers of their own there). *)
Definition parse (h : Host) (s : string) : option Z :=
  match digits 4 0 s with
  | Some (y, r1) =>
      match expect "-" r1 with
      | Some r2 =>
          match digits 2 0 r2 with
          | Some (m, r3) =>
              match expect "-" r3 with
              | Some r4 =>
                  match digits 2 0 r4 with
                  | Some (d, r5) =>
                      if (1 <=? m) && (m <=? 12) && (1 <=? d) && (d <=? 31) then
                        let day := daysFromCivil y m 1 + (d - 1) in
                        match r5 with
                        | EmptyString => Some (day * msPerDay)
                        | String c r6 =>
                            if Ascii.eqb c "T" then
                              match timeOfDay r6 with
                              | Some (t, r7) =>
                                  match zone r7 with
                                  | Some (Some off) =>
                                      Some (day * msPerDay + t - off * msPerMinute)
                                  | Some None =>
                                      Some (day * msPerDay + t
                                            - tzOffset h * msPerMinute)
                                  | None => None
                                  end
                              | None => None
                              end
                            else None
                        end
                      else None
                  | None => None
                  end
              | None => None
              end
          | None => None
          end
      | None => None
      end
  | None => None
  end.

(** [n] in decimal, padded with zeros to [width] digits. *)
Definition padded (width : nat) (n : Z) : string :=
  let t := JsString.natText (Z.to_nat n) in
  (string_of_list_ascii (repeat "0"%char (width - String.length t)) ++ t)%string.

(** [date.toISOString().split('T')[0]]: the UTC calendar date of the
    instant, [YYYY-MM-DD] (six digits and a sign for a year outside
    0..9999). *)
Definition isoDate (t : Z) : string :=
  let '(y, m, d) := civilFromDays (t / msPerDay) in
  let year :=
    if (0 <=? y) && (y <=? 9999) then padded 4 y
    else if y <? 0 then ("-" ++ padded 6 (- y))%string
    else ("+" ++ padded 6 y)%string in
  (year ++ "-" ++ padded 2 m ++ "-" ++ padded 2 d)%string.

Definition weekdayName (n : Z) : string :=
  nth (Z.to_nat n)
    ["Sunday"; "Monday"; "Tuesday"; "Wednesday"; "Thursday"; "Friday";
     "Saturday"]%string ""%string.

Definition monthName (m : Z) : string :=
  nth (Z.to_nat (m - 1))
    ["Jan"; "Feb"; "Mar"; "Apr"; "May"; "Jun"; "Jul"; "Aug"; "Sep"; "Oct";
     "Nov"; "Dec"]%string ""%string.

(** [date.toLocaleDateString('en-US', {weekday: 'long', month: 'short',
    day: 'numeric'})]: the local calendar date, as in [Tuesday, Jan 2]. *)
Definition localeDate (h : Host) (t : Z) : string :=
  let n := (t + tzOffset h * msPerMinute) / msPerDay in
  let '(_, m, d) := civilFromDays n in
  (weekdayName ((n + 4) mod 7) ++ ", " ++ monthName m ++ " "
   ++ JsString.natText (Z.to_nat d))%string.

(** [new Date(text).toLocaleTimeString([], {hour: "2-digit", minute:
    "2-digit"})]; an Invalid Date prints as such. *)
Definition localeTime (h : Host) (text : string) : string :=
  match parse h text with
  | Some t =>
      let ms := (t + tzOffset h * msPerMinute) mod msPerDay in
      timeText h (ms / 3600000) ((ms / msPerMinute) mod 60)
  | None => "Invalid Date"%string
  end.

(** The short time text of the en-US locale: [09:00 AM]. *)
Definition timeTextEnUS (hh mm : Z) : string :=
  let h12 := if hh mod 12 =? 0 then 12 else hh mod 12 in
  let half := if hh <? 12 then " AM"%string else " PM"%string in
  (padded 2 h12 ++ ":" ++ padded 2 mm ++ half)%string.

(** A UTC host and one nine hours east of UTC, both with en-US times. *)
Definition hostUTC : Host := {| tzOffset := 0; timeText := timeTextEnUS |}.
Definition hostTokyo : Host := {| tzOffset := 540; timeText := timeTextEnUS |}.

End JsDate.

(** ** The burnout timer hook: the next check-in interval *)

Module BurnoutTimer.
Local Open Scope R_scope.

Definition MIN_INTERVAL_MIN : R := 30.
Definition MAX_INTERVAL_MIN : R := 4 * 60.
Definition LOGISTIC_STEEPNESS : R := 4.

(** [Math.round]: the nearest integer, a tie going up. *)
Definition Math_round (x : R) : Z := Int_part (x + / 2).

Definition ratio (score : R) : R :=
  1 / (1 + exp (- LOGISTIC_STEEPNESS * (score / 100 - 5 / 10))).

Definition minutes (score : R) : R :=
  MIN_INTERVAL_MIN + (MAX_INTERVAL_MIN - MIN_INTERVAL_MIN) * (1 - ratio score).

(** [calculateNextInterval(score)]. *)
Definition calculateNextInterval (score : R) : Z := Math_round (minutes score).

End BurnoutTimer.

(** ** The chat component: types and pure helpers *)

Module MainApp.
Import JsString.
Local Open Scope string_scope.

Definition newline : string := String (ascii_of_nat 10) EmptyString.

(** [type Proposal]. *)
Record Proposal : Type := {
  type : string;
  summary : string;
  start : string;
  end_ : string;
  reason : option string
}.

(** A proposal of a day group: [{...proposal, dayLabel}]. *)
Record DayProposal : Type := {
  proposal : Proposal;
  dayLabel : string
}.

(** The object [grouped]: its own properties in insertion order. *)
Definition Grouped : Type := list (string * list DayProposal).

Inductive Sender : Type := user | buddy.

(** [interface ChatMessage]; the timestamp in epoch milliseconds. *)
Record ChatMessage : Type := {
  id : string;
  sender : Sender;
  message : string;
  timestamp : Z
}.

(** [wantsSchedulingIntent(s)]:
    [/\b(plan|schedule|add|block|book|insert)\b/i.test(s)]. *)
Definition intentWords : list string :=
  ["plan"; "schedule"; "add"; "block"; "book"; "insert"].

(** One of the words at the head of the text, a word boundary after it. *)
Definition intentWordAt (s : string) : bool :=
  existsb
    (fun w =>
       match matchIgnoreCase w s with
       | Some (String c _) => negb (isWordChar c)
       | Some EmptyString => true
       | None => false
       end)
    intentWords.

(** The scan over the start positions; [afterWord] tells whether the
    character before the position is a word character. *)
Fixpoint intentFrom (afterWord : bool) (s : string) : bool :=
  (negb afterWord && intentWordAt s)
  || match s with
     | String c r => intentFrom (isWordChar c) r
     | EmptyString => false
     end.

Definition wantsSchedulingIntent (s : string) : bool := intentFrom false s.

(** The two consent patterns, tested on the lower-cased reply:
    [/^(y|yes|approve|ok|okay|sure)$/] and [/^(n|no|cancel|skip)$/]. *)
Definition isYes (s : string) : bool :=
  existsb (String.eqb s) ["y"; "yes"; "approve"; "ok"; "okay"; "sure"].

Definition isNo (s : string) : bool :=
  existsb (String.eqb s) ["n"; "no"; "cancel"; "skip"].

(** [grouped[dayKey]]. *)
Fixpoint lookup (k : string) (g : Grouped) : option (list DayProposal) :=
  match g with
  | [] => None
  | (k', vs) :: rest => if String.eqb k' k then Some vs else lookup k rest
  end.

(** [if (!grouped[dayKey]) grouped[dayKey] = []; grouped[dayKey].push(v)]. *)
Fixpoint pushTo (k : string) (v : DayProposal) (g : Grouped) : Grouped :=
  match g with
  | [] => [(k, [v])]
  | (k', vs) :: rest =>
      if String.eqb k' k then (k', (vs ++ [v])%list) :: rest
      else (k', vs) :: pushTo k v rest
  end.

(** What the body of the [forEach] of [groupProposalsByDay] computes for
    one proposal: [dayKey] and the element pushed, [{...proposal,
    dayLabel}].  [None]: the RangeError [toISOString] throws on an Invalid
    Date. *)
Definition dated (h : JsDate.Host) (p : Proposal) : option (string * DayProposal) :=
  match JsDate.parse h (start p) with
  | Some date =>
      let dayKey := JsDate.isoDate date in
      let dayLabel := JsDate.localeDate h date in
      Some (dayKey, {| proposal := p; dayLabel := dayLabel |})
  | None => None
  end.

(** The [forEach], run over the proposals from the object [grouped] built
    so far. *)
Fixpoint groupInto (h : JsDate.Host) (proposals : list Proposal)
    (grouped : Grouped) : option Grouped :=
  match proposals with
  | [] => Some grouped
  | p :: rest =>
      match dated h p with
      | Some (dayKey, v) => groupInto h rest (pushTo dayKey v grouped)
      | None => None
      end
  end.

Definition groupProposalsByDay (h : JsDate.Host) (proposals : list Proposal)
  : option Grouped :=
  groupInto h proposals [].

(** [Object.keys(grouped).sort()]. *)
Definition sortedDayKeys (grouped : Grouped) : list string :=
  sortStrings (map fst grouped).

(** One line of a day prompt. *)
Definition activityLine (h : JsDate.Host) (p : DayProposal) : string :=
  let startTime := JsDate.localeTime h (start (proposal p)) in
  let endTime := JsDate.localeTime h (end_ (proposal p)) in
  "- " ++ summary (proposal p) ++ " (" ++ startTime ++ "-" ++ endTime ++ ")"
  ++ match reason (proposal p) with
     | Some r => if String.eqb r "" then "" else " - " ++ r
     | None => ""
     end.

(** [formatDayProposals(dayProposals)]. *)
Definition formatDayProposals (h : JsDate.Host) (dayProposals : list DayProposal)
  : string :=
  match dayProposals with
  | [] => ""
  | first :: _ =>
      let activities := join newline (map (activityLine h) dayProposals) in
      "**" ++ dayLabel first ++ ":**" ++ newline ++ activities
  end.

(** The prompt of a day, as [startDayByDayApproval] and
    [handleDayApproval] build it. *)
Definition dayPrompt (h : JsDate.Host) (day : list DayProposal) : string :=
  formatDayProposals h day ++ newline ++ newline
  ++ "Approve activities for this day? (yes/no)".

(** *** Reading the planner's raw text *)

(** The first group of [/^(.*?)(?=<response>)/s]: the text before the
    first [<response>], when there is one. *)
Definition analysisMatch (raw : string) : option string :=
  match splitAtFirst "<response>" raw with
  | Some (before, _) => Some before
  | None => None
  end.

(** All leading white space removed: a greedy [\s*] in front of a
    character that is not white space. *)
Definition skipWhiteSpace (s : string) : string := trimStart s.

(** The lazy [.*?] of the payload pattern followed by [\}\s*<\/payload>]:
    the shortest stretch after which a closing brace, white space and the
    end tag follow; the stretch comes back with its closing brace. *)
Fixpoint lazyBody (s : string) : option string :=
  match s with
  | EmptyString => None
  | String c r =>
      if Ascii.eqb c "}" && startsWith (skipWhiteSpace r) "</payload>"
      then Some "}"
      else
        match lazyBody r with
        | Some b => Some (String c b)
        | None => None
        end
  end.

(** The payload pattern tried at the head of the text. *)
Definition payloadAt (s : string) : option string :=
  match dropPrefix "<payload>" s with
  | Some r =>
      match skipWhiteSpace r with
      | String "{" body =>
          match lazyBody body with
          | Some b => Some (String "{" b)
          | None => None
          end
      | _ => None
      end
  | None => None
  end.

(** The first group of [/<payload>\s*(\{.*?\})\s*<\/payload>/s] at the
    leftmost position where the pattern matches. *)
Fixpoint payloadMatch (s : string) : option string :=
  match payloadAt s with
  | Some g => Some g
  | None =>
      match s with
      | String _ r => payloadMatch r
      | EmptyString => None
      end
  end.

(** A member of a parsed proposal read at its declared type [string]. *)
Definition textMember (key : string) (ms : list (string * Json.JSON)) : string :=
  match Json.member key ms with
  | Some (Json.JString s) => s
  | _ => ""
  end.

Definition proposalOfJson (v : Json.JSON) : Proposal :=
  let ms := match v with Json.JObject ms => ms | _ => [] end in
  {| type := textMember "type" ms;
     summary := textMember "summary" ms;
     start := textMember "start" ms;
     end_ := textMember "end" ms;
     reason := match Json.member "reason" ms with
               | Some (Json.JString s) => Some s
               | _ => None
               end |}.

(** [payload.proposals || []], read at the declared type [Proposal[]]
    (the wire contract: an array of objects with string members). *)
Definition proposalsOfPayload (payload : Json.JSON) : list Proposal :=
  match payload with
  | Json.JObject ms =>
      match Json.member "proposals" ms with
      | Some (Json.JArray items) => map proposalOfJson items
      | _ => []
      end
  | _ => []
  end.

(** The block of [planWithManager] that reads [data.raw_text]: the pair
    [(allProposals, detailedAnalysis)].  A falsy [raw_text] (absent or
    empty) leaves both at their initial values, and so does an empty
    text run through the two patterns. *)
Definition readRawText (raw_text : string) : list Proposal * string :=
  let detailedAnalysis :=
    match analysisMatch raw_text with
    | Some before => trim before
    | None => ""
    end in
  let allProposals :=
    match payloadMatch raw_text with
    | Some segment =>
        match Json.parse segment with
        | Some payload => proposalsOfPayload payload
        | None => []
        end
    | None => []
    end in
  (allProposals, detailedAnalysis).

End MainApp.

(** ** The chat component: state, effects and handlers *)

Module App.
Import JsString MainApp.
Local Open Scope string_scope.

(** *** What the backend sends *)

(** A [Response]: the status, the body as text ([res.text()]) and the body
    read as JSON at the type the caller expects ([res.json()]), [None] when
    reading it throws. *)
Record Response (A : Type) : Type := {
  status : Z;
  bodyText : string;
  body : option A
}.
Arguments status {A} _.
Arguments bodyText {A} _.
Arguments body {A} _.

(** [res.ok]. *)
Definition ok {A : Type} (res : Response A) : bool :=
  ((200 <=? status res) && (status res <=? 299))%Z.

(** start-planning: [{session_id, raw_text, finished, message}]. *)
Record PlanData : Type := {
  session_id : option string;
  raw_text : option string;
  finished : bool;
  plan_message : option string
}.

(** decision: [{result: {status}, finished}]. *)
Record DecisionData : Type := {
  result_status : option string;
  decision_finished : bool
}.

(** next-question: [type NextQ]. *)
Record NextQ : Type := {
  qid : string;
  text : string
}.

(** answer: [{bs, next_interval_min}], the minutes a whole number. *)
Record AnswerData : Type := {
  bs : option Q;
  next_interval_min : Z
}.

(** support: [{text}]. *)
Record SupportData : Type := {
  support_text : option string
}.

(** The body of the direct apply call, of which the code reads [ok],
    [count] and [message] after spreading it. *)
Record ApplyData : Type := {
  apply_ok : option bool;
  apply_count : option Z;
  apply_message : option string
}.

(** The requests of the chat, the review and the check-in (the reset sent
    when the component mounts and the OAuth status call are left out). *)
Inductive Request : Type :=
| ReqPlanStart (email user : string) (days : Z)
| ReqDecision (sessionId : option string) (accept : bool)
| ReqApply (email : string) (proposals : list Proposal)
| ReqSupport (user message : string)
| ReqCheckinNext
| ReqCheckinAnswer (qid : string) (value : Z).

(** The backend as an oracle: the answer to a request is a function of all
    requests issued so far, the last one being the one answered.  [None]:
    the fetch itself fails (its promise rejects). *)
Record Backend : Type := {
  onPlanStart : list Request -> option (Response PlanData);
  onDecision : list Request -> option (Response DecisionData);
  onApply : list Request -> option (Response ApplyData);
  onSupport : list Request -> option (Response SupportData);
  onCheckinNext : list Request -> option (Response NextQ);
  onCheckinAnswer : list Request -> option (Response AnswerData)
}.

(** What a run of the component is given: the host, the backend, the wall
    clock (the [n]-th reading of [Date.now()] or [new Date()]) and the
    [userData.name] prop. *)
Record Env : Type := {
  host : JsDate.Host;
  backend : Backend;
  clock : nat -> Z;
  userName : string
}.

(** *** The state cells *)

(** The [useState] cells of [MainApp] and the ref [initialCountRef]. *)
Record AppState : Type := {
  messages : list ChatMessage;
  inputMessage : string;
  isCalendarConnected : bool;
  activeEmail : option string;
  burnoutScore : option Q;
  needsInitialQuestions : bool;
  questionsAvailable : bool;
  isQuestionnaireOpen : bool;
  cooldownUntil : option Z;
  questionnaireInProgress : bool;
  isSettingsOpen : bool;
  currentSessionId : option string;
  pendingProposals : list Proposal;
  awaitingConsent : bool;
  currentDayProposals : list DayProposal;
  currentDayIndex : nat;
  groupedProposals : Grouped;
  awaitingDayConsent : bool;
  currentQ : option NextQ;
  initialCountRef : nat
}.

(** The setters: the cell named is replaced, the others are kept. *)
Definition setMessages (v : list ChatMessage) (s : AppState) : AppState :=
  {| messages := v; inputMessage := inputMessage s;
     isCalendarConnected := isCalendarConnected s;
     activeEmail := activeEmail s; burnoutScore := burnoutScore s;
     needsInitialQuestions := needsInitialQuestions s;
     questionsAvailable := questionsAvailable s;
     isQuestionnaireOpen := isQuestionnaireOpen s;
     cooldownUntil := cooldownUntil s;
     questionnaireInProgress := questionnaireInProgress s;
     isSettingsOpen := isSettingsOpen s;
     currentSessionId := currentSessionId s;
     pendingProposals := pendingProposals s;
     awaitingConsent := awaitingConsent s;
     currentDayProposals := currentDayProposals s;
     currentDayIndex := currentDayIndex s;
     groupedProposals := groupedProposals s;
     awaitingDayConsent := awaitingDayConsent s; currentQ := currentQ s;
     initialCountRef := initialCountRef s |}.

Definition setInputMessage (v : string) (s : AppState) : AppState :=
  {| messages := messages s; inputMessage := v;
     isCalendarConnected := isCalendarConnected s;
     activeEmail := activeEmail s; burnoutScore := burnoutScore s;
     needsInitialQuestions := needsInitialQuestions s;
     questionsAvailable := questionsAvailable s;
     isQuestionnaireOpen := isQuestionnaireOpen s;
     cooldownUntil := cooldownUntil s;
     questionnaireInProgress := questionnaireInProgress s;
     isSettingsOpen := isSettingsOpen s;
     currentSessionId := currentSessionId s;
     pendingProposals := pendingProposals s;
     awaitingConsent := awaitingConsent s;
     currentDayProposals := currentDayProposals s;
     currentDayIndex := currentDayIndex s;
     groupedProposals := groupedProposals s;
     awaitingDayConsent := awaitingDayConsent s; currentQ := currentQ s;
     initialCountRef := initialCountRef s |}.

Definition setBurnoutScore (v : option Q) (s : AppState) : AppState :=
  {| messages := messages s; inputMessage := inputMessage s;
     isCalendarConnected := isCalendarConnected s;
     activeEmail := activeEmail s; burnoutScore := v;
     needsInitialQuestions := needsInitialQuestions s;
     questionsAvailable := questionsAvailable s;
     isQuestionnaireOpen := isQuestionnaireOpen s;
     cooldownUntil := cooldownUntil s;
     questionnaireInProgress := questionnaireInProgress s;
     isSettingsOpen := isSettingsOpen s;
     currentSessionId := currentSessionId s;
     pendingProposals := pendingProposals s;
     awaitingConsent := awaitingConsent s;
     currentDayProposals := currentDayProposals s;
     currentDayIndex := currentDayIndex s;
     groupedProposals := groupedProposals s;
     awaitingDayConsent := awaitingDayConsent s; currentQ := currentQ s;
     initialCountRef := initialCountRef s |}.

Definition setNeedsInitialQuestions (v : bool) (s : AppState) : AppState :=
  {| messages := messages s; inputMessage := inputMessage s;
     isCalendarConnected := isCalendarConnected s;
     activeEmail := activeEmail s; burnoutScore := burnoutScore s;
     needsInitialQuestions := v; questionsAvailable := questionsAvailable s;
     isQuestionnaireOpen := isQuestionnaireOpen s;
     cooldownUntil := cooldownUntil s;
     questionnaireInProgress := questionnaireInProgress s;
     isSettingsOpen := isSettingsOpen s;
     currentSessionId := currentSessionId s;
     pendingProposals := pendingProposals s;
     awaitingConsent := awaitingConsent s;
     currentDayProposals := currentDayProposals s;
     currentDayIndex := currentDayIndex s;
     groupedProposals := groupedProposals s;
     awaitingDayConsent := awaitingDayConsent s; currentQ := currentQ s;
     initialCountRef := initialCountRef s |}.

Definition setQuestionsAvailable (v : bool) (s : AppState) : AppState :=
  {| messages := messages s; inputMessage := inputMessage s;
     isCalendarConnected := isCalendarConnected s;
     activeEmail := activeEmail s; burnoutScore := burnoutScore s;
     needsInitialQuestions := needsInitialQuestions s;
     questionsAvailable := v; isQuestionnaireOpen := isQuestionnaireOpen s;
     cooldownUntil := cooldownUntil s;
     questionnaireInProgress := questionnaireInProgress s;
     isSettingsOpen := isSettingsOpen s;
     currentSessionId := currentSessionId s;
     pendingProposals := pendingProposals s;
     awaitingConsent := awaitingConsent s;
     currentDayProposals := currentDayProposals s;
     currentDayIndex := currentDayIndex s;
     groupedProposals := groupedProposals s;
     awaitingDayConsent := awaitingDayConsent s; currentQ := currentQ s;
     initialCountRef := initialCountRef s |}.

Definition setIsQuestionnaireOpen (v : bool) (s : AppState) : AppState :=
  {| messages := messages s; inputMessage := inputMessage s;
     isCalendarConnected := isCalendarConnected s;
     activeEmail := activeEmail s; burnoutScore := burnoutScore s;
     needsInitialQuestions := needsInitialQuestions s;
     questionsAvailable := questionsAvailable s; isQuestionnaireOpen := v;
     cooldownUntil := cooldownUntil s;
     questionnaireInProgress := questionnaireInProgress s;
     isSettingsOpen := isSettingsOpen s;
     currentSessionId := currentSessionId s;
     pendingProposals := pendingProposals s;
     awaitingConsent := awaitingConsent s;
     currentDayProposals := currentDayProposals s;
     currentDayIndex := currentDayIndex s;
     groupedProposals := groupedProposals s;
     awaitingDayConsent := awaitingDayConsent s; currentQ := currentQ s;
     initialCountRef := initialCountRef s |}.

Definition setCooldownUntil (v : option Z) (s : AppState) : AppState :=
  {| messages := messages s; inputMessage := inputMessage s;
     isCalendarConnected := isCalendarConnected s;
     activeEmail := activeEmail s; burnoutScore := burnoutScore s;
     needsInitialQuestions := needsInitialQuestions s;
     questionsAvailable := questionsAvailable s;
     isQuestionnaireOpen := isQuestionnaireOpen s; cooldownUntil := v;
     questionnaireInProgress := questionnaireInProgress s;
     isSettingsOpen := isSettingsOpen s;
     currentSessionId := currentSessionId s;
     pendingProposals := pendingProposals s;
     awaitingConsent := awaitingConsent s;
     currentDayProposals := currentDayProposals s;
     currentDayIndex := currentDayIndex s;
     groupedProposals := groupedProposals s;
     awaitingDayConsent := awaitingDayConsent s; currentQ := currentQ s;
     initialCountRef := initialCountRef s |}.

Definition setQuestionnaireInProgress (v : bool) (s : AppState) : AppState :=
  {| messages := messages s; inputMessage := inputMessage s;
     isCalendarConnected := isCalendarConnected s;
     activeEmail := activeEmail s; burnoutScore := burnoutScore s;
     needsInitialQuestions := needsInitialQuestions s;
     questionsAvailable := questionsAvailable s;
     isQuestionnaireOpen := isQuestionnaireOpen s;
     cooldownUntil := cooldownUntil s; questionnaireInProgress := v;
     isSettingsOpen := isSettingsOpen s;
     currentSessionId := currentSessionId s;
     pendingProposals := pendingProposals s;
     awaitingConsent := awaitingConsent s;
     currentDayProposals := currentDayProposals s;
     currentDayIndex := currentDayIndex s;
     groupedProposals := groupedProposals s;
     awaitingDayConsent := awaitingDayConsent s; currentQ := currentQ s;
     initialCountRef := initialCountRef s |}.

Definition setCurrentSessionId (v : option string) (s : AppState) : AppState :=
  {| messages := messages s; inputMessage := inputMessage s;
     isCalendarConnected := isCalendarConnected s;
     activeEmail := activeEmail s; burnoutScore := burnoutScore s;
     needsInitialQuestions := needsInitialQuestions s;
     questionsAvailable := questionsAvailable s;
     isQuestionnaireOpen := isQuestionnaireOpen s;
     cooldownUntil := cooldownUntil s;
     questionnaireInProgress := questionnaireInProgress s;
     isSettingsOpen := isSettingsOpen s; currentSessionId := v;
     pendingProposals := pendingProposals s;
     awaitingConsent := awaitingConsent s;
     currentDayProposals := currentDayProposals s;
     currentDayIndex := currentDayIndex s;
     groupedProposals := groupedProposals s;
     awaitingDayConsent := awaitingDayConsent s; currentQ := currentQ s;
     initialCountRef := initialCountRef s |}.

Definition setPendingProposals (v : list Proposal) (s : AppState) : AppState :=
  {| messages := messages s; inputMessage := inputMessage s;
     isCalendarConnected := isCalendarConnected s;
     activeEmail := activeEmail s; burnoutScore := burnoutScore s;
     needsInitialQuestions := needsInitialQuestions s;
     questionsAvailable := questionsAvailable s;
     isQuestionnaireOpen := isQuestionnaireOpen s;
     cooldownUntil := cooldownUntil s;
     questionnaireInProgress := questionnaireInProgress s;
     isSettingsOpen := isSettingsOpen s;
     currentSessionId := currentSessionId s; pendingProposals := v;
     awaitingConsent := awaitingConsent s;
     currentDayProposals := currentDayProposals s;
     currentDayIndex := currentDayIndex s;
     groupedProposals := groupedProposals s;
     awaitingDayConsent := awaitingDayConsent s; currentQ := currentQ s;
     initialCountRef := initialCountRef s |}.

Definition setAwaitingConsent (v : bool) (s : AppState) : AppState :=
  {| messages := messages s; inputMessage := inputMessage s;
     isCalendarConnected := isCalendarConnected s;
     activeEmail := activeEmail s; burnoutScore := burnoutScore s;
     needsInitialQuestions := needsInitialQuestions s;
     questionsAvailable := questionsAvailable s;
     isQuestionnaireOpen := isQuestionnaireOpen s;
     cooldownUntil := cooldownUntil s;
     questionnaireInProgress := questionnaireInProgress s;
     isSettingsOpen := isSettingsOpen s;
     currentSessionId := currentSessionId s;
     pendingProposals := pendingProposals s; awaitingConsent := v;
     currentDayProposals := currentDayProposals s;
     currentDayIndex := currentDayIndex s;
     groupedProposals := groupedProposals s;
     awaitingDayConsent := awaitingDayConsent s; currentQ := currentQ s;
     initialCountRef := initialCountRef s |}.

Definition setCurrentDayProposals (v : list DayProposal) (s : AppState) : AppState :=
  {| messages := messages s; inputMessage := inputMessage s;
     isCalendarConnected := isCalendarConnected s;
     activeEmail := activeEmail s; burnoutScore := burnoutScore s;
     needsInitialQuestions := needsInitialQuestions s;
     questionsAvailable := questionsAvailable s;
     isQuestionnaireOpen := isQuestionnaireOpen s;
     cooldownUntil := cooldownUntil s;
     questionnaireInProgress := questionnaireInProgress s;
     isSettingsOpen := isSettingsOpen s;
     currentSessionId := currentSessionId s;
     pendingProposals := pendingProposals s;
     awaitingConsent := awaitingConsent s; currentDayProposals := v;
     currentDayIndex := currentDayIndex s;
     groupedProposals := groupedProposals s;
     awaitingDayConsent := awaitingDayConsent s; currentQ := currentQ s;
     initialCountRef := initialCountRef s |}.

Definition setCurrentDayIndex (v : nat) (s : AppState) : AppState :=
  {| messages := messages s; inputMessage := inputMessage s;
     isCalendarConnected := isCalendarConnected s;
     activeEmail := activeEmail s; burnoutScore := burnoutScore s;
     needsInitialQuestions := needsInitialQuestions s;
     questionsAvailable := questionsAvailable s;
     isQuestionnaireOpen := isQuestionnaireOpen s;
     cooldownUntil := cooldownUntil s;
     questionnaireInProgress := questionnaireInProgress s;
     isSettingsOpen := isSettingsOpen s;
     currentSessionId := currentSessionId s;
     pendingProposals := pendingProposals s;
     awaitingConsent := awaitingConsent s;
     currentDayProposals := currentDayProposals s; currentDayIndex := v;
     groupedProposals := groupedProposals s;
     awaitingDayConsent := awaitingDayConsent s; currentQ := currentQ s;
     initialCountRef := initialCountRef s |}.

Definition setGroupedProposals (v : Grouped) (s : AppState) : AppState :=
  {| messages := messages s; inputMessage := inputMessage s;
     isCalendarConnected := isCalendarConnected s;
     activeEmail := activeEmail s; burnoutScore := burnoutScore s;
     needsInitialQuestions := needsInitialQuestions s;
     questionsAvailable := questionsAvailable s;
     isQuestionnaireOpen := isQuestionnaireOpen s;
     cooldownUntil := cooldownUntil s;
     questionnaireInProgress := questionnaireInProgress s;
     isSettingsOpen := isSettingsOpen s;
     currentSessionId := currentSessionId s;
     pendingProposals := pendingProposals s;
     awaitingConsent := awaitingConsent s;
     currentDayProposals := currentDayProposals s;
     currentDayIndex := currentDayIndex s; groupedProposals := v;
     awaitingDayConsent := awaitingDayConsent s; currentQ := currentQ s;
     initialCountRef := initialCountRef s |}.

Definition setAwaitingDayConsent (v : bool) (s : AppState) : AppState :=
  {| messages := messages s; inputMessage := inputMessage s;
     isCalendarConnected := isCalendarConnected s;
     activeEmail := activeEmail s; burnoutScore := burnoutScore s;
     needsInitialQuestions := needsInitialQuestions s;
     questionsAvailable := questionsAvailable s;
     isQuestionnaireOpen := isQuestionnaireOpen s;
     cooldownUntil := cooldownUntil s;
     questionnaireInProgress := questionnaireInProgress s;
     isSettingsOpen := isSettingsOpen s;
     currentSessionId := currentSessionId s;
     pendingProposals := pendingProposals s;
     awaitingConsent := awaitingConsent s;
     currentDayProposals := currentDayProposals s;
     currentDayIndex := currentDayIndex s;
     groupedProposals := groupedProposals s; awaitingDayConsent := v;
     currentQ := currentQ s; initialCountRef := initialCountRef s |}.

Definition setCurrentQ (v : option NextQ) (s : AppState) : AppState :=
  {| messages := messages s; inputMessage := inputMessage s;
     isCalendarConnected := isCalendarConnected s;
     activeEmail := activeEmail s; burnoutScore := burnoutScore s;
     needsInitialQuestions := needsInitialQuestions s;
     questionsAvailable := questionsAvailable s;
     isQuestionnaireOpen := isQuestionnaireOpen s;
     cooldownUntil := cooldownUntil s;
     questionnaireInProgress := questionnaireInProgress s;
     isSettingsOpen := isSettingsOpen s;
     currentSessionId := currentSessionId s;
     pendingProposals := pendingProposals s;
     awaitingConsent := awaitingConsent s;
     currentDayProposals := currentDayProposals s;
     currentDayIndex := currentDayIndex s;
     groupedProposals := groupedProposals s;
     awaitingDayConsent := awaitingDayConsent s; currentQ := v;
     initialCountRef := initialCountRef s |}.

Definition setInitialCountRef (v : nat) (s : AppState) : AppState :=
  {| messages := messages s; inputMessage := inputMessage s;
     isCalendarConnected := isCalendarConnected s;
     activeEmail := activeEmail s; burnoutScore := burnoutScore s;
     needsInitialQuestions := needsInitialQuestions s;
     questionsAvailable := questionsAvailable s;
     isQuestionnaireOpen := isQuestionnaireOpen s;
     cooldownUntil := cooldownUntil s;
     questionnaireInProgress := questionnaireInProgress s;
     isSettingsOpen := isSettingsOpen s;
     currentSessionId := currentSessionId s;
     pendingProposals := pendingProposals s;
     awaitingConsent := awaitingConsent s;
     currentDayProposals := currentDayProposals s;
     currentDayIndex := currentDayIndex s;
     groupedProposals := groupedProposals s;
     awaitingDayConsent := awaitingDayConsent s; currentQ := currentQ s;
     initialCountRef := v |}.

(** *** Effects *)

(** What [setTimeout] queues: the three callbacks of the component. *)
Inductive Deferred : Type :=
| ShowDayPrompt (nextDay : list DayProposal)
| StartApproval (proposals : list Proposal) (sessionId : option string)
| MakeQuestionsAvailable.

(** The world a handler runs in: the state cells, the requests issued so
    far (oldest first), the queued timers with their delay in
    milliseconds, and how often the clock has been read. *)
Record World : Type := {
  app : AppState;
  calls : list Request;
  timers : list (Z * Deferred);
  clockReads : nat
}.

(** How an [async] function ends: it returns or it throws. *)
Inductive Outcome (A : Type) : Type :=
| Returned (a : A)
| Thrown.
Arguments Returned {A} a.
Arguments Thrown {A}.

Definition M (A : Type) : Type := World -> Outcome A * World.

Definition ret {A : Type} (a : A) : M A := fun w => (Returned a, w).

Definition bind {A B : Type} (m : M A) (k : A -> M B) : M B :=
  fun w =>
    match m w with
    | (Returned a, w') => k a w'
    | (Thrown, w') => (Thrown, w')
    end.

Definition throw {A : Type} : M A := fun w => (Thrown, w).

(** [try { m } catch { handler }]: what [m] did before it threw stays. *)
Definition tryCatch {A : Type} (m : M A) (handler : M A) : M A :=
  fun w =>
    match m w with
    | (Returned a, w') => (Returned a, w')
    | (Thrown, w') => handler w'
    end.

Notation "x <- m ;; k" := (bind m (fun x => k))
  (at level 61, m at next level, right associativity).
Notation "m ;; k" := (bind m (fun _ => k))
  (at level 61, right associativity).

(** A setter call. *)
Definition set (f : AppState -> AppState) : M unit :=
  fun w =>
    (Returned tt,
     {| app := f (app w); calls := calls w; timers := timers w;
        clockReads := clockReads w |}).

(** The current value of the ref. *)
Definition readRef : M nat := fun w => (Returned (initialCountRef (app w)), w).

(** [Date.now()], [new Date()]. *)
Definition Date_now (env : Env) : M Z :=
  fun w =>
    (Returned (clock env (clockReads w)),
     {| app := app w; calls := calls w; timers := timers w;
        clockReads := S (clockReads w) |}).

(** [setTimeout(callback, delay)]. *)
Definition setTimeout (callback : Deferred) (delay : Z) : M unit :=
  fun w =>
    (Returned tt,
     {| app := app w; calls := calls w;
        timers := (timers w ++ [(delay, callback)])%list;
        clockReads := clockReads w |}).

(** [await fetch(...)]: the request is logged, the oracle answers, a
    failed fetch throws. *)
Definition fetch {A : Type} (answer : list Request -> option (Response A))
    (req : Request) : M (Response A) :=
  fun w =>
    let log := (calls w ++ [req])%list in
    let w' := {| app := app w; calls := log; timers := timers w;
                 clockReads := clockReads w |} in
    match answer log with
    | Some res => (Returned res, w')
    | None => (Thrown, w')
    end.

(** [await res.json()]. *)
Definition json {A : Type} (res : Response A) : M A :=
  match body res with
  | Some data => ret data
  | None => throw
  end.

(** *** Messages *)

(** A message object built in place:
    [{id: (Date.now() + k).toString(), sender, message, timestamp: new Date()}].
    The clock is read where the object is written; React runs the updater
    that holds it a little later, which only moves the two readings. *)
Definition newMessage (env : Env) (k : Z) (who : Sender) (msg : string)
  : M ChatMessage :=
  now <- Date_now env ;;
  date <- Date_now env ;;
  ret {| id := intText (now + k); sender := who; message := msg;
         timestamp := date |}.

(** [createMessage(message)], the sender left at its default. *)
Definition createMessage (env : Env) (msg : string) : M ChatMessage :=
  newMessage env 0 buddy msg.

(** [setMessages(prev => [...prev, m])]. *)
Definition appendMessage (m : ChatMessage) : M unit :=
  set (fun s => setMessages (messages s ++ [m])%list s).

(** A message of the assistant built in place and appended. *)
Definition say (env : Env) (k : Z) (msg : string) : M unit :=
  m <- newMessage env k buddy msg ;; appendMessage m.

(** JavaScript truthiness of a string that may be absent. *)
Definition truthy (o : option string) : bool :=
  match o with
  | Some s => negb (String.eqb s "")
  | None => false
  end.

(** [o || fallback]. *)
Definition orElse (o : option string) (fallback : string) : string :=
  if truthy o then match o with Some s => s | None => fallback end
  else fallback.

(** How a value that may be [undefined] prints in a template literal. *)
Definition orUndefined (o : option string) : string :=
  match o with Some s => s | None => "undefined" end.

(** *** Planning *)

(** What [planWithManager] returns: [{ok: false, message, rawText}] or
    [{ok: true, proposals, sessionId, detailedAnalysis, text}]. *)
Inductive Plan : Type :=
| PlanFailed (message : string) (rawText : option string)
| PlanReady (proposals : list Proposal) (sessionId : option string)
    (detailedAnalysis : string) (text : string).

(** [planWithManager(days)], created in the render with cells [s]. *)
Definition planWithManager (env : Env) (s : AppState) (days : Z) : M Plan :=
  if negb (truthy (activeEmail s)) then
    ret (PlanFailed "Please connect Google Calendar first." None)
  else
    res <- fetch (onPlanStart (backend env))
             (ReqPlanStart (orUndefined (activeEmail s)) (userName env) days) ;;
    if (status res =? 401)%Z then
      ret (PlanFailed "Authorization required. Connect Google Calendar first." None)
    else if negb (ok res) then
      ret (PlanFailed ("Planner error: " ++ bodyText res) None)
    else
      data <- json res ;;
      if finished data && negb (truthy (session_id data)) then
        ret (PlanFailed (orElse (plan_message data) "No suggestions at this time.")
               (raw_text data))
      else
        let (allProposals, detailedAnalysis) :=
          if truthy (raw_text data) then readRawText (orUndefined (raw_text data))
          else ([], "") in
        ret (PlanReady allProposals (session_id data) detailedAnalysis
               (orElse (raw_text data) "")).

(** [grouped[key]] for a key taken from [Object.keys(grouped)]. *)
Definition dayOf (key : string) (grouped : Grouped) : list DayProposal :=
  match lookup key grouped with
  | Some day => day
  | None => []
  end.

(** [startDayByDayApproval(proposals, sessionId)]. *)
Definition startDayByDayApproval (env : Env) (proposals : list Proposal)
    (sessionId : option string) : M unit :=
  match groupProposalsByDay (host env) proposals with
  | None => throw
  | Some grouped =>
      let dayKeys := sortedDayKeys grouped in
      set (setGroupedProposals grouped) ;;
      set (setCurrentDayIndex 0) ;;
      set (setCurrentSessionId sessionId) ;;
      match dayKeys with
      | [] => ret tt
      | key :: _ =>
          let firstDay := dayOf key grouped in
          set (setCurrentDayProposals firstDay) ;;
          set (setAwaitingDayConsent true) ;;
          m <- createMessage env (dayPrompt (host env) firstDay) ;;
          appendMessage m
      end
  end.

(** *** The day-by-day review *)

(** Whether a decision response counts: [res.ok] and
    [result.result?.status === "scheduled"]. *)
Definition isScheduled (data : DecisionData) : bool :=
  match result_status data with
  | Some st => String.eqb st "scheduled"
  | None => false
  end.

(** The body of the accept loop for one proposal, [acceptedCount] passed
    through: the [try] with its [catch], which only logs. *)
Definition acceptOne (env : Env) (s : AppState) (acceptedCount : nat) : M nat :=
  tryCatch
    (res <- fetch (onDecision (backend env))
              (ReqDecision (currentSessionId s) true) ;;
     if ok res then
       result <- json res ;;
       if isScheduled result then ret (S acceptedCount) else ret acceptedCount
     else ret acceptedCount)
    (ret acceptedCount).

(** [for (const proposal of currentDayProposals) { try ... }], accept path. *)
Fixpoint acceptLoop (env : Env) (s : AppState) (day : list DayProposal)
    (acceptedCount : nat) : M nat :=
  match day with
  | [] => ret acceptedCount
  | _ :: rest =>
      n <- acceptOne env s acceptedCount ;; acceptLoop env s rest n
  end.

(** The body of the reject loop for one proposal. *)
Definition rejectOne (env : Env) (s : AppState) : M unit :=
  tryCatch
    (fetch (onDecision (backend env)) (ReqDecision (currentSessionId s) false) ;;
     ret tt)
    (ret tt).

Fixpoint rejectLoop (env : Env) (s : AppState) (day : list DayProposal)
  : M unit :=
  match day with
  | [] => ret tt
  | _ :: rest => rejectOne env s ;; rejectLoop env s rest
  end.

(** [currentDayProposals[0]?.dayLabel] inside a template literal. *)
Definition firstDayLabel (day : list DayProposal) : string :=
  match day with
  | first :: _ => dayLabel first
  | [] => "undefined"
  end.

(** The summary of an accepted day. *)
Definition addedText (acceptedCount : nat) (day : list DayProposal) : string :=
  "Added " ++ natText acceptedCount ++ " activities for " ++ firstDayLabel day
  ++ " ✅".

Definition skippedText (day : list DayProposal) : string :=
  "Skipped activities for " ++ firstDayLabel day.

Definition finishedText : string :=
  "Finished reviewing all days! Let me know if you need anything else.".

(** [handleDayApproval(approve)], created in the render with cells [s]. *)
Definition handleDayApproval (env : Env) (s : AppState) (approve : bool)
  : M unit :=
  let dayKeys := sortedDayKeys (groupedProposals s) in
  (if approve && (0 <? List.length (currentDayProposals s))%nat then
     acceptedCount <- acceptLoop env s (currentDayProposals s) 0 ;;
     say env 1 (addedText acceptedCount (currentDayProposals s))
   else
     rejectLoop env s (currentDayProposals s) ;;
     say env 1 (skippedText (currentDayProposals s))) ;;
  let nextDayIndex := (currentDayIndex s + 1)%nat in
  if (nextDayIndex <? List.length dayKeys)%nat then
    set (setCurrentDayIndex nextDayIndex) ;;
    let nextDay := dayOf (nth nextDayIndex dayKeys "") (groupedProposals s) in
    set (setCurrentDayProposals nextDay) ;;
    setTimeout (ShowDayPrompt nextDay) 1000
  else
    set (setAwaitingDayConsent false) ;;
    set (setCurrentSessionId None) ;;
    set (setGroupedProposals []) ;;
    set (setCurrentDayProposals []) ;;
    set (setCurrentDayIndex 0) ;;
    say env 3 finishedText.

(** *** The legacy all-at-once consent *)

(** What the two apply functions return, as far as the caller reads it. *)
Record Applied : Type := {
  applied_ok : bool;
  applied_count : option Z;
  applied_message : option string
}.

(** [applyProposalsDirect(proposals)]; the spread [{ok: true, ...data}]
    lets a member [ok] of the body win. *)
Definition applyProposalsDirect (env : Env) (s : AppState)
    (proposals : list Proposal) : M Applied :=
  if negb (truthy (activeEmail s)) then
    ret {| applied_ok := false; applied_count := None;
           applied_message := Some "No authorized calendar email." |}
  else
    res <- fetch (onApply (backend env))
             (ReqApply (orUndefined (activeEmail s)) proposals) ;;
    if negb (ok res) then
      ret {| applied_ok := false; applied_count := None;
             applied_message := Some ("Apply error: " ++ bodyText res) |}
    else
      data <- json res ;;
      ret {| applied_ok := match apply_ok data with Some b => b | None => true end;
             applied_count := apply_count data;
             applied_message := apply_message data |}.

(** The loop of [applyProposalsWithManager]: [accepted] passed through, a
    [break] ending it. *)
Fixpoint applyLoop (env : Env) (sessionId : option string)
    (proposals : list Proposal) (accepted : list string) : M (list string) :=
  match proposals with
  | [] => ret accepted
  | p :: rest =>
      res <- fetch (onDecision (backend env)) (ReqDecision sessionId true) ;;
      if negb (ok res) then ret accepted
      else
        result <- json res ;;
        let accepted' :=
          if isScheduled result then (accepted ++ [summary p])%list
          else accepted in
        if decision_finished result then ret accepted'
        else applyLoop env sessionId rest accepted'
  end.

(** [applyProposalsWithManager(sessionId, proposals)]. *)
Definition applyProposalsWithManager (env : Env) (s : AppState)
    (sessionId : option string) (proposals : list Proposal) : M Applied :=
  if negb (truthy sessionId) then applyProposalsDirect env s proposals
  else
    accepted <- applyLoop env sessionId proposals [] ;;
    ret {| applied_ok := true;
           applied_count := Some (Z.of_nat (List.length accepted));
           applied_message := None |}.

(** *** The chat handler *)

Definition dayRepromptText : string :=
  "Please reply with **yes** or **no** for this day's activities.".

(** [handleSendMessage()], created in the render with cells [s]. *)
Definition handleSendMessage (env : Env) (s : AppState) : M unit :=
  let userText := trim (inputMessage s) in
  if String.eqb userText "" then ret tt
  else
    m <- newMessage env 0 user userText ;;
    appendMessage m ;;
    set (setInputMessage "") ;;
    (* 1) waiting for day-by-day consent *)
    if awaitingDayConsent s then
      let reply := toLowerCase userText in
      if isYes reply then handleDayApproval env s true
      else if isNo reply then handleDayApproval env s false
      else say env 1 dayRepromptText
    (* 2) waiting for the old all-at-once consent *)
    else if awaitingConsent s then
      let reply := toLowerCase userText in
      if isYes reply then
        res <- applyProposalsWithManager env s (currentSessionId s)
                 (pendingProposals s) ;;
        (if applied_ok res then
           say env 1
             ("Added "
              ++ match applied_count res with
                 | Some n => intText n
                 | None => "undefined"
                 end
              ++ " item(s) to your Google Calendar ✅")
         else
           say env 1
             (orElse (applied_message res)
                "Something went wrong while applying the plan.")) ;;
        set (setPendingProposals []) ;;
        set (setCurrentSessionId None) ;;
        set (setAwaitingConsent false)
      else if isNo reply then
        say env 1 "No problem—nothing was added. Tell me if you want to plan again." ;;
        set (setPendingProposals []) ;;
        set (setCurrentSessionId None) ;;
        set (setAwaitingConsent false)
      else say env 1 "Please reply with **yes** or **no**."
    (* 3) a request to schedule or plan *)
    else if wantsSchedulingIntent userText then
      plan <- planWithManager env s 3 ;;
      match plan with
      | PlanReady proposals sessionId detailedAnalysis _ =>
          if (0 <? List.length proposals)%nat then
            (if String.eqb detailedAnalysis "" then ret tt
             else say env 1 detailedAnalysis) ;;
            setTimeout (StartApproval proposals sessionId) 2000
          else ret tt
      | PlanFailed message _ => say env 2 message
      end
    (* 4) the advisor *)
    else
      tryCatch
        (resp <- fetch (onSupport (backend env))
                   (ReqSupport (userName env) userText) ;;
         data <- json resp ;;
         m <- createMessage env
                (orElse (support_text data) "I understand. How can I help further?") ;;
         appendMessage m)
        (m <- createMessage env
                "I'm having trouble connecting right now. Please try again in a moment." ;;
         appendMessage m).

(** The [onClick] of the reset-conversation button. *)
Definition resetConversation (env : Env) : M unit :=
  date <- Date_now env ;;
  set (setMessages
         [ {| id := "1"; sender := buddy;
              message := "Hi " ++ userName env
                         ++ "! I'm your Unfrazzle Buddy. How can I support you today?";
              timestamp := date |} ]) ;;
  set (setInputMessage "") ;;
  set (setPendingProposals []) ;;
  set (setAwaitingConsent false).

(** *** The check-in questionnaire *)

(** [loadNextQuestion()]. *)
Definition loadNextQuestion (env : Env) : M unit :=
  res <- fetch (onCheckinNext (backend env)) ReqCheckinNext ;;
  if negb (ok res) then throw
  else
    q <- json res ;;
    set (setCurrentQ (Some q)).

(** [answerQuestion(qid, value)]. *)
Definition answerQuestion (env : Env) (qid : string) (value : Z)
  : M AnswerData :=
  res <- fetch (onCheckinAnswer (backend env)) (ReqCheckinAnswer qid value) ;;
  if negb (ok res) then throw
  else
    data <- json res ;;
    match bs data with
    | Some score => set (setBurnoutScore (Some score))
    | None => ret tt
    end ;;
    let mins := next_interval_min data in
    (if (0 <? mins)%Z then
       now <- Date_now env ;;
       let until := (now + mins * 60000)%Z in
       set (setCooldownUntil (Some until)) ;;
       set (setQuestionsAvailable false) ;;
       setTimeout MakeQuestionsAvailable (mins * 60000)
     else ret tt) ;;
    ret data.

(** The effect on [isQuestionnaireOpen], run after a render in which the
    cell changed. *)
Definition questionnaireEffect (env : Env) (s : AppState) : M unit :=
  if isQuestionnaireOpen s then
    set (setInitialCountRef 0) ;;
    set (setQuestionnaireInProgress true) ;;
    tryCatch (loadNextQuestion env) (set (setCurrentQ None))
  else set (setQuestionnaireInProgress false).

(** The [onClick] of the check-in button. *)
Definition openCheckin (s : AppState) : M unit :=
  let checkinDisabled := negb (questionsAvailable s) in
  if negb checkinDisabled then set (setIsQuestionnaireOpen true) else ret tt.

(** [submitAnswer(value)], created in the render with cells [s]. *)
Definition submitAnswer (env : Env) (s : AppState) (value : Z) : M unit :=
  match currentQ s with
  | None => ret tt
  | Some q =>
      tryCatch
        (answerQuestion env (qid q) value ;;
         n <- readRef ;;
         set (setInitialCountRef (n + 1)) ;;
         if ((n + 1 <? 5)%nat && needsInitialQuestions s)%bool then
           loadNextQuestion env
         else
           set (setNeedsInitialQuestions false) ;;
           set (setIsQuestionnaireOpen false) ;;
           set (setQuestionsAvailable false) ;;
           set (setQuestionnaireInProgress false) ;;
           thanks <- createMessage env "Thanks for completing your check-in." ;;
           appendMessage thanks ;;
           if negb (truthy (activeEmail s)) then
             m <- createMessage env
                    "To suggest restorative activities, please connect your Google Calendar (middle panel)." ;;
             appendMessage m
           else
             plan <- planWithManager env s 3 ;;
             match plan with
             | PlanReady proposals sessionId detailedAnalysis _ =>
                 if (0 <? List.length proposals)%nat then
                   (if String.eqb detailedAnalysis "" then ret tt
                    else
                      m <- createMessage env detailedAnalysis ;;
                      appendMessage m) ;;
                   startDayByDayApproval env proposals sessionId
                 else ret tt
             | PlanFailed message _ => say env 2 message
             end)
        (say env 1 "Hmm, I couldn't record that answer. Please try again.")
  end.

(** What a queued timer does when it fires. *)
Definition fire (env : Env) (callback : Deferred) : M unit :=
  match callback with
  | ShowDayPrompt nextDay => say env 2 (dayPrompt (host env) nextDay)
  | StartApproval proposals sessionId =>
      startDayByDayApproval env proposals sessionId
  | MakeQuestionsAvailable => set (setQuestionsAvailable true)
  end.

(** A handler run on the cells of the world it starts in. *)
Definition onSend (env : Env) : M unit :=
  fun w => handleSendMessage env (app w) w.

Definition onAnswer (env : Env) (value : Z) : M unit :=
  fun w => submitAnswer env (app w) value w.

End App.

(** ** What the properties speak of *)

Module Views.
Import JsString MainApp App.
Local Open Scope string_scope.

(** *** Day groups *)

Definition ascending (a b : string) : Prop := String.leb a b = true.

Definition strictlyAscending (a b : string) : Prop := String.ltb a b = true.

(** The day key of an element of a group: that of its proposal. *)
Definition keyOf (h : JsDate.Host) (v : DayProposal) : string :=
  match dated h (proposal v) with
  | Some (k, _) => k
  | None => ""
  end.

(** The elements the loop pushes, in the order of the input. *)
Fixpoint elements (h : JsDate.Host) (proposals : list Proposal)
  : list DayProposal :=
  match proposals with
  | [] => []
  | p :: rest =>
      match dated h p with
      | Some (_, v) => v :: elements h rest
      | None => elements h rest
      end
  end.

(** The members of the group of key [k] among [vs], in their order. *)
Definition ofDay (h : JsDate.Host) (k : string) (vs : list DayProposal)
  : list DayProposal :=
  filter (fun v => String.eqb (keyOf h v) k) vs.

(** The groups read in ascending key order, one after the other. *)
Definition flattened (grouped : Grouped) : list DayProposal :=
  flat_map (fun k => App.dayOf k grouped) (sortedDayKeys grouped).

(** What the loop keeps true of [grouped] once the elements [vs] are in:
    the keys are distinct, and under each key sits the list of the
    elements of that day, in their order, present only if not empty. *)
Definition groups (h : JsDate.Host) (vs : list DayProposal) (g : Grouped) : Prop :=
  NoDup (map fst g)
  /\ forall k, lookup k g
               = match ofDay h k vs with [] => None | day => Some day end.

(** *** Worlds *)

(** The world [w] with its cells replaced and [reads] more clock
    readings. *)
Definition withApp (s : AppState) (reads : nat) (w : World) : World :=
  {| app := s; calls := calls w; timers := timers w;
     clockReads := reads + clockReads w |}.

(** The world [w] after the requests [new]. *)
Definition afterCalls (new : list Request) (w : World) : World :=
  {| app := app w; calls := (calls w ++ new)%list; timers := timers w;
     clockReads := clockReads w |}.

(** Whether the decision call that completes the log [log] counts as
    scheduled: the fetch succeeds, the response is ok and its body reads
    [result.status = "scheduled"]. *)
Definition scheduledAt (env : Env) (log : list Request) : bool :=
  match onDecision (backend env) log with
  | Some res =>
      ok res
      && match body res with
         | Some data => isScheduled data
         | None => false
         end
  | None => false
  end.

(** Of [n] calls [req] issued one after the other from the log [log], the
    number that count as scheduled. *)
Definition scheduledCount (env : Env) (log : list Request) (req : Request)
    (n : nat) : nat :=
  List.length
    (filter (scheduledAt env)
       (map (fun i => (log ++ repeat req i)%list) (seq 1 n))).

(** *** What a later check-in answer leaves alone *)



End Views.

(** ** A run to try things on *)

Module Scenario.
Import JsString MainApp App Views.
Local Open Scope string_scope.

Definition walk : Proposal :=
  {| type := ""; summary := "Walk"; start := "2024-01-02T09:00";
     end_ := "2024-01-02T09:30"; reason := None |}.

Definition meditate : Proposal :=
  {| type := ""; summary := "Meditate"; start := "2024-01-03T08:00";
     end_ := "2024-01-03T08:15"; reason := None |}.

Definition stretch : Proposal :=
  {| type := ""; summary := "Stretch"; start := "2024-01-02T12:00";
     end_ := "2024-01-02T12:10"; reason := None |}.

Definition nap : Proposal :=
  {| type := ""; summary := "Nap"; start := "2024-01-02T15:00";
     end_ := "2024-01-02T15:20"; reason := Some "low energy after lunch" |}.

Definition scheduled : Response DecisionData :=
  {| status := 200; bodyText := "";
     body := Some {| result_status := Some "scheduled";
                     decision_finished := false |} |}.

Definition isDecision (req : Request) : bool :=
  match req with
  | ReqDecision _ _ => true
  | _ => false
  end.

Definition answered : Response AnswerData :=
  {| status := 200; bodyText := "";
     body := Some {| bs := Some (2 # 5)%Q; next_interval_min := 90 |} |}.

(** A backend that schedules every decision except the second one of a
    run, whose fetch fails; it records answers and is otherwise down. *)
Definition secondDecisionFails : Backend :=
  {| onPlanStart := fun _ => None;
     onDecision := fun log =>
       if (List.length (filter isDecision log) =? 2)%nat then None
       else Some scheduled;
     onApply := fun _ => None;
     onSupport := fun _ => None;
     onCheckinNext := fun _ => None;
     onCheckinAnswer := fun _ => Some answered |}.

Definition envAt (h : JsDate.Host) : Env :=
  {| host := h; backend := secondDecisionFails;
     clock := fun n => (1704150000000 + Z.of_nat n)%Z; userName := "Ada" |}.

(** The cells of the first render, the calendar connected. *)
Definition initial : AppState :=
  {| messages :=
       [ {| id := "1"; sender := buddy;
            message := "Hi Ada! I'm your Unfrazzle Buddy. How can I support you today?";
            timestamp := 1704150000000 |} ];
     inputMessage := "";
     isCalendarConnected := true;
     activeEmail := Some "ada@example.org";
     burnoutScore := None;
     needsInitialQuestions := true;
     questionsAvailable := true;
     isQuestionnaireOpen := false;
     cooldownUntil := None;
     questionnaireInProgress := false;
     isSettingsOpen := false;
     currentSessionId := None;
     pendingProposals := [];
     awaitingConsent := false;
     currentDayProposals := [];
     currentDayIndex := 0;
     groupedProposals := [];
     awaitingDayConsent := false;
     currentQ := None;
     initialCountRef := 0 |}.

Definition opening : World :=
  {| app := initial; calls := []; timers := []; clockReads := 0 |}.

(** The world once a review of the proposals has started. *)
Definition reviewing (h : JsDate.Host) (proposals : list Proposal) : World :=
  snd (startDayByDayApproval (envAt h) proposals (Some "session-1") opening).


(** The user has typed [text] into the input. *)
Definition typing (text : string) (w : World) : World :=
  withApp (setInputMessage text (app w)) 0 w.

(** The questionnaire open on a question after the initial assessment. *)
Definition laterCheckin : World :=
  withApp
    (setCurrentQ (Some {| qid := "q6"; text := "How rested do you feel?" |})
       (setQuestionnaireInProgress true
          (setIsQuestionnaireOpen true
             (setNeedsInitialQuestions false initial))))
    0 opening.

End Scenario.

(** ** The day-by-day review as a run *)

Module ReviewRun.
Import JsString MainApp App Views.
Local Open Scope string_scope.

(** The day groups in the order the review visits them. *)
Definition daysInOrder (grouped : Grouped) : list (list DayProposal) :=
  map (fun k => dayOf k grouped) (sortedDayKeys grouped).

(** The requests one reply sends for a day. *)
Definition decisionsFor (sessionId : option string) (approve : bool)
    (day : list DayProposal) : list Request :=
  repeat (ReqDecision sessionId approve) (List.length day).

(** The path [handleDayApproval] takes: the accept loop runs only for an
    approval of a day that holds proposals. *)
Definition accepts (s : AppState) (approve : bool) : bool :=
  approve && (0 <? List.length (currentDayProposals s))%nat.

(** The summary a reply is answered with: [Added N ...], N counted over
    the calls issued from the log [log], or [Skipped ...]. *)
Definition summaryText (env : Env) (s : AppState) (approve : bool)
    (log : list Request) : string :=
  if accepts s approve then
    addedText
      (scheduledCount env log (ReqDecision (currentSessionId s) true)
         (List.length (currentDayProposals s)))
      (currentDayProposals s)
  else skippedText (currentDayProposals s).

(** Whether a day is left after the current one of the cells [s]. *)
Definition moreDays (s : AppState) : bool :=
  (currentDayIndex s + 1
   <? List.length (sortedDayKeys (groupedProposals s)))%nat.

(** The group of the day after the current one. *)
Definition nextDay (s : AppState) : list DayProposal :=
  dayOf (nth (currentDayIndex s + 1) (sortedDayKeys (groupedProposals s)) "")
    (groupedProposals s).

(** The five review cells back at their initial values. *)
Definition cleared (a : AppState) : AppState :=
  setCurrentDayIndex 0
    (setCurrentDayProposals []
       (setGroupedProposals []
          (setCurrentSessionId None (setAwaitingDayConsent false a)))).

(** What the tail of [handleDayApproval], created with cells [s], does to
    the cells [a] it finds. *)
Definition advance (s a : AppState) : AppState :=
  if moreDays s then
    setCurrentDayProposals (nextDay s)
      (setCurrentDayIndex (currentDayIndex s + 1) a)
  else cleared a.

(** The message [say env k msg] appends when the clock has been read
    [reads] times. *)
Definition said (env : Env) (k : Z) (msg : string) (reads : nat) : ChatMessage :=
  {| id := intText (clock env reads + k); sender := buddy; message := msg;
     timestamp := clock env (S reads) |}.

(** The world [handleDayApproval], created with cells [s], leaves when it
    is run in [w]. *)
Definition replied (env : Env) (s : AppState) (approve : bool) (w : World)
  : World :=
  let summary :=
    said env 1 (summaryText env s approve (calls w)) (clockReads w) in
  let log :=
    (calls w
     ++ decisionsFor (currentSessionId s) (accepts s approve)
          (currentDayProposals s))%list in
  if moreDays s then
    {| app := advance s (setMessages (messages (app w) ++ [summary])%list (app w));
       calls := log;
       timers := (timers w ++ [(1000%Z, ShowDayPrompt (nextDay s))])%list;
       clockReads := 2 + clockReads w |}
  else
    {| app := setMessages
                (messages (app w)
                 ++ [summary; said env 3 finishedText (2 + clockReads w)])%list
                (advance s (app w));
       calls := log;
       timers := timers w;
       clockReads := 4 + clockReads w |}.

(** The message of the user that [handleSendMessage] appends. *)
Definition sent (env : Env) (text : string) (reads : nat) : ChatMessage :=
  {| id := intText (clock env reads + 0); sender := user;
     message := trim text; timestamp := clock env (S reads) |}.

(** The world once the text typed is in the chat and the input is empty
    again. *)
Definition posted (env : Env) (text : string) (w : World) : World :=
  {| app := setInputMessage ""
              (setMessages (messages (app w) ++ [sent env text (clockReads w)])%list
                 (setInputMessage text (app w)));
     calls := calls w; timers := timers w;
     clockReads := 2 + clockReads w |}.

(** The user types [text] into the input and sends it. *)
Definition sendText (env : Env) (text : string) : M unit :=
  set (setInputMessage text) ;; onSend env.

(** The texts the user sends, one after the other. *)
Fixpoint sendTexts (env : Env) (texts : list string) : M unit :=
  match texts with
  | [] => ret tt
  | text :: rest => sendText env text ;; sendTexts env rest
  end.

(** How the chat handler reads a reply to a day prompt. *)
Definition approves (text : string) : bool := isYes (toLowerCase (trim text)).

Definition isReply (text : string) : bool :=
  isYes (toLowerCase (trim text)) || isNo (toLowerCase (trim text)).

(** A review from its start to the last of the given replies. *)
Definition reviewRun (env : Env) (proposals : list Proposal)
    (sessionId : option string) (texts : list string) : M unit :=
  startDayByDayApproval env proposals sessionId ;;
  sendTexts env texts.

(** The cells in the middle of a review of the groups [grouped]: day [i]
    is shown and awaits a reply. *)
Definition inReview (grouped : Grouped) (sessionId : option string) (i : nat)
    (a : AppState) : Prop :=
  groupedProposals a = grouped
  /\ currentSessionId a = sessionId
  /\ currentDayIndex a = i
  /\ currentDayProposals a = nth i (daysInOrder grouped) []
  /\ awaitingDayConsent a = true.

(** The cells once a review is over. *)
Definition reviewOver (a : AppState) : Prop :=
  groupedProposals a = []
  /\ currentSessionId a = None
  /\ currentDayIndex a = 0%nat
  /\ currentDayProposals a = []
  /\ awaitingDayConsent a = false.

(** The requests a run of replies sends, day after day. *)
Definition decisionsOf (sessionId : option string) (texts : list string)
    (days : list (list DayProposal)) : list Request :=
  List.concat
    (map (fun reply => decisionsFor sessionId (approves (fst reply)) (snd reply))
       (combine texts days)).

(** The timers a review queues: one per day after the first, each to show
    the prompt of its day one second after the reply before it. *)
Definition promptTimers (days : list (list DayProposal))
  : list (Z * Deferred) :=
  map (fun day => (1000%Z, ShowDayPrompt day)) (tl days).

(** A proposal whose start is no timestamp. *)
Definition undated : Proposal :=
  {| type := ""; summary := "Call a friend"; start := "tomorrow at nine";
     end_ := "tomorrow at ten"; reason := None |}.

End ReviewRun.

(** ** The chat handler, branch by branch *)

Module Chat.
Import JsString MainApp App Views ReviewRun.
Local Open Scope string_scope.

(** What the advisor branch replies with on the log [log]: the text of
    the response when the fetch succeeds, the body parses and the text is
    not empty. *)
Definition advisorReply (env : Env) (log : list Request) : string :=
  match onSupport (backend env) log with
  | Some resp =>
      match body resp with
      | Some data =>
          orElse (support_text data) "I understand. How can I help further?"
      | None =>
          "I'm having trouble connecting right now. Please try again in a moment."
      end
  | None =>
      "I'm having trouble connecting right now. Please try again in a moment."
  end.

(** The request [planWithManager(days)] sends. *)
Definition planRequest (env : Env) (s : AppState) (days : Z) : Request :=
  ReqPlanStart (orUndefined (activeEmail s)) (userName env) days.

(** What [planWithManager] reads off a planning response: the pair
    [(allProposals, detailedAnalysis)]. *)
Definition readPlan (data : PlanData) : list Proposal * string :=
  if truthy (raw_text data) then readRawText (orUndefined (raw_text data))
  else ([], "").

(** Whether the planner's fetch, or the body of a response it goes on to
    read, fails on the log [log]. *)
Definition planThrows (env : Env) (log : list Request) : bool :=
  match onPlanStart (backend env) log with
  | Some res =>
      negb (status res =? 401)%Z && ok res
      && match body res with Some _ => false | None => true end
  | None => true
  end.

(** *** A planner to try things on *)

Definition quoted (s : string) : string :=
  String "034" (s ++ String "034" EmptyString).

(** The raw text of a plan of one walk, with its analysis. *)
Definition oneWalk : string :=
  "You have a free morning. <response><payload>{"
  ++ quoted "proposals" ++ ": [{"
  ++ quoted "type" ++ ": " ++ quoted "create" ++ ", "
  ++ quoted "summary" ++ ": " ++ quoted "Walk" ++ ", "
  ++ quoted "start" ++ ": " ++ quoted "2024-01-02T09:00" ++ ", "
  ++ quoted "end" ++ ": " ++ quoted "2024-01-02T09:30"
  ++ "}]}</payload></response>".

(** A backend whose planner answers every start request with the raw
    text [raw] for the session "session-1", and which schedules every
    decision; the rest is down. *)
Definition planning (raw : string) : Backend :=
  {| onPlanStart := fun _ =>
       Some {| status := 200; bodyText := "";
               body := Some {| session_id := Some "session-1";
                               raw_text := Some raw; finished := false;
                               plan_message := None |} |};
     onDecision := fun _ => Some Scenario.scheduled;
     onApply := fun _ => None;
     onSupport := fun _ => None;
     onCheckinNext := fun _ => None;
     onCheckinAnswer := fun _ => None |}.

Definition envWith (b : Backend) : Env :=
  {| host := JsDate.hostUTC; backend := b;
     clock := fun n => (1704150000000 + Z.of_nat n)%Z; userName := "Ada" |}.

End Chat.

(** ** The component as a machine driven by events *)

Module Session.
Import JsString MainApp App Views.
Local Open Scope string_scope.

(** The setters of the three cells the chat handlers only read. *)
Definition setIsCalendarConnected (v : bool) (s : AppState) : AppState :=
  {| messages := messages s; inputMessage := inputMessage s;
     isCalendarConnected := v;
     activeEmail := activeEmail s; burnoutScore := burnoutScore s;
     needsInitialQuestions := needsInitialQuestions s;
     questionsAvailable := questionsAvailable s;
     isQuestionnaireOpen := isQuestionnaireOpen s;
     cooldownUntil := cooldownUntil s;
     questionnaireInProgress := questionnaireInProgress s;
     isSettingsOpen := isSettingsOpen s;
     currentSessionId := currentSessionId s;
     pendingProposals := pendingProposals s;
     awaitingConsent := awaitingConsent s;
     currentDayProposals := currentDayProposals s;
     currentDayIndex := currentDayIndex s;
     groupedProposals := groupedProposals s;
     awaitingDayConsent := awaitingDayConsent s; currentQ := currentQ s;
     initialCountRef := initialCountRef s |}.

Definition setActiveEmail (v : option string) (s : AppState) : AppState :=
  {| messages := messages s; inputMessage := inputMessage s;
     isCalendarConnected := isCalendarConnected s;
     activeEmail := v; burnoutScore := burnoutScore s;
     needsInitialQuestions := needsInitialQuestions s;
     questionsAvailable := questionsAvailable s;
     isQuestionnaireOpen := isQuestionnaireOpen s;
     cooldownUntil := cooldownUntil s;
     questionnaireInProgress := questionnaireInProgress s;
     isSettingsOpen := isSettingsOpen s;
     currentSessionId := currentSessionId s;
     pendingProposals := pendingProposals s;
     awaitingConsent := awaitingConsent s;
     currentDayProposals := currentDayProposals s;
     currentDayIndex := currentDayIndex s;
     groupedProposals := groupedProposals s;
     awaitingDayConsent := awaitingDayConsent s; currentQ := currentQ s;
     initialCountRef := initialCountRef s |}.

Definition setIsSettingsOpen (v : bool) (s : AppState) : AppState :=
  {| messages := messages s; inputMessage := inputMessage s;
     isCalendarConnected := isCalendarConnected s;
     activeEmail := activeEmail s; burnoutScore := burnoutScore s;
     needsInitialQuestions := needsInitialQuestions s;
     questionsAvailable := questionsAvailable s;
     isQuestionnaireOpen := isQuestionnaireOpen s;
     cooldownUntil := cooldownUntil s;
     questionnaireInProgress := questionnaireInProgress s;
     isSettingsOpen := v;
     currentSessionId := currentSessionId s;
     pendingProposals := pendingProposals s;
     awaitingConsent := awaitingConsent s;
     currentDayProposals := currentDayProposals s;
     currentDayIndex := currentDayIndex s;
     groupedProposals := groupedProposals s;
     awaitingDayConsent := awaitingDayConsent s; currentQ := currentQ s;
     initialCountRef := initialCountRef s |}.

(** The body of [/oauth2/status] as far as it is read:
    [{authorized_emails, authorized, email}]; [authorized] stands for
    [data.authorized === true]. *)
Record AuthStatus : Type := {
  authorized_emails : option (list string);
  authorized : bool;
  auth_email : option string
}.

(** [checkAuthStatus()], the answer of the status endpoint given;
    [None]: the fetch or the reading of the body fails. *)
Definition checkAuthStatus (answer : option AuthStatus) : M unit :=
  match answer with
  | Some data =>
      match authorized_emails data with
      | Some (first :: _) =>
          set (setIsCalendarConnected true) ;;
          set (setActiveEmail (Some first))
      | _ =>
          if authorized data && truthy (auth_email data) then
            set (setIsCalendarConnected true) ;;
            set (setActiveEmail (auth_email data))
          else
            set (setIsCalendarConnected false) ;;
            set (setActiveEmail None)
      end
  | None =>
      set (setIsCalendarConnected false) ;;
      set (setActiveEmail None)
  end.

(** What can happen to the mounted component: the user types into the
    input, sends, clicks the reset button, the check-in button, the
    [Close] button or an answer button of the questionnaire, opens or
    closes the settings; the authorisation popup closes and the status
    endpoint answers; or a queued timer fires. *)
Inductive Event : Type :=
| Typed (text : string)
| Send
| ResetChat
| CheckIn
| CloseCheckIn
| Answer (value : Z)
| OpenSettings
| CloseSettings
| AuthChecked (answer : option AuthStatus)
| TimerFires (n : nat).

(** The list without its element at position [n]. *)
Fixpoint without {A : Type} (n : nat) (l : list A) : list A :=
  match l, n with
  | [], _ => []
  | _ :: rest, O => rest
  | x :: rest, S n' => x :: without n' rest
  end.

(** The timer at position [n] leaves the queue. *)
Definition takeTimer (n : nat) : M (option Deferred) :=
  fun w =>
    match nth_error (timers w) n with
    | Some (_, callback) =>
        (Returned (Some callback),
         {| app := app w; calls := calls w; timers := without n (timers w);
            clockReads := clockReads w |})
    | None => (Returned None, w)
    end.

(** The handler an event runs, created in the render of the cells it
    finds.  The questionnaire and its buttons are there only while
    [isQuestionnaireOpen] holds. *)
Definition handler (env : Env) (ev : Event) : M unit :=
  match ev with
  | Typed text => set (setInputMessage text)
  | Send => onSend env
  | ResetChat => resetConversation env
  | CheckIn => fun w => openCheckin (app w) w
  | CloseCheckIn =>
      fun w =>
        if isQuestionnaireOpen (app w) then set (setIsQuestionnaireOpen false) w
        else ret tt w
  | Answer value =>
      fun w =>
        if isQuestionnaireOpen (app w) then onAnswer env value w else ret tt w
  | OpenSettings => set (setIsSettingsOpen true)
  | CloseSettings => set (setIsSettingsOpen false)
  | AuthChecked answer => checkAuthStatus answer
  | TimerFires n =>
      callback <- takeTimer n ;;
      match callback with
      | Some c => fire env c
      | None => ret tt
      end
  end.

(** The effect on [isQuestionnaireOpen], run when the cell differs from
    what it was in the cells [before]. *)
Definition effects (env : Env) (before : AppState) : M unit :=
  fun w =>
    if Bool.eqb (isQuestionnaireOpen before) (isQuestionnaireOpen (app w))
    then ret tt w
    else questionnaireEffect env (app w) w.

(** One event: the handler, then the effects.  A handler that throws is
    a rejected promise nobody awaits; what it did stays. *)
Definition step (env : Env) (ev : Event) (w : World) : World :=
  snd (effects env (app w) (snd (handler env ev w))).

Definition run (env : Env) (evs : list Event) (w : World) : World :=
  fold_left (fun w' ev => step env ev w') evs w.

(** *** Frames *)

(** Every run of [m] takes a world to one related to it by [R]. *)
Definition Respects (R : World -> World -> Prop) {A : Type} (m : M A) : Prop :=
  forall w, R w (snd (m w)).

(** From [w] to [w']: the cells are related by [C], the requests sent in
    between all satisfy [P], and the timers queued in between all satisfy
    [T]. *)
Definition Frame (C : AppState -> AppState -> Prop) (P : Request -> bool)
    (T : Deferred -> bool) (w w' : World) : Prop :=
  C (app w) (app w')
  /\ (exists new, calls w' = (calls w ++ new)%list /\ forallb P new = true)
  /\ exists queued,
       timers w' = (timers w ++ queued)%list
       /\ forallb (fun timer => T (snd timer)) queued = true.

(** The same without the timers, for steps that take one off the
    queue. *)
Definition Calm (C : AppState -> AppState -> Prop) (P : Request -> bool)
    (w w' : World) : Prop :=
  C (app w) (app w')
  /\ exists new, calls w' = (calls w ++ new)%list /\ forallb P new = true.

Definition anyTimer (callback : Deferred) : bool := true.

Definition anyRequest (req : Request) : bool := true.

Definition isApply (req : Request) : bool :=
  match req with
  | ReqApply _ _ => true
  | _ => false
  end.

Definition notApply (req : Request) : bool := negb (isApply req).

(** The all-at-once consent has not been raised and no proposals have
    been left pending. *)
Definition legacyIdle (a a' : AppState) : Prop :=
  (awaitingConsent a = false -> awaitingConsent a' = false)
  /\ (pendingProposals a = [] -> pendingProposals a' = []).

(** The timer that makes questions available again. *)
Definition isWake (callback : Deferred) : bool :=
  match callback with
  | MakeQuestionsAvailable => true
  | _ => false
  end.

Definition notWake (callback : Deferred) : bool := negb (isWake callback).

(** The check-in is shut with nothing to open it: questions are
    unavailable, the questionnaire is closed, and no queued timer would
    make questions available. *)
Definition shut (w : World) : Prop :=
  questionsAvailable (app w) = false
  /\ isQuestionnaireOpen (app w) = false
  /\ forallb (fun timer => notWake (snd timer)) (timers w) = true.

(** The two cells the check-in button reads are the same. *)
Definition buttonKept (a a' : AppState) : Prop :=
  questionsAvailable a' = questionsAvailable a
  /\ isQuestionnaireOpen a' = isQuestionnaireOpen a.

End Session.

(** ** The check-in, answer by answer *)

Module Checkin.
Import JsString MainApp App Views Session.
Local Open Scope string_scope.

(** The body of the answer the backend accepts on the log [log]: the
    fetch succeeds, the response is ok and its body parses. *)
Definition answerAccepted (env : Env) (log : list Request)
  : option AnswerData :=
  match onCheckinAnswer (backend env) log with
  | Some res => if ok res then body res else None
  | None => None
  end.

(** The question the backend offers on the log [log]. *)
Definition questionOffered (env : Env) (log : list Request) : option NextQ :=
  match onCheckinNext (backend env) log with
  | Some res => if ok res then body res else None
  | None => None
  end.

(** The cells once [answerQuestion] has read the score of [data]. *)
Definition scored (data : AnswerData) (a : AppState) : AppState :=
  match bs data with
  | Some score => setBurnoutScore (Some score) a
  | None => a
  end.

(** The world [answerQuestion] leaves on an accepted answer. *)
Definition recorded (env : Env) (id : string) (value : Z) (data : AnswerData)
    (w : World) : World :=
  let mins := next_interval_min data in
  if (0 <? mins)%Z then
    {| app := setQuestionsAvailable false
                (setCooldownUntil
                   (Some (clock env (clockReads w) + mins * 60000)%Z)
                   (scored data (app w)));
       calls := (calls w ++ [ReqCheckinAnswer id value])%list;
       timers := (timers w ++ [((mins * 60000)%Z, MakeQuestionsAvailable)])%list;
       clockReads := S (clockReads w) |}
  else
    {| app := scored data (app w);
       calls := (calls w ++ [ReqCheckinAnswer id value])%list;
       timers := timers w;
       clockReads := clockReads w |}.

(** The world once an accepted answer has been counted. *)
Definition counted (env : Env) (id : string) (value : Z) (data : AnswerData)
    (w : World) : World :=
  let w1 := recorded env id value data w in
  {| app := setInitialCountRef (initialCountRef (app w) + 1) (app w1);
     calls := calls w1; timers := timers w1; clockReads := clockReads w1 |}.

(** The world once the answer that ends a check-in has closed the
    questionnaire. *)
Definition closed (env : Env) (id : string) (value : Z) (data : AnswerData)
    (w : World) : World :=
  let w2 := counted env id value data w in
  {| app := setQuestionnaireInProgress false
              (setQuestionsAvailable false
                 (setIsQuestionnaireOpen false
                    (setNeedsInitialQuestions false (app w2))));
     calls := calls w2; timers := timers w2; clockReads := clockReads w2 |}.

(** The cells of the check-in are the same. *)
Definition checkinKept (a a' : AppState) : Prop :=
  isQuestionnaireOpen a' = isQuestionnaireOpen a
  /\ needsInitialQuestions a' = needsInitialQuestions a
  /\ questionsAvailable a' = questionsAvailable a
  /\ questionnaireInProgress a' = questionnaireInProgress a
  /\ cooldownUntil a' = cooldownUntil a
  /\ burnoutScore a' = burnoutScore a
  /\ currentQ a' = currentQ a
  /\ initialCountRef a' = initialCountRef a.

(** The questionnaire is open on a question of the initial assessment,
    [k] answers counted. *)
Definition assessing (k : nat) (a : AppState) : Prop :=
  isQuestionnaireOpen a = true
  /\ needsInitialQuestions a = true
  /\ initialCountRef a = k
  /\ currentQ a <> None.

(** The values of the answers among the requests, in their order. *)
Definition answerValues (log : list Request) : list Z :=
  flat_map
    (fun req =>
       match req with
       | ReqCheckinAnswer _ value => [value]
       | _ => []
       end)
    log.

Definition apology : string :=
  "Hmm, I couldn't record that answer. Please try again.".

Definition isNext (req : Request) : bool :=
  match req with
  | ReqCheckinNext => true
  | _ => false
  end.

Definition isAnswer (req : Request) : bool :=
  match req with
  | ReqCheckinAnswer _ _ => true
  | _ => false
  end.

Definition notCheckin (req : Request) : bool :=
  negb (isNext req || isAnswer req).

(** A backend that offers a question and accepts an answer whenever it
    is asked. *)
Definition attentive (env : Env) : Prop :=
  (forall log, questionOffered env log <> None)
  /\ (forall log, answerAccepted env log <> None).

(** A backend for the check-in alone: it offers the question numbered by
    the answers given so far and asks for no cooldown; the rest is down. *)
Definition interviewer : Backend :=
  {| onPlanStart := fun _ => None;
     onDecision := fun _ => None;
     onApply := fun _ => None;
     onSupport := fun _ => None;
     onCheckinNext := fun log =>
       Some {| status := 200; bodyText := "";
               body := Some {| qid := "q" ++ natText (List.length (filter isAnswer log));
                               text := "How are you?" |} |};
     onCheckinAnswer := fun _ =>
       Some {| status := 200; bodyText := "";
               body := Some {| bs := Some (1 # 2)%Q; next_interval_min := 0 |} |} |}.

(** The questionnaire open on the first question of the assessment. *)
Definition firstQuestion : World :=
  withApp
    (setCurrentQ (Some {| qid := "q0"; text := "How are you?" |})
       (setQuestionnaireInProgress true
          (setIsQuestionnaireOpen true Scenario.initial)))
    0 Scenario.opening.

End Checkin.

(** ** The onboarding flow and the page that hosts it *)

Module Onboarding.
Local Open Scope string_scope.

(** [interface OnboardingData]. *)
Record OnboardingData : Type := {
  name : string;
  age : string;
  peaceActivities : list string;
  freeDayActivities : list string;
  goals : list string
}.

Definition peaceOptions : list string :=
  ["Sleep"; "Meditation"; "Exercise"; "Eating"; "Reading";
   "Nature walks"; "Music"; "Journaling"; "Deep breathing"].

Definition freeDayOptions : list string :=
  ["Exercise"; "Sleep all day"; "Eat"; "Meditate"; "Travel";
   "Spend time with friends"; "Read"; "Watch movies"; "Create art"].

Definition goalOptions : list string :=
  ["Stress less"; "Learn to say no to overworking"; "Manage anxiety";
   "Talk to someone about your burnout"; "Manage my time";
   "Improve work-life balance"; "Build healthy habits"].

(** The values of the [SelectItem]s of the age question. *)
Definition ageRanges : list string :=
  ["18-25"; "26-35"; "36-45"; "46-55"; "56+"].

(** The keys a question names in its [field]. *)
Inductive Field : Type := PeaceActivities | FreeDayActivities | Goals.

(** [data[field]]. *)
Definition get (field : Field) (data : OnboardingData) : list string :=
  match field with
  | PeaceActivities => peaceActivities data
  | FreeDayActivities => freeDayActivities data
  | Goals => goals data
  end.

(** [{...data, [field]: v}]. *)
Definition put (field : Field) (v : list string) (data : OnboardingData)
  : OnboardingData :=
  match field with
  | PeaceActivities =>
      {| name := name data; age := age data; peaceActivities := v;
         freeDayActivities := freeDayActivities data; goals := goals data |}
  | FreeDayActivities =>
      {| name := name data; age := age data;
         peaceActivities := peaceActivities data; freeDayActivities := v;
         goals := goals data |}
  | Goals =>
      {| name := name data; age := age data;
         peaceActivities := peaceActivities data;
         freeDayActivities := freeDayActivities data; goals := v |}
  end.

Inductive QuestionType : Type := text | select | multiselect.

Record Question : Type := {
  title : string;
  type : QuestionType;
  options : list string;
  field : option Field
}.

Definition questions : list Question :=
  [ {| title := "What would you like us to call you?"; type := text;
       options := []; field := None |};
    {| title := "What is your age?"; type := select;
       options := []; field := None |};
    {| title := "What puts your mind at peace?"; type := multiselect;
       options := peaceOptions; field := Some PeaceActivities |};
    {| title := "If you had one free day today, what would you do?";
       type := multiselect; options := freeDayOptions;
       field := Some FreeDayActivities |};
    {| title := "Lastly, what is your unfrazzle goal?"; type := multiselect;
       options := goalOptions; field := Some Goals |} ].

(** [array.includes(value)] on strings. *)
Definition includes (l : list string) (value : string) : bool :=
  existsb (String.eqb value) l.

(** [handleMultiSelect(field, value)], as the updater of [setData]. *)
Definition handleMultiSelect (field : Field) (value : string)
    (prev : OnboardingData) : OnboardingData :=
  put field
    (if includes (get field prev) value then
       filter (fun item => negb (String.eqb item value)) (get field prev)
     else (get field prev ++ [value])%list)
    prev.

(** [isStepValid()]; [None]: [questions[currentStep]] is undefined and
    reading its [type] throws. *)
Definition isStepValid (currentStep : nat) (data : OnboardingData)
  : option bool :=
  match nth_error questions currentStep with
  | Some question =>
      match type question, field question with
      | text, _ => Some (0 <? String.length (name data))%nat
      | select, _ => Some (0 <? String.length (age data))%nat
      | multiselect, Some f => Some (0 <? List.length (get f data))%nat
      | multiselect, None => None
      end
  | None => None
  end.

(** The cells of the flow. *)
Record Flow : Type := {
  currentStep : nat;
  data : OnboardingData
}.

Definition start : Flow :=
  {| currentStep := 0;
     data := {| name := ""; age := ""; peaceActivities := [];
                freeDayActivities := []; goals := [] |} |}.

(** [handleNext()]: the cells after it, and the data [onComplete] is
    called with when it is. *)
Definition handleNext (s : Flow) : Flow * option OnboardingData :=
  if (currentStep s <? List.length questions - 1)%nat then
    ({| currentStep := currentStep s + 1; data := data s |}, None)
  else (s, Some (data s)).

(** What the user can do to the flow: type a name, pick an age range,
    click an option badge, click [Previous] or click [Next]. *)
Inductive Click : Type :=
| TypeName (value : string)
| PickAge (value : string)
| Toggle (option : string)
| Previous
| Next.

(** One click.  A control acts only when the current question renders
    it: the input on the text question, the select with its five items
    on the select question, the badges of the options on a multiselect
    question; [Previous] is disabled on the first step and [Next] while
    the step is not valid. *)
Definition click (c : Click) (s : Flow) : Flow * option OnboardingData :=
  match nth_error questions (currentStep s) with
  | None => (s, None)
  | Some question =>
      match c with
      | TypeName value =>
          match type question with
          | text =>
              ({| currentStep := currentStep s;
                  data := {| name := value; age := age (data s);
                             peaceActivities := peaceActivities (data s);
                             freeDayActivities := freeDayActivities (data s);
                             goals := goals (data s) |} |}, None)
          | _ => (s, None)
          end
      | PickAge value =>
          match type question with
          | select =>
              if includes ageRanges value then
                ({| currentStep := currentStep s;
                    data := {| name := name (data s); age := value;
                               peaceActivities := peaceActivities (data s);
                               freeDayActivities := freeDayActivities (data s);
                               goals := goals (data s) |} |}, None)
              else (s, None)
          | _ => (s, None)
          end
      | Toggle option =>
          match type question, field question with
          | multiselect, Some f =>
              if includes (options question) option then
                ({| currentStep := currentStep s;
                    data := handleMultiSelect f option (data s) |}, None)
              else (s, None)
          | _, _ => (s, None)
          end
      | Previous =>
          if (currentStep s =? 0)%nat then (s, None)
          else
            ({| currentStep := Nat.max 0 (currentStep s - 1);
                data := data s |}, None)
      | Next =>
          match isStepValid (currentStep s) (data s) with
          | Some true => handleNext s
          | _ => (s, None)
          end
      end
  end.

(** *** The page *)

Inductive Screen : Type := welcome | onboarding | main.

(** The cells of [Index], with those of the flow it mounts. *)
Record Page : Type := {
  appState : Screen;
  userData : option OnboardingData;
  flow : Flow
}.

Definition entry : Page :=
  {| appState := welcome; userData := None; flow := start |}.

Inductive Action : Type :=
| Start
| InFlow (c : Click).

(** One action on the page: the welcome page knows [Start], which mounts
    a fresh flow; the flow knows the clicks, and its [onComplete] is
    [handleOnboardingComplete]; the main screen has neither. *)
Definition act (a : Action) (p : Page) : Page :=
  match appState p, a with
  | welcome, Start =>
      {| appState := onboarding; userData := userData p; flow := start |}
  | onboarding, InFlow c =>
      match click c (flow p) with
      | (s, Some d) => {| appState := main; userData := Some d; flow := s |}
      | (s, None) =>
          {| appState := onboarding; userData := userData p; flow := s |}
      end
  | _, _ => p
  end.

Definition visit (actions : list Action) (p : Page) : Page :=
  fold_left (fun p' a => act a p') actions p.

(** What [Index] renders; [None]: the final [return null]. *)
Definition rendered (p : Page) : option Screen :=
  match appState p, userData p with
  | welcome, _ => Some welcome
  | onboarding, _ => Some onboarding
  | main, Some _ => Some main
  | main, None => None
  end.

(** Data with every question answered: a name, one of the age ranges, and
    for each of the three lists at least one of its options, none
    twice. *)
Definition answeredAll (d : OnboardingData) : Prop :=
  name d <> ""
  /\ In (age d) ageRanges
  /\ (peaceActivities d <> [] /\ incl (peaceActivities d) peaceOptions
      /\ NoDup (peaceActivities d))
  /\ (freeDayActivities d <> [] /\ incl (freeDayActivities d) freeDayOptions
      /\ NoDup (freeDayActivities d))
  /\ (goals d <> [] /\ incl (goals d) goalOptions /\ NoDup (goals d)).

(** What holds of the cells of the flow at every step: the step is one
    of the five, what has been entered comes from the controls, and the
    questions before the current one are answered. *)
Definition sound (s : Flow) : Prop :=
  (currentStep s < 5)%nat
  /\ (age (data s) = "" \/ In (age (data s)) ageRanges)
  /\ (incl (peaceActivities (data s)) peaceOptions
      /\ NoDup (peaceActivities (data s)))
  /\ (incl (freeDayActivities (data s)) freeDayOptions
      /\ NoDup (freeDayActivities (data s)))
  /\ (incl (goals (data s)) goalOptions /\ NoDup (goals (data s)))
  /\ ((1 <= currentStep s)%nat -> name (data s) <> "")
  /\ ((2 <= currentStep s)%nat -> age (data s) <> "")
  /\ ((3 <= currentStep s)%nat -> peaceActivities (data s) <> [])
  /\ ((4 <= currentStep s)%nat -> freeDayActivities (data s) <> []).

End Onboarding.

(** ** The burnout timer hook *)

Module BurnoutHook.
Import BurnoutTimer.

(** [interface BurnoutState].  The two dates are ISO strings written by
    [toISOString] and read back by [new Date]; they are kept as the
    instants they denote, in epoch milliseconds. *)
Record BurnoutState : Type := {
  score : R;
  lastEval : option Z;
  questionsCompleted : list string;
  nextQuestionDue : option Z
}.

(** The hook: its two cells, and the item [burnoutState] of the local
    storage, kept as the object whose JSON text it holds. *)
Record Hook : Type := {
  burnoutState : BurnoutState;
  questionsAvailable : bool;
  stored : option BurnoutState
}.

Definition initialState : BurnoutState :=
  {| score := 35; lastEval := None; questionsCompleted := [];
     nextQuestionDue := None |}.

(** [needsInitialQuestions]. *)
Definition needsInitialQuestions (s : BurnoutState) : bool :=
  (List.length (questionsCompleted s) <? 5)%nat.

(** The first render and the effect run on mount, with [saved] in the
    storage: the item is removed before it is read. *)
Definition mount (saved : option BurnoutState) : Hook :=
  let cleared : option BurnoutState := None in
  match cleared with
  | Some parsedState =>
      {| burnoutState := parsedState; questionsAvailable := false;
         stored := cleared |}
  | None =>
      {| burnoutState := initialState; questionsAvailable := false;
         stored := cleared |}
  end.

(** [updateBurnoutState(newScore, questionIds)], created in the render
    with the state [snapshot]; [now] is what [new Date()] reads and
    [later] what [Date.now()] reads after it. *)
Definition updateBurnoutState (now later : Z) (snapshot : BurnoutState)
    (newScore : R) (questionIds : list string) (h : Hook) : Hook :=
  let intervalMinutes := calculateNextInterval newScore in
  let nextDue := (later + intervalMinutes * 60 * 1000)%Z in
  {| burnoutState :=
       {| score := newScore; lastEval := Some now;
          questionsCompleted :=
            (questionsCompleted (burnoutState h) ++ questionIds)%list;
          nextQuestionDue := Some nextDue |};
     questionsAvailable := false;
     stored :=
       Some {| score := newScore; lastEval := Some now;
               questionsCompleted :=
                 (questionsCompleted snapshot ++ questionIds)%list;
               nextQuestionDue := Some nextDue |} |}.

(** Whether the effect has its interval running. *)
Definition polling (h : Hook) : bool :=
  match nextQuestionDue (burnoutState h) with
  | Some _ => negb (needsInitialQuestions (burnoutState h))
  | None => false
  end.

(** The callback of the interval at the time [now], when it runs. *)
Definition tick (now : Z) (h : Hook) : Hook :=
  if polling h then
    match nextQuestionDue (burnoutState h) with
    | Some dueTime =>
        if (dueTime <=? now)%Z then
          {| burnoutState := burnoutState h; questionsAvailable := true;
             stored := stored h |}
        else h
    | None => h
    end
  else h.

(** The [questionsAvailable] the hook returns. *)
Definition available (h : Hook) : bool :=
  questionsAvailable h || needsInitialQuestions (burnoutState h).

End BurnoutHook.

(** ** What the pure helpers of the chat are measured against *)

Module Reading.
Import JsString MainApp.
Local Open Scope string_scope.

(** The text with its ASCII capitals in lower case, character by
    character: what the [i] flag compares. *)
Fixpoint lowerAll (s : string) : string :=
  match s with
  | EmptyString => EmptyString
  | String c r => String (lowerAscii c) (lowerAll r)
  end.

Fixpoint lastChar (s : string) : option ascii :=
  match s with
  | EmptyString => None
  | String c r =>
      match lastChar r with
      | Some x => Some x
      | None => Some c
      end
  end.

(** Whether the text ends, or starts, with a word character. *)
Definition endsInWord (s : string) : bool :=
  match lastChar s with
  | Some c => isWordChar c
  | None => false
  end.

Definition startsInWord (s : string) : bool :=
  match s with
  | String c _ => isWordChar c
  | EmptyString => false
  end.

(** One of the six words stands in the text as a word of its own, in any
    mix of cases: a word boundary before it and one after it. *)
Definition namesPlanning (s : string) : Prop :=
  exists before hit rest : string,
    s = before ++ hit ++ rest
    /\ In (lowerAll hit) intentWords
    /\ endsInWord before = false
    /\ startsInWord rest = false.

(** [Math.ceil(a / b)] for integers, the divisor positive. *)
Definition ceilDiv (a b : Z) : Z := (- ((- a) / b))%Z.

(** [minsLeft], the clock reading [now]. *)
Definition minsLeft (cooldownUntil : option Z) (now : Z) : Z :=
  match cooldownUntil with
  | Some until =>
      if (until =? 0)%Z then 0%Z
      else Z.max 0 (ceilDiv (until - now) 60000)
  | None => 0%Z
  end.

(** [checkinCTASecondaryText], computed at the clock reading [now]. *)
Definition checkinCTASecondaryText (s : App.AppState) (now : Z) : string :=
  if App.needsInitialQuestions s then "Complete initial questions"
  else if negb (App.questionsAvailable s) then
    "Next check in ~" ++ intText (minsLeft (App.cooldownUntil s) now) ++ " min"
  else "New questions available".

End Reading.

(* ================================================================== *)
(** * Part II: properties *)
(* ================================================================== *)

(** ** Trimming *)

Module StringFacts.
Import JsString.
Local Open Scope string_scope.

Lemma dropPrefix_length (p s rest : string) :
  dropPrefix p s = Some rest ->
  String.length s = (String.length p + String.length rest)%nat.
Proof.
  revert s. induction p as [|a p IH]; intros s; simpl.
  - intros H. injection H as <-. reflexivity.
  - destruct s as [|b s]; [discriminate|].
    destruct (Ascii.eqb a b); [|discriminate].
    intros H. simpl. rewrite (IH _ H). reflexivity.
Qed.

(** Dropping one of a list of non-empty tokens shortens the text. *)
Lemma dropToken_shorter (tokens : list string) (s rest : string) :
  Forall (fun t => (1 <= String.length t)%nat) tokens ->
  dropToken tokens s = Some rest ->
  (String.length rest < String.length s)%nat.
Proof.
  unfold dropToken.
  induction 1 as [|t tokens Ht _ IH]; simpl; [discriminate|].
  destruct (dropPrefix t s) as [r|] eqn:E; [|exact IH].
  intros H. injection H as <-. apply dropPrefix_length in E. lia.
Qed.

Lemma skipTokens_done (tokens : list string) (fuel : nat) :
  Forall (fun t => (1 <= String.length t)%nat) tokens ->
  forall s : string,
    (String.length s <= fuel)%nat ->
    dropToken tokens (skipTokens tokens fuel s) = None.
Proof.
  intros Htokens. induction fuel as [|fuel IH]; intros s Hlen; simpl.
  - destruct s; [|simpl in Hlen; lia].
    unfold dropToken. clear Hlen.
    induction Htokens as [|t tokens Ht _ IHt]; [reflexivity|].
    simpl. destruct t; [simpl in Ht; lia | exact IHt].
  - destruct (dropToken tokens s) as [r|] eqn:E; [|exact E].
    apply IH. apply (dropToken_shorter _ _ _ Htokens) in E. lia.
Qed.

Lemma whiteSpace_not_empty :
  Forall (fun t => (1 <= String.length t)%nat) whiteSpace.
Proof. repeat constructor. Qed.

(** The fuel [trimStart] and [trimEnd] give themselves is enough: no white
    space is left in front, none at the end. *)
Lemma trimStart_done (s : string) :
  dropToken whiteSpace (trimStart s) = None.
Proof.
  apply skipTokens_done; [apply whiteSpace_not_empty | apply Nat.le_refl].
Qed.

Lemma reverse_involutive (s : string) : reverse (reverse s) = s.
Proof.
  unfold reverse.
  rewrite list_ascii_of_string_of_list_ascii, rev_involutive.
  apply string_of_list_ascii_of_string.
Qed.

Lemma trimEnd_done (s : string) :
  dropToken (map reverse whiteSpace) (reverse (trimEnd s)) = None.
Proof.
  unfold trimEnd. cbv zeta. rewrite reverse_involutive.
  apply skipTokens_done; [repeat constructor | apply Nat.le_refl].
Qed.

End StringFacts.

(** ** The next check-in interval *)

Module BurnoutTimerFacts.
Import BurnoutTimer.
Local Open Scope R_scope.

Lemma exp_INR_mult (x : R) (n : nat) : exp (INR n * x) = exp x ^ n.
Proof.
  induction n as [|n IH].
  - simpl. rewrite Rmult_0_l. apply exp_0.
  - rewrite S_INR, Rmult_plus_distr_r, Rmult_1_l, exp_plus, IH. simpl. ring.
Qed.

(** Bounds on [e] from [(1 + 1/n)^n <= e <= (1 - 1/n)^(-n)] at [n = 128]. *)
Lemma e_lower : 27 / 10 < exp 1.
Proof.
  replace 1 with (INR 128 * (/ 128)) at 1 by (simpl; lra).
  rewrite exp_INR_mult.
  apply Rlt_le_trans with ((1 + / 128) ^ 128).
  - lra.
  - apply pow_incr. split; [lra | apply exp_ineq1_le].
Qed.

Lemma e_upper : exp 1 < 273 / 100.
Proof.
  assert (H : (127 / 128) ^ 128 <= exp (Ropp 1)).
  { replace (Ropp 1) with (INR 128 * (- / 128)) by (simpl; lra).
    rewrite exp_INR_mult. apply pow_incr. split; [lra|].
    replace (127 / 128) with (1 + - / 128) by lra. apply exp_ineq1_le. }
  rewrite exp_Ropp in H.
  pose proof (exp_pos 1) as Hp.
  assert (Hq : 100 / 273 < (127 / 128) ^ 128) by lra.
  assert (Hr : 100 / 273 < / exp 1) by lra.
  apply Rmult_lt_compat_r with (r := exp 1) in Hr; [|assumption].
  rewrite Rinv_l in Hr by lra. lra.
Qed.

Lemma exp_2_bounds : 729 / 100 < exp 2 < 7453 / 1000.
Proof.
  replace 2 with (1 + 1) by lra. rewrite exp_plus.
  pose proof e_lower. pose proof e_upper. split; nra.
Qed.

Lemma exp_4_bounds : 5314 / 100 < exp 4 < 5555 / 100.
Proof.
  replace 4 with (2 + 2) by lra. rewrite exp_plus.
  pose proof exp_2_bounds. split; nra.
Qed.

Lemma Math_round_eq (x : R) (z : Z) :
  IZR z - / 2 <= x < IZR z + / 2 -> Math_round x = z.
Proof.
  intros [Hlo Hhi]. unfold Math_round. symmetry.
  apply Int_part_spec. split; lra.
Qed.

Lemma Int_part_mono (x y : R) : x <= y -> (Int_part x <= Int_part y)%Z.
Proof.
  intros Hxy.
  destruct (base_Int_part x) as [Hx1 Hx2].
  destruct (base_Int_part y) as [Hy1 Hy2].
  assert (H : IZR (Int_part x) < IZR (Int_part y) + 1) by lra.
  rewrite <- plus_IZR in H. apply lt_IZR in H. lia.
Qed.

Lemma Math_round_mono (x y : R) : x <= y -> (Math_round x <= Math_round y)%Z.
Proof. intros H. apply Int_part_mono. lra. Qed.

(** The formula with its constants folded: [240 - 210 / (1 + e^(2 - s/25))]. *)
Lemma minutes_closed_form (s : R) :
  minutes s = 240 - 210 / (1 + exp (2 - s / 25)).
Proof.
  unfold minutes, ratio, MIN_INTERVAL_MIN, MAX_INTERVAL_MIN, LOGISTIC_STEEPNESS.
  match goal with
  | |- context [exp ?a] => replace a with (2 - s / 25) by lra
  end.
  pose proof (exp_pos (2 - s / 25)). field. lra.
Qed.

Lemma minutes_antitone (s1 s2 : R) : s1 <= s2 -> minutes s2 <= minutes s1.
Proof.
  intros Hs. rewrite !minutes_closed_form.
  pose proof (exp_pos (2 - s1 / 25)) as H1.
  pose proof (exp_pos (2 - s2 / 25)) as H2.
  assert (He : exp (2 - s2 / 25) <= exp (2 - s1 / 25)).
  { destruct (Req_dec s1 s2) as [->|Hne]; [lra|].
    left. apply exp_increasing. lra. }
  assert (Hi : / (1 + exp (2 - s1 / 25)) <= / (1 + exp (2 - s2 / 25))).
  { apply Rinv_le_contravar; lra. }
  unfold Rdiv. lra.
Qed.

Lemma minutes_range (s : R) : 30 < minutes s < 240.
Proof.
  rewrite minutes_closed_form.
  pose proof (exp_pos (2 - s / 25)) as H.
  assert (Hp : 0 < / (1 + exp (2 - s / 25))) by (apply Rinv_0_lt_compat; lra).
  assert (Hq : / (1 + exp (2 - s / 25)) < 1).
  { rewrite <- Rinv_1 at 2. apply Rinv_lt_contravar; lra. }
  unfold Rdiv. lra.
Qed.

Lemma interval_antitone (s1 s2 : R) :
  s1 <= s2 -> (calculateNextInterval s2 <= calculateNextInterval s1)%Z.
Proof.
  intros H. apply Math_round_mono, minutes_antitone, H.
Qed.

Lemma interval_range (s : R) : (30 <= calculateNextInterval s <= 240)%Z.
Proof.
  pose proof (minutes_range s) as [Hlo Hhi]. unfold calculateNextInterval.
  split.
  - replace 30%Z with (Math_round 30) by (apply Math_round_eq; lra).
    apply Math_round_mono. lra.
  - replace 240%Z with (Math_round 240) by (apply Math_round_eq; lra).
    apply Math_round_mono. lra.
Qed.

(** The value [240 - 210 / (1 + x)] rounds to [z] when [x] lies between
    bounds that pin the quotient down. *)
Lemma interval_from_bounds (s lo hi : R) (z : Z) :
  0 < lo -> lo < exp (2 - s / 25) < hi ->
  IZR z - / 2 <= 240 - 210 / (1 + lo) ->
  240 - 210 / (1 + hi) < IZR z + / 2 ->
  calculateNextInterval s = z.
Proof.
  intros Hlo [Hl Hu] Hz1 Hz2. unfold calculateNextInterval.
  apply Math_round_eq. rewrite minutes_closed_form.
  assert (H1 : / (1 + hi) < / (1 + exp (2 - s / 25)))
    by (apply Rinv_lt_contravar; nra).
  assert (H2 : / (1 + exp (2 - s / 25)) < / (1 + lo))
    by (apply Rinv_lt_contravar; nra).
  unfold Rdiv in *. lra.
Qed.

Lemma interval_at_0 : calculateNextInterval 0 = 215%Z.
Proof.
  apply interval_from_bounds with (lo := 729 / 100) (hi := 7453 / 1000).
  - lra.
  - replace (2 - 0 / 25) with 2 by lra. apply exp_2_bounds.
  - lra.
  - lra.
Qed.

Lemma interval_at_100 : calculateNextInterval 100 = 55%Z.
Proof.
  pose proof exp_2_bounds as [Hl Hu].
  pose proof (exp_pos 2) as Hp.
  apply interval_from_bounds with (lo := 1000 / 7453) (hi := 100 / 729).
  - lra.
  - replace (2 - 100 / 25) with (Ropp 2) by lra. rewrite exp_Ropp.
    split.
    + replace (1000 / 7453) with (/ (7453 / 1000)) by lra.
      apply Rinv_lt_contravar; nra.
    + replace (100 / 729) with (/ (729 / 100)) by lra.
      apply Rinv_lt_contravar; nra.
  - lra.
  - lra.
Qed.

Lemma interval_at_50 : calculateNextInterval 50 = 135%Z.
Proof.
  unfold calculateNextInterval. apply Math_round_eq.
  rewrite minutes_closed_form.
  replace (2 - 50 / 25) with 0 by lra. rewrite exp_0. lra.
Qed.

Lemma interval_below_range : calculateNextInterval (-50) = 236%Z.
Proof.
  apply interval_from_bounds with (lo := 5314 / 100) (hi := 5555 / 100).
  - lra.
  - replace (2 - -50 / 25) with 4 by lra. apply exp_4_bounds.
  - lra.
  - lra.
Qed.

Lemma interval_above_range : calculateNextInterval 150 = 34%Z.
Proof.
  pose proof exp_4_bounds as [Hl Hu].
  pose proof (exp_pos 4) as Hp.
  apply interval_from_bounds with (lo := 100 / 5555) (hi := 100 / 5314).
  - lra.
  - replace (2 - 150 / 25) with (Ropp 4) by lra. rewrite exp_Ropp.
    split.
    + replace (100 / 5555) with (/ (5555 / 100)) by lra.
      apply Rinv_lt_contravar; nra.
    + replace (100 / 5314) with (/ (5314 / 100)) by lra.
      apply Rinv_lt_contravar; nra.
  - lra.
  - lra.
Qed.

(** C3, as the specification states it, fails at both ends of the scale:
    the interval at score 0 is not 240 minutes and the interval at score
    100 is not 30 minutes. *)
Lemma interval_ends_miss_min_and_max :
  calculateNextInterval 0 <> 240%Z /\ calculateNextInterval 100 <> 30%Z.
Proof.
  rewrite interval_at_0, interval_at_100. split; discriminate.
Qed.

(** C3 (amended): the interval is the logistic formula rounded to whole
    minutes, it never increases with the score, and it takes the values
    215 at score 0, 55 at score 100 and 135 at score 50; it stays between
    30 and 240 without reaching the two ends at 0 and 100. *)
Theorem next_interval_is_rounded_logistic :
  (forall s : R,
     calculateNextInterval s = Math_round (minutes s)
     /\ minutes s = 30 + (240 - 30) * (1 - ratio s)
     /\ ratio s = 1 / (1 + exp (- (4 * (s / 100 - 5 / 10)))))
  /\ (forall s1 s2 : R,
        s1 <= s2 -> (calculateNextInterval s2 <= calculateNextInterval s1)%Z)
  /\ (forall s : R, (30 <= calculateNextInterval s <= 240)%Z)
  /\ calculateNextInterval 0 = 215%Z
  /\ calculateNextInterval 100 = 55%Z
  /\ calculateNextInterval 50 = 135%Z.
Proof.
  split; [|split; [|split; [|split; [|split]]]].
  - intros s. split; [reflexivity|]. split.
    + unfold minutes, MIN_INTERVAL_MIN, MAX_INTERVAL_MIN. lra.
    + unfold ratio, LOGISTIC_STEEPNESS. do 3 f_equal. lra.
  - exact interval_antitone.
  - exact interval_range.
  - exact interval_at_0.
  - exact interval_at_100.
  - exact interval_at_50.
Qed.

Lemma next_interval_is_rounded_logistic_witness :
  (calculateNextInterval 100 <= calculateNextInterval 0)%Z.
Proof.
  destruct next_interval_is_rounded_logistic as (_ & Hmono & _).
  apply Hmono. lra.
Defined.

(** C7, as the specification states it, fails: the interval of a score
    below 0 differs from the interval at 0, and the interval of a score
    above 100 differs from the interval at 100. *)
Lemma out_of_range_score_not_clamped :
  calculateNextInterval (-50) <> calculateNextInterval 0
  /\ calculateNextInterval 150 <> calculateNextInterval 100.
Proof.
  rewrite interval_below_range, interval_above_range, interval_at_0,
    interval_at_100.
  split; discriminate.
Qed.

(** C7 (amended): the interval computation takes the score as it comes,
    without clamping.  A score below 0 gives an interval at least as long
    as the one at 0 and at most 240 minutes, a score above 100 one at most
    as long as the one at 100 and at least 30 minutes; -50 gives 236 and
    150 gives 34, against 215 at 0 and 55 at 100. *)
Theorem out_of_range_score_is_used_as_is :
  (forall s : R,
     s < 0 ->
     (calculateNextInterval 0 <= calculateNextInterval s <= 240)%Z)
  /\ (forall s : R,
        100 < s ->
        (30 <= calculateNextInterval s <= calculateNextInterval 100)%Z)
  /\ calculateNextInterval (-50) = 236%Z
  /\ calculateNextInterval 150 = 34%Z.
Proof.
  split; [|split; [|split]].
  - intros s Hs. split.
    + apply interval_antitone. lra.
    + apply interval_range.
  - intros s Hs. split.
    + apply interval_range.
    + apply interval_antitone. lra.
  - exact interval_below_range.
  - exact interval_above_range.
Qed.

Lemma out_of_range_score_is_used_as_is_witness :
  (calculateNextInterval 0 <= calculateNextInterval (-50) <= 240)%Z.
Proof.
  destruct out_of_range_score_is_used_as_is as (Hlow & _).
  apply Hlow. lra.
Defined.

End BurnoutTimerFacts.

(** ** Sorting the day keys *)

Module SortFacts.
Import JsString Views.

Lemma insertSorted_perm (k : string) (ks : list string) :
  Permutation (insertSorted k ks) (k :: ks).
Proof.
  induction ks as [|k' rest IH]; simpl.
  - apply Permutation_refl.
  - destruct (String.leb k k').
    + apply Permutation_refl.
    + eapply perm_trans; [apply perm_skip, IH | apply perm_swap].
Qed.

Lemma sortStrings_perm (ks : list string) : Permutation (sortStrings ks) ks.
Proof.
  induction ks as [|k rest IH]; simpl.
  - apply perm_nil.
  - eapply perm_trans; [apply insertSorted_perm | apply perm_skip, IH].
Qed.

Lemma insertSorted_hd (k a : string) (ks : list string) :
  ascending a k -> HdRel ascending a ks -> HdRel ascending a (insertSorted k ks).
Proof.
  intros Hak Hhd. destruct ks as [|k' rest]; simpl.
  - constructor. exact Hak.
  - destruct (String.leb k k'); constructor.
    + exact Hak.
    + inversion Hhd; assumption.
Qed.

Lemma insertSorted_sorted (k : string) (ks : list string) :
  Sorted ascending ks -> Sorted ascending (insertSorted k ks).
Proof.
  induction 1 as [|a rest Hs IH Hhd]; simpl.
  - repeat constructor.
  - destruct (String.leb k a) eqn:Hka.
    + constructor; [constructor; assumption | constructor; exact Hka].
    + constructor; [exact IH|].
      apply insertSorted_hd; [|exact Hhd].
      destruct (String.leb_total k a) as [H|H]; [congruence | exact H].
Qed.

Lemma sortStrings_sorted (ks : list string) : Sorted ascending (sortStrings ks).
Proof.
  induction ks as [|k rest IH]; simpl.
  - constructor.
  - apply insertSorted_sorted, IH.
Qed.

Lemma leb_neq_ltb (a b : string) :
  String.leb a b = true -> a <> b -> String.ltb a b = true.
Proof.
  unfold String.leb, String.ltb. intros Hle Hne.
  destruct (String.compare a b) eqn:Hc; try reflexivity; try discriminate.
  exfalso. apply Hne, String.compare_eq_iff, Hc.
Qed.

Lemma sorted_nodup_strict (ks : list string) :
  Sorted ascending ks -> NoDup ks -> Sorted strictlyAscending ks.
Proof.
  induction 1 as [|a rest Hs IH Hhd]; intros Hnd.
  - constructor.
  - inversion Hnd as [|? ? Hnotin Hnd']; subst.
    constructor; [apply IH, Hnd'|].
    destruct Hhd as [|b rest' Hab]; constructor.
    apply leb_neq_ltb; [exact Hab|].
    intros ->. apply Hnotin. left. reflexivity.
Qed.

End SortFacts.

(** ** Grouping the proposals by day *)

Module GroupingFacts.
Import JsString MainApp Views SortFacts.
Local Open Scope string_scope.

Lemma lookup_pushTo_same (k : string) (v : DayProposal) (g : Grouped) :
  lookup k (pushTo k v g)
  = Some (match lookup k g with Some vs => vs ++ [v] | None => [v] end)%list.
Proof.
  induction g as [|[k' vs] rest IH]; simpl.
  - rewrite String.eqb_refl. reflexivity.
  - destruct (String.eqb k' k) eqn:E; simpl; rewrite E; [reflexivity | exact IH].
Qed.

Lemma lookup_pushTo_other (k k0 : string) (v : DayProposal) (g : Grouped) :
  k0 <> k -> lookup k0 (pushTo k v g) = lookup k0 g.
Proof.
  intros Hne. induction g as [|[k' vs] rest IH]; simpl.
  - apply String.eqb_neq in Hne. rewrite String.eqb_sym, Hne. reflexivity.
  - destruct (String.eqb k' k) eqn:E; simpl.
    + apply String.eqb_eq in E. subst k'.
      assert (E' : String.eqb k k0 = false)
        by (apply String.eqb_neq; congruence).
      rewrite E'. reflexivity.
    + rewrite IH. reflexivity.
Qed.

Lemma keys_pushTo (k k0 : string) (v : DayProposal) (g : Grouped) :
  In k0 (map fst (pushTo k v g)) <-> k0 = k \/ In k0 (map fst g).
Proof.
  induction g as [|[k' vs] rest IH]; simpl.
  - intuition.
  - destruct (String.eqb k' k) eqn:E; simpl.
    + apply String.eqb_eq in E. subst. intuition.
    + rewrite IH. intuition.
Qed.

Lemma pushTo_nodup (k : string) (v : DayProposal) (g : Grouped) :
  NoDup (map fst g) -> NoDup (map fst (pushTo k v g)).
Proof.
  induction g as [|[k' vs] rest IH]; simpl; intros Hnd.
  - constructor; [intros [] | constructor].
  - inversion Hnd as [|? ? Hnotin Hnd']; subst.
    destruct (String.eqb k' k) eqn:E; simpl.
    + constructor; assumption.
    + constructor; [|apply IH, Hnd'].
      rewrite keys_pushTo. intros [->|Hin]; [|contradiction].
      rewrite String.eqb_refl in E. discriminate.
Qed.

Lemma lookup_in_keys (k : string) (g : Grouped) (vs : list DayProposal) :
  lookup k g = Some vs -> In k (map fst g).
Proof.
  induction g as [|[k' vs'] rest IH]; simpl; [discriminate|].
  destruct (String.eqb k' k) eqn:E.
  - apply String.eqb_eq in E. intros _. left. exact E.
  - intros H. right. apply IH, H.
Qed.

Lemma keys_have_lookup (k : string) (g : Grouped) :
  In k (map fst g) -> exists vs, lookup k g = Some vs.
Proof.
  induction g as [|[k' vs'] rest IH]; simpl; [intros []|].
  destruct (String.eqb k' k) eqn:E.
  - intros _. eexists. reflexivity.
  - intros [H|H]; [|apply IH, H].
    simpl in H. subst. rewrite String.eqb_refl in E. discriminate.
Qed.

Lemma groups_nil (h : JsDate.Host) : groups h [] [].
Proof. split; [constructor | reflexivity]. Qed.

Lemma groups_push (h : JsDate.Host) (vs : list DayProposal) (g : Grouped)
    (v : DayProposal) :
  groups h vs g -> groups h (vs ++ [v]) (pushTo (keyOf h v) v g).
Proof.
  intros [Hnd Hlk]. split; [apply pushTo_nodup, Hnd|].
  intros k. unfold ofDay. rewrite filter_app. simpl.
  destruct (String.eqb (keyOf h v) k) eqn:E.
  - apply String.eqb_eq in E. subst k.
    rewrite lookup_pushTo_same, Hlk. unfold ofDay.
    destruct (filter _ vs); reflexivity.
  - rewrite lookup_pushTo_other.
    + rewrite Hlk, app_nil_r. reflexivity.
    + intros ->. rewrite String.eqb_refl in E. discriminate.
Qed.

Lemma dated_proposal (h : JsDate.Host) (p : Proposal) (k : string)
    (v : DayProposal) :
  dated h p = Some (k, v) -> proposal v = p /\ keyOf h v = k.
Proof.
  unfold keyOf, dated.
  destruct (JsDate.parse h (start p)) eqn:E; [|discriminate].
  intros H. injection H as <- <-. simpl. rewrite E. split; reflexivity.
Qed.

Lemma groupInto_groups (h : JsDate.Host) (proposals : list Proposal) :
  Forall (fun p => dated h p <> None) proposals ->
  forall (vs : list DayProposal) (g : Grouped),
    groups h vs g ->
    exists grouped,
      groupInto h proposals g = Some grouped
      /\ groups h (vs ++ elements h proposals) grouped.
Proof.
  induction 1 as [|p rest Hp _ IH]; intros vs g Hg; simpl.
  - exists g. rewrite app_nil_r. split; [reflexivity | exact Hg].
  - destruct (dated h p) as [[k v]|] eqn:E; [|contradiction].
    destruct (dated_proposal _ _ _ _ E) as [_ Hk].
    destruct (IH (vs ++ [v])%list (pushTo k v g)) as (grouped & Hrun & Hgr).
    + rewrite <- Hk. apply groups_push, Hg.
    + exists grouped. split; [exact Hrun|].
      rewrite <- app_assoc in Hgr. exact Hgr.
Qed.

Lemma elements_dated (h : JsDate.Host) (proposals : list Proposal) :
  Forall (fun p => dated h p <> None) proposals ->
  map (dated h) proposals
  = map (fun v => Some (keyOf h v, v)) (elements h proposals)
  /\ map proposal (elements h proposals) = proposals.
Proof.
  induction 1 as [|p rest Hp _ [IH1 IH2]]; simpl; [split; reflexivity|].
  destruct (dated h p) as [[k v]|] eqn:E; [|contradiction].
  destruct (dated_proposal _ _ _ _ E) as [Hv Hk].
  simpl. rewrite IH1, IH2, Hv, Hk. split; reflexivity.
Qed.

(** Reading the groups of distinct keys that cover all elements, in any
    order of the keys, gives each element once. *)
Lemma ofDay_cover (h : JsDate.Host) (ks : list string) :
  NoDup ks ->
  forall vs : list DayProposal,
    (forall v, In v vs -> In (keyOf h v) ks) ->
    Permutation (flat_map (fun k => ofDay h k vs) ks) vs.
Proof.
  induction 1 as [|k ks Hnotin Hnd IH]; intros vs Hcover; simpl.
  - destruct vs as [|v vs]; [constructor|].
    destruct (Hcover v (or_introl eq_refl)).
  - set (others := filter (fun v => negb (String.eqb (keyOf h v) k)) vs).
    assert (Hsame : flat_map (fun k' => ofDay h k' vs) ks
                    = flat_map (fun k' => ofDay h k' others) ks).
    { rewrite !flat_map_concat_map. f_equal. apply map_ext_in.
      intros k' Hin. unfold ofDay, others. clear - Hin Hnotin.
      induction vs as [|v vs IHv]; simpl; [reflexivity|].
      destruct (String.eqb (keyOf h v) k) eqn:E; simpl.
      - apply String.eqb_eq in E.
        destruct (String.eqb (keyOf h v) k') eqn:E'; [|exact IHv].
        apply String.eqb_eq in E'. exfalso. apply Hnotin. congruence.
      - rewrite IHv. reflexivity. }
    rewrite Hsame.
    eapply perm_trans.
    + apply Permutation_app_head. apply IH.
      intros v Hv. unfold others in Hv. apply filter_In in Hv.
      destruct Hv as [Hv Hk]. destruct (Hcover v Hv) as [Heq|Hin]; [|exact Hin].
      rewrite Heq, String.eqb_refl in Hk. discriminate.
    + unfold ofDay, others. clear.
      induction vs as [|v vs IHv]; simpl; [constructor|].
      destruct (String.eqb (keyOf h v) k); simpl.
      * apply perm_skip, IHv.
      * eapply perm_trans; [apply Permutation_sym, Permutation_middle|].
        apply perm_skip, IHv.
Qed.

Lemma groups_flattened (h : JsDate.Host) (vs : list DayProposal) (g : Grouped) :
  groups h vs g ->
  flattened g = flat_map (fun k => ofDay h k vs) (sortedDayKeys g).
Proof.
  intros [Hnd Hlk]. unfold flattened.
  rewrite !flat_map_concat_map. f_equal. apply map_ext.
  intros k. unfold App.dayOf. rewrite Hlk.
  destruct (ofDay h k vs); reflexivity.
Qed.

Lemma groups_cover (h : JsDate.Host) (vs : list DayProposal) (g : Grouped) :
  groups h vs g -> forall v, In v vs -> In (keyOf h v) (map fst g).
Proof.
  intros [Hnd Hlk] v Hv.
  assert (Hin : In v (ofDay h (keyOf h v) vs)).
  { apply filter_In. split; [exact Hv | apply String.eqb_refl]. }
  specialize (Hlk (keyOf h v)).
  destruct (ofDay h (keyOf h v) vs) as [|v0 day] eqn:E; [destruct Hin|].
  eapply lookup_in_keys, Hlk.
Qed.

(** A start that is not a timestamp makes the whole call throw. *)
Lemma groupInto_invalid_start (h : JsDate.Host) (proposals : list Proposal) :
  Exists (fun p => dated h p = None) proposals ->
  forall g : Grouped, groupInto h proposals g = None.
Proof.
  induction 1 as [p rest Hp | p rest _ IH]; intros g; simpl.
  - rewrite Hp. reflexivity.
  - destruct (dated h p) as [[k v]|]; [apply IH | reflexivity].
Qed.

(** X27: what holds of the groups in every host.  For proposals whose
    starts are timestamps, [groupProposalsByDay] returns, and its groups
    partition the elements pushed.  The elements are the proposals, one
    each and in input order; the keys are distinct; every element sits in
    the one group under its day key, which is the date [toISOString]
    prints for the parsed start, and a group holds exactly the elements of
    its key, in input order; read in ascending key order the groups give
    every element once.  Which date the key is, next to the date written
    in the start, depends on the host (see [ReviewFacts]). *)
Theorem groupProposalsByDay_partitions (h : JsDate.Host)
    (proposals : list Proposal) :
  Forall (fun p => dated h p <> None) proposals ->
  exists grouped : Grouped,
    groupProposalsByDay h proposals = Some grouped
    /\ map proposal (elements h proposals) = proposals
    /\ NoDup (map fst grouped)
    /\ (forall v, In v (elements h proposals) ->
          exists date day,
            JsDate.parse h (start (proposal v)) = Some date
            /\ keyOf h v = JsDate.isoDate date
            /\ lookup (keyOf h v) grouped = Some day
            /\ In v day)
    /\ (forall k day, lookup k grouped = Some day ->
          day <> [] /\ day = ofDay h k (elements h proposals))
    /\ Sorted strictlyAscending (sortedDayKeys grouped)
    /\ Permutation (sortedDayKeys grouped) (map fst grouped)
    /\ flattened grouped
       = flat_map (fun k => ofDay h k (elements h proposals))
           (sortedDayKeys grouped)
    /\ Permutation (flattened grouped) (elements h proposals).
Proof.
  intros Hvalid.
  destruct (groupInto_groups h proposals Hvalid [] [] (groups_nil h))
    as (grouped & Hrun & Hgr).
  simpl in Hgr. pose proof Hgr as [Hnd Hlk].
  pose proof (sortStrings_perm (map fst grouped)) as Hperm.
  exists grouped. repeat split.
  - exact Hrun.
  - apply elements_dated, Hvalid.
  - exact Hnd.
  - intros v Hv.
    assert (Hin : In v (ofDay h (keyOf h v) (elements h proposals))).
    { apply filter_In. split; [exact Hv | apply String.eqb_refl]. }
    assert (Hd : exists date, JsDate.parse h (start (proposal v)) = Some date
                              /\ keyOf h v = JsDate.isoDate date).
    { destruct (elements_dated h proposals Hvalid) as [_ Hps].
      assert (Hp : In (proposal v) proposals)
        by (rewrite <- Hps; apply in_map, Hv).
      rewrite Forall_forall in Hvalid. specialize (Hvalid _ Hp).
      unfold keyOf, dated in *.
      destruct (JsDate.parse h (start (proposal v))) as [date|];
        [|contradiction].
      exists date. split; reflexivity. }
    destruct Hd as (date & Hparse & Hkey).
    exists date, (ofDay h (keyOf h v) (elements h proposals)).
    repeat split; try assumption.
    rewrite Hlk.
    destruct (ofDay h (keyOf h v) (elements h proposals)); [destruct Hin|reflexivity].
  - rewrite Hlk in H.
    destruct (ofDay h k (elements h proposals)); [discriminate|].
    injection H as <-. discriminate.
  - rewrite Hlk in H.
    destruct (ofDay h k (elements h proposals)); [discriminate|].
    injection H as <-. reflexivity.
  - apply sorted_nodup_strict; [apply sortStrings_sorted|].
    eapply Permutation_NoDup; [apply Permutation_sym, Hperm | exact Hnd].
  - exact Hperm.
  - apply groups_flattened, Hgr.
  - rewrite (groups_flattened h _ _ Hgr).
    apply ofDay_cover.
    + eapply Permutation_NoDup; [apply Permutation_sym, Hperm | exact Hnd].
    + intros v Hv. eapply Permutation_in; [apply Permutation_sym, Hperm|].
      eapply groups_cover; eassumption.
Qed.

Lemma groupProposalsByDay_partitions_witness :
  exists grouped : Grouped,
    groupProposalsByDay JsDate.hostUTC [Scenario.walk; Scenario.meditate]
    = Some grouped
    /\ NoDup (map fst grouped)
    /\ Sorted strictlyAscending (sortedDayKeys grouped)
    /\ Permutation (flattened grouped)
         (elements JsDate.hostUTC [Scenario.walk; Scenario.meditate]).
Proof.
  destruct (groupProposalsByDay_partitions JsDate.hostUTC
              [Scenario.walk; Scenario.meditate])
    as (grouped & Hrun & _ & Hnd & _ & _ & Hsorted & _ & _ & Hperm).
  - repeat constructor; vm_compute; discriminate.
  - exists grouped. repeat split; assumption.
Defined.

End GroupingFacts.

(** ** Reading the planner's raw text *)

Module ParserFacts.
Import JsString MainApp App Views.
Local Open Scope string_scope.

Lemma dropPrefix_spec (p s rest : string) :
  dropPrefix p s = Some rest -> s = p ++ rest.
Proof.
  revert s. induction p as [|a p IH]; intros s; simpl.
  - intros H. injection H as <-. reflexivity.
  - destruct s as [|b s]; [discriminate|].
    destruct (Ascii.eqb a b) eqn:E; [|discriminate].
    apply Ascii.eqb_eq in E. subst b. intros H. rewrite (IH _ H). reflexivity.
Qed.

(** [splitAtFirst] cuts the text at an occurrence of the marker. *)
Lemma splitAtFirst_spec (p s before rest : string) :
  splitAtFirst p s = Some (before, rest) -> s = before ++ p ++ rest.
Proof.
  revert before. induction s as [|c s IH]; intros before.
  - destruct p; simpl; [|discriminate].
    intros H. injection H as <- <-. reflexivity.
  - cbn [splitAtFirst].
    destruct (dropPrefix p (String c s)) as [r|] eqn:E.
    + intros H. injection H as <- <-. simpl. apply dropPrefix_spec, E.
    + destruct (splitAtFirst p s) as [[b r]|]; [|discriminate].
      intros H. injection H as <- <-. simpl. rewrite (IH b eq_refl).
      reflexivity.
Qed.

Lemma dropPrefix_app (p rest : string) : dropPrefix p (p ++ rest) = Some rest.
Proof.
  induction p as [|a p IH]; simpl; [reflexivity|].
  rewrite Ascii.eqb_refl. exact IH.
Qed.

(** The cut of [splitAtFirst] is the first one: no occurrence of the marker
    starts earlier. *)
Lemma splitAtFirst_first (p s before rest : string) :
  splitAtFirst p s = Some (before, rest) ->
  forall b r : string,
    s = b ++ p ++ r -> (String.length before <= String.length b)%nat.
Proof.
  revert before. induction s as [|c s IH]; intros before.
  - destruct p; simpl; [|discriminate].
    intros H. injection H as <- <-. intros; simpl; lia.
  - cbn [splitAtFirst].
    destruct (dropPrefix p (String c s)) as [r0|] eqn:E.
    + intros H. injection H as <- <-. intros; simpl; lia.
    + destruct (splitAtFirst p s) as [[b0 r0]|]; [|discriminate].
      intros H. injection H as <- <-. intros b r Hs.
      destruct b as [|c' b].
      * simpl in Hs. rewrite Hs, dropPrefix_app in E. discriminate.
      * simpl in Hs. injection Hs as _ Hs. simpl.
        apply le_n_S. apply (IH b0 eq_refl b r Hs).
Qed.

(** [includes] finds the marker exactly when the text holds it. *)
Lemma includes_spec (s p : string) :
  includes s p = true <-> exists b r : string, s = b ++ p ++ r.
Proof.
  unfold includes. split.
  - destruct (splitAtFirst p s) as [[b r]|] eqn:E; [|discriminate].
    intros _. exists b, r. apply splitAtFirst_spec, E.
  - intros (b & r & ->). induction b as [|c b IH].
    + simpl. destruct (p ++ r) eqn:Epr; cbn [splitAtFirst];
        rewrite <- Epr, dropPrefix_app; reflexivity.
    + simpl. cbn [splitAtFirst].
      destruct (dropPrefix p (String c (b ++ p ++ r))); [reflexivity|].
      destruct (splitAtFirst p (b ++ p ++ r)) as [[b0 r0]|];
        [reflexivity | discriminate].
Qed.

Lemma includes_false_head (p s : string) :
  includes s p = false -> dropPrefix p s = None.
Proof.
  unfold includes. destruct s; cbn [splitAtFirst];
    destruct (dropPrefix p _); [discriminate | reflexivity
                               | discriminate | reflexivity].
Qed.

Lemma includes_false_tail (p : string) (c : ascii) (s : string) :
  includes (String c s) p = false -> includes s p = false.
Proof.
  unfold includes. cbn [splitAtFirst].
  destruct (dropPrefix p (String c s)); [discriminate|].
  destruct (splitAtFirst p s) as [[b r]|]; [discriminate | reflexivity].
Qed.

(** Without the start tag the payload pattern matches nowhere. *)
Lemma payloadMatch_without_tag (raw : string) :
  includes raw "<payload>" = false -> payloadMatch raw = None.
Proof.
  induction raw as [|c raw IH]; intros H.
  - reflexivity.
  - cbn [payloadMatch]. unfold payloadAt.
    rewrite (includes_false_head _ _ H).
    apply IH. eapply includes_false_tail, H.
Qed.

Lemma analysisMatch_without_tag (raw : string) :
  includes raw "<response>" = false -> analysisMatch raw = None.
Proof.
  unfold includes, analysisMatch.
  destruct (splitAtFirst "<response>" raw) as [[b r]|];
    [discriminate | reflexivity].
Qed.

(** C4, as the specification states it, fails: a text without markers
    comes back with an empty analysis, not with the trimmed text. *)
Lemma marker_free_text_is_not_the_analysis :
  let raw := "  Nothing to add this week.  " in
  includes raw "<response>" = false
  /\ includes raw "<payload>" = false
  /\ trim raw = "Nothing to add this week."
  /\ readRawText raw = ([], "")
  /\ snd (readRawText raw) <> trim raw.
Proof.
  vm_compute. repeat split; discriminate.
Qed.

(** C4 (amended): for every raw text without a [<response>] tag and
    without a [<payload>] tag, reading it gives an empty proposals list and
    an empty analysis. *)
Theorem marker_free_text_gives_nothing (raw : string) :
  includes raw "<response>" = false ->
  includes raw "<payload>" = false ->
  readRawText raw = ([], "").
Proof.
  intros Hr Hp. unfold readRawText.
  rewrite (analysisMatch_without_tag _ Hr), (payloadMatch_without_tag _ Hp).
  reflexivity.
Qed.

Lemma marker_free_text_gives_nothing_witness :
  readRawText "Nothing to add this week." = ([], "").
Proof.
  apply marker_free_text_gives_nothing; reflexivity.
Defined.

(** C5, as the specification states it, fails: a text whose payload
    segment is not JSON and that has no [<response>] tag comes back with
    an empty analysis, not with the trimmed text in front of the payload
    marker.  The analysis pattern looks for [<response>], and the payload
    pattern for [<payload>], each on its own. *)
Lemma malformed_payload_without_response_tag_loses_the_text :
  let raw := "Two quiet slots found. <payload>{oops}</payload>" in
  payloadMatch raw = Some "{oops}"
  /\ Json.parse "{oops}" = None
  /\ splitAtFirst "<payload>" raw
     = Some ("Two quiet slots found. ", "{oops}</payload>")
  /\ trim "Two quiet slots found. " = "Two quiet slots found."
  /\ includes raw "<response>" = false
  /\ readRawText raw = ([], "")
  /\ snd (readRawText raw) <> trim "Two quiet slots found. ".
Proof.
  vm_compute. repeat split; discriminate.
Qed.

(** C5 (amended): when the payload pattern finds a segment and
    [JSON.parse] throws on it, reading the text returns, with no proposals.
    The analysis is the trimmed text in front of the first [<response>]
    tag when the text has one: for [raw] cut at its first [<response>] into
    [before] and [rest], the analysis is [trim before].  It is empty when
    the text has no such tag. *)
Theorem malformed_payload_gives_no_proposals (raw segment : string) :
  payloadMatch raw = Some segment ->
  Json.parse segment = None ->
  fst (readRawText raw) = []
  /\ (forall before rest : string,
        splitAtFirst "<response>" raw = Some (before, rest) ->
        raw = before ++ "<response>" ++ rest
        /\ (forall b r : string,
              raw = b ++ "<response>" ++ r ->
              (String.length before <= String.length b)%nat)
        /\ readRawText raw = ([], trim before))
  /\ (includes raw "<response>" = false -> readRawText raw = ([], "")).
Proof.
  intros Hseg Hparse. unfold readRawText. rewrite Hseg, Hparse.
  split; [reflexivity|]. split.
  - intros before rest Hsplit. split; [|split].
    + apply splitAtFirst_spec, Hsplit.
    + apply (splitAtFirst_first _ _ _ _ Hsplit).
    + unfold analysisMatch. rewrite Hsplit. reflexivity.
  - intros Hnone. rewrite (analysisMatch_without_tag _ Hnone). reflexivity.
Qed.

Lemma malformed_payload_gives_no_proposals_witness :
  readRawText
    "Two quiet slots found. <response><payload>{oops}</payload></response>"
  = ([], "Two quiet slots found.").
Proof.
  destruct (malformed_payload_gives_no_proposals
              "Two quiet slots found. <response><payload>{oops}</payload></response>"
              "{oops}")
    as (_ & Hcut & _); [reflexivity | reflexivity |].
  apply (Hcut "Two quiet slots found. "
              "<payload>{oops}</payload></response>").
  reflexivity.
Defined.

(** *** The planning call around the reading *)

Lemma ok_not_401 {A : Type} (res : Response A) :
  ok res = true -> (status res =? 401)%Z = false.
Proof.
  unfold ok. intros H. apply andb_prop in H. destruct H as [_ H].
  apply Z.leb_le in H. apply Z.eqb_neq. lia.
Qed.

(** [planWithManager] on a planning response that is ok and not a bare
    "finished": it returns, whatever the raw text, and the proposals and
    the analysis are those read off the raw text. *)
Lemma planWithManager_reads_raw_text (env : Env) (s : AppState) (days : Z)
    (w : World) (email raw : string) (res : Response PlanData)
    (data : PlanData) :
  activeEmail s = Some email ->
  email <> "" ->
  onPlanStart (backend env)
    (calls w ++ [ReqPlanStart email (userName env) days]) = Some res ->
  ok res = true ->
  body res = Some data ->
  (finished data && negb (truthy (session_id data)))%bool = false ->
  raw_text data = Some raw ->
  planWithManager env s days w
  = (Returned
       (PlanReady (fst (readRawText raw)) (session_id data)
          (snd (readRawText raw)) raw),
     afterCalls [ReqPlanStart email (userName env) days] w).
Proof.
  intros Hmail Hne Hres Hok Hbody Hfin Hraw.
  unfold planWithManager. rewrite Hmail. cbn [truthy orUndefined].
  apply String.eqb_neq in Hne. rewrite Hne. cbn [negb].
  unfold bind at 1, fetch. rewrite Hres, (ok_not_401 _ Hok), Hok.
  cbn [negb]. unfold bind at 1, json. rewrite Hbody. unfold ret at 1.
  rewrite Hfin, Hraw. cbn [truthy orUndefined orElse].
  destruct (String.eqb raw "") eqn:E; cbn [negb].
  - apply String.eqb_eq in E. subst raw. reflexivity.
  - destruct (readRawText raw). unfold orElse, truthy. rewrite E.
    reflexivity.
Qed.

End ParserFacts.

(** ** The chat handler while a day awaits its decision *)

Module ConsentFacts.
Import JsString MainApp App Views Scenario.
Local Open Scope string_scope.

(** C1: while a day awaits its decision, a reply that is neither on the
    affirmative nor on the negative list (after trimming and lower-casing,
    as the handler reads it) only gets the re-prompt.  The handler returns;
    the world after it differs from the world before it in two cells only,
    the input, which is emptied, and the messages, which gain the user's
    text and the re-prompt: every consent and session cell is as before, no
    request was issued and no timer queued, so nothing was planned.  Input
    that is blank is dropped before it becomes a message and changes
    nothing at all. *)
Theorem invalid_day_reply_only_reprompts (env : Env) (w : World) :
  awaitingDayConsent (app w) = true ->
  isYes (toLowerCase (trim (inputMessage (app w)))) = false ->
  isNo (toLowerCase (trim (inputMessage (app w)))) = false ->
  let userText := trim (inputMessage (app w)) in
  (userText = "" -> handleSendMessage env (app w) w = (Returned tt, w))
  /\ (userText <> "" ->
      exists m1 m2 : ChatMessage,
        sender m1 = user /\ message m1 = userText
        /\ sender m2 = buddy /\ message m2 = dayRepromptText
        /\ handleSendMessage env (app w) w
           = (Returned tt,
              withApp
                (setInputMessage ""
                   (setMessages (messages (app w) ++ [m1; m2])%list (app w)))
                4 w)).
Proof.
  intros Hday Hyes Hno userText. unfold handleSendMessage.
  fold userText. fold userText in Hyes, Hno. split.
  - intros ->. reflexivity.
  - intros Hne. apply String.eqb_neq in Hne. rewrite Hne, Hday, Hyes, Hno.
    exists {| id := intText (clock env (clockReads w) + 0); sender := user;
              message := userText;
              timestamp := clock env (S (clockReads w)) |},
           {| id := intText (clock env (S (S (clockReads w))) + 1);
              sender := buddy; message := dayRepromptText;
              timestamp := clock env (S (S (S (clockReads w)))) |}.
    repeat (split; [reflexivity|]).
    unfold say, newMessage, appendMessage, bind, ret, set, Date_now, withApp.
    cbn. rewrite <- app_assoc. reflexivity.
Qed.

(** The reply of the specification's example carries a scheduling keyword
    and is answered with the re-prompt all the same. *)
Lemma invalid_day_reply_only_reprompts_witness :
  let w := typing "please schedule more" (reviewing JsDate.hostUTC [walk; meditate]) in
  wantsSchedulingIntent "please schedule more" = true
  /\ exists m1 m2 : ChatMessage,
       sender m1 = user /\ message m1 = "please schedule more"
       /\ sender m2 = buddy /\ message m2 = dayRepromptText
       /\ handleSendMessage (envAt JsDate.hostUTC) (app w) w
          = (Returned tt,
             withApp
               (setInputMessage ""
                  (setMessages (messages (app w) ++ [m1; m2])%list (app w)))
               4 w).
Proof.
  intros w. split; [reflexivity|].
  apply (invalid_day_reply_only_reprompts (envAt JsDate.hostUTC) w);
    [reflexivity | reflexivity | reflexivity | discriminate].
Defined.

(** *** The accept loop *)

Lemma afterCalls_nil (w : World) : afterCalls [] w = w.
Proof.
  destruct w. unfold afterCalls. simpl. rewrite app_nil_r. reflexivity.
Qed.

Lemma afterCalls_app (a b : list Request) (w : World) :
  afterCalls b (afterCalls a w) = afterCalls (a ++ b) w.
Proof. unfold afterCalls. simpl. rewrite app_assoc. reflexivity. Qed.

(** One turn of the loop always returns: it logs one call and adds one to
    the count exactly when that call counts as scheduled. *)
Lemma acceptOne_run (env : Env) (s : AppState) (n : nat) (w : World) :
  acceptOne env s n w
  = (Returned
       (n + if scheduledAt env
                 (calls w ++ [ReqDecision (currentSessionId s) true])
            then 1 else 0)%nat,
     afterCalls [ReqDecision (currentSessionId s) true] w).
Proof.
  unfold acceptOne, tryCatch, bind, fetch, scheduledAt, json, ret, throw,
    afterCalls.
  destruct (onDecision (backend env) _) as [res|]; cbn.
  - destruct (ok res); cbn.
    + destruct (body res) as [data|]; cbn.
      * destruct (isScheduled data); cbn;
          rewrite ?Nat.add_1_r, ?Nat.add_0_r; reflexivity.
      * rewrite Nat.add_0_r. reflexivity.
    + rewrite Nat.add_0_r. reflexivity.
  - rewrite Nat.add_0_r. reflexivity.
Qed.

Lemma scheduledCount_S (env : Env) (log : list Request) (req : Request)
    (n : nat) :
  scheduledCount env log req (S n)
  = ((if scheduledAt env (log ++ [req]) then 1 else 0)
     + scheduledCount env (log ++ [req]) req n)%nat.
Proof.
  unfold scheduledCount. cbn [seq map repeat filter].
  replace (map (fun i => (log ++ repeat req i)%list) (seq 2 n))
    with (map (fun i => ((log ++ [req]) ++ repeat req i)%list) (seq 1 n)).
  - destruct (scheduledAt env (log ++ [req])); reflexivity.
  - rewrite <- (seq_shift n 1), map_map. apply map_ext.
    intros i. rewrite <- app_assoc. reflexivity.
Qed.

(** The whole loop: one call per proposal, and the count grows by the
    number of calls that count as scheduled. *)
Lemma acceptLoop_run (env : Env) (s : AppState) (day : list DayProposal) :
  forall (n : nat) (w : World),
    acceptLoop env s day n w
    = (Returned
         (n + scheduledCount env (calls w)
                (ReqDecision (currentSessionId s) true) (List.length day))%nat,
       afterCalls
         (repeat (ReqDecision (currentSessionId s) true) (List.length day)) w).
Proof.
  induction day as [|v day IH]; intros n w.
  - cbn. rewrite afterCalls_nil. unfold scheduledCount. cbn.
    rewrite Nat.add_0_r. reflexivity.
  - cbn [acceptLoop List.length]. unfold bind. rewrite acceptOne_run, IH.
    rewrite afterCalls_app. cbn [repeat app].
    rewrite scheduledCount_S. cbn [calls afterCalls].
    rewrite Nat.add_assoc. reflexivity.
Qed.



End ConsentFacts.

(** ** Resetting the conversation, starting a review *)

Module ReviewFacts.
Import JsString MainApp App Views Scenario.
Local Open Scope string_scope.

(** What the reset button does, in any world: the chat goes back to the
    greeting and the legacy consent is dropped; the five cells of the
    day-by-day review stay as they are, and nothing is sent or queued. *)
Lemma reset_cells (env : Env) (w : World) :
  exists w' : World,
    resetConversation env w = (Returned tt, w')
    /\ List.length (messages (app w')) = 1%nat
    /\ inputMessage (app w') = ""
    /\ pendingProposals (app w') = []
    /\ awaitingConsent (app w') = false
    /\ awaitingDayConsent (app w') = awaitingDayConsent (app w)
    /\ groupedProposals (app w') = groupedProposals (app w)
    /\ currentDayProposals (app w') = currentDayProposals (app w)
    /\ currentDayIndex (app w') = currentDayIndex (app w)
    /\ currentSessionId (app w') = currentSessionId (app w)
    /\ calls w' = calls w
    /\ timers w' = timers w.
Proof.
  eexists. split; [reflexivity|]. cbn. repeat split.
Qed.

(** C8 at a failing input: a review of two days is under way and the reset
    button is pressed.  The session is not cleared: the component still
    awaits the decision for the first day, with the groups, the day index
    and the session id in place, and the next chat message is answered
    with the day re-prompt.  No request is issued. *)
Theorem reset_in_day_review_keeps_the_session :
  let env := envAt JsDate.hostUTC in
  let w := reviewing JsDate.hostUTC [walk; meditate] in
  awaitingDayConsent (app w) = true
  /\ exists w' : World,
       resetConversation env w = (Returned tt, w')
       /\ awaitingDayConsent (app w') = true
       /\ map fst (groupedProposals (app w')) = ["2024-01-02"; "2024-01-03"]
       /\ map (fun v => summary (proposal v)) (currentDayProposals (app w'))
          = ["Walk"]
       /\ currentDayIndex (app w') = 0%nat
       /\ currentSessionId (app w') = Some "session-1"
       /\ calls w' = []
       /\ exists w'' : World,
            onSend env (typing "hello" w') = (Returned tt, w'')
            /\ map message (messages (app w''))
               = [ "Hi Ada! I'm your Unfrazzle Buddy. How can I support you today?";
                   "hello"; dayRepromptText ].
Proof.
  intros env w. split; [vm_compute; reflexivity|].
  exists (snd (resetConversation env w)).
  repeat (split; [vm_compute; reflexivity|]).
  exists (snd (onSend env (typing "hello" (snd (resetConversation env w))))).
  split; vm_compute; reflexivity.
Qed.

(** C9 at a failing input: the two proposals of the specification in a
    browser nine hours east of UTC.  Both start instants fall on
    2024-01-02 in UTC, so there is one group, keyed 2024-01-02, and the
    first prompt lists Walk and Meditate under Tuesday, although the
    element made for Meditate carries the label of Wednesday. *)
Theorem east_of_utc_two_days_share_a_group :
  let env := envAt JsDate.hostTokyo in
  exists w' : World,
    startDayByDayApproval env [walk; meditate] (Some "session-1") opening
    = (Returned tt, w')
    /\ sortedDayKeys (groupedProposals (app w')) = ["2024-01-02"]
    /\ map (fun v => (summary (proposal v), dayLabel v))
         (currentDayProposals (app w'))
       = [("Walk", "Tuesday, Jan 2"); ("Meditate", "Wednesday, Jan 3")]
    /\ map message (skipn 1 (messages (app w')))
       = [ "**Tuesday, Jan 2:**" ++ newline
           ++ "- Walk (09:00 AM-09:30 AM)" ++ newline
           ++ "- Meditate (08:00 AM-08:15 AM)" ++ newline ++ newline
           ++ "Approve activities for this day? (yes/no)" ].
Proof.
  intros env.
  exists (snd (startDayByDayApproval env [walk; meditate] (Some "session-1")
                 opening)).
  repeat split; vm_compute; reflexivity.
Qed.

(** The same proposals in a browser on UTC: two groups, keyed 2024-01-02
    and 2024-01-03 in that order, and a first prompt with Walk alone. *)
Lemma on_utc_two_days_stay_apart :
  let env := envAt JsDate.hostUTC in
  exists w' : World,
    startDayByDayApproval env [walk; meditate] (Some "session-1") opening
    = (Returned tt, w')
    /\ sortedDayKeys (groupedProposals (app w')) = ["2024-01-02"; "2024-01-03"]
    /\ map (fun v => (summary (proposal v), dayLabel v))
         (currentDayProposals (app w'))
       = [("Walk", "Tuesday, Jan 2")]
    /\ map message (skipn 1 (messages (app w')))
       = [ "**Tuesday, Jan 2:**" ++ newline
           ++ "- Walk (09:00 AM-09:30 AM)" ++ newline ++ newline
           ++ "Approve activities for this day? (yes/no)" ].
Proof.
  intros env.
  exists (snd (startDayByDayApproval env [walk; meditate] (Some "session-1")
                 opening)).
  repeat split; vm_compute; reflexivity.
Qed.

(** Where the journey to UTC stays inside the day: the key is the date
    written in the start, and the label is that date's. *)
Lemma isoDate_within_day (day rest : Z) :
  (0 <= rest < JsDate.msPerDay)%Z ->
  JsDate.isoDate (day * JsDate.msPerDay + rest)
  = JsDate.isoDate (day * JsDate.msPerDay).
Proof.
  intros Hr. unfold JsDate.isoDate.
  replace ((day * JsDate.msPerDay + rest) / JsDate.msPerDay)%Z with day.
  - rewrite Z.div_mul by (unfold JsDate.msPerDay; lia). reflexivity.
  - apply Z.div_unique with (r := rest); [left; exact Hr | ring].
Qed.

Lemma dated_local (h : JsDate.Host) (p : Proposal) (day time : Z) :
  JsDate.parse h (start p)
  = Some (day * JsDate.msPerDay + time
          - JsDate.tzOffset h * JsDate.msPerMinute)%Z ->
  (0 <= time - JsDate.tzOffset h * JsDate.msPerMinute < JsDate.msPerDay)%Z ->
  dated h p
  = Some (JsDate.isoDate (day * JsDate.msPerDay),
          {| proposal := p;
             dayLabel := JsDate.localeDate JsDate.hostUTC
                           (day * JsDate.msPerDay + time) |}).
Proof.
  intros Hparse Hrange. unfold dated. rewrite Hparse. cbv zeta.
  set (t := (day * JsDate.msPerDay + time
             - JsDate.tzOffset h * JsDate.msPerMinute)%Z).
  assert (Hkey : JsDate.isoDate t = JsDate.isoDate (day * JsDate.msPerDay)).
  { rewrite <- (isoDate_within_day day _ Hrange). f_equal. unfold t. ring. }
  assert (Hlabel : JsDate.localeDate h t
                   = JsDate.localeDate JsDate.hostUTC
                       (day * JsDate.msPerDay + time)).
  { unfold JsDate.localeDate. cbn [JsDate.tzOffset JsDate.hostUTC].
    replace (t + JsDate.tzOffset h * JsDate.msPerMinute)%Z
      with (day * JsDate.msPerDay + time + 0 * JsDate.msPerMinute)%Z
      by (unfold t; ring).
    reflexivity. }
  rewrite Hkey, Hlabel. reflexivity.
Qed.

(** The two proposals in any host whose local time is less than fifteen
    hours behind UTC and at most eight hours ahead of it: two groups, as
    the specification expects. *)
Lemma up_to_eight_hours_east_two_days_stay_apart (h : JsDate.Host) :
  (-900 < JsDate.tzOffset h <= 480)%Z ->
  groupProposalsByDay h [walk; meditate]
  = Some [ ("2024-01-02",
            [ {| proposal := walk; dayLabel := "Tuesday, Jan 2" |} ]);
           ("2024-01-03",
            [ {| proposal := meditate; dayLabel := "Wednesday, Jan 3" |} ]) ].
Proof.
  intros Htz. unfold groupProposalsByDay, groupInto.
  rewrite (dated_local h walk 19724 32400000);
    [| reflexivity | unfold JsDate.msPerMinute, JsDate.msPerDay; lia].
  rewrite (dated_local h meditate 19725 28800000);
    [| reflexivity | unfold JsDate.msPerMinute, JsDate.msPerDay; lia].
  reflexivity.
Qed.

(** East of UTC, a start earlier in the day than the offset: the instant
    lies on the day before in UTC, and the key is that day's date, one
    short of the date written in the start, while the label is still the
    date written. *)
Lemma dated_before_offset (h : JsDate.Host) (p : Proposal) (day time : Z) :
  JsDate.parse h (start p)
  = Some (day * JsDate.msPerDay + time
          - JsDate.tzOffset h * JsDate.msPerMinute)%Z ->
  (0 <= time < JsDate.tzOffset h * JsDate.msPerMinute)%Z ->
  (JsDate.tzOffset h * JsDate.msPerMinute <= JsDate.msPerDay)%Z ->
  dated h p
  = Some (JsDate.isoDate ((day - 1) * JsDate.msPerDay),
          {| proposal := p;
             dayLabel := JsDate.localeDate JsDate.hostUTC
                           (day * JsDate.msPerDay + time) |}).
Proof.
  intros Hparse Hearly Heast. unfold dated. rewrite Hparse. cbv zeta.
  set (t := (day * JsDate.msPerDay + time
             - JsDate.tzOffset h * JsDate.msPerMinute)%Z).
  assert (Hkey : JsDate.isoDate t
                 = JsDate.isoDate ((day - 1) * JsDate.msPerDay)).
  { rewrite <- (isoDate_within_day (day - 1)
                  (JsDate.msPerDay + time
                   - JsDate.tzOffset h * JsDate.msPerMinute)) by lia.
    f_equal. unfold t. ring. }
  assert (Hlabel : JsDate.localeDate h t
                   = JsDate.localeDate JsDate.hostUTC
                       (day * JsDate.msPerDay + time)).
  { unfold JsDate.localeDate. cbn [JsDate.tzOffset JsDate.hostUTC].
    replace (t + JsDate.tzOffset h * JsDate.msPerMinute)%Z
      with (day * JsDate.msPerDay + time + 0 * JsDate.msPerMinute)%Z
      by (unfold t; ring).
    reflexivity. }
  rewrite Hkey, Hlabel. reflexivity.
Qed.

(** C6 at a failing input: the two proposals of the specification in a
    browser nine hours east of UTC.  Both starts are timestamps, and
    Meditate starts on 2024-01-03 at 08:00.  The start is read as local
    time: its instant falls on 2024-01-03 in the browser's zone, the day
    of the label made on the next line, and on 2024-01-02 in UTC, the date
    [toISOString] prints.  So Meditate is pushed to the group keyed
    2024-01-02, next to Walk, and no group is keyed 2024-01-03, the
    calendar date of its start. *)
Theorem east_of_utc_key_is_not_the_start_date :
  let h := JsDate.hostTokyo in
  Forall (fun p => dated h p <> None) [walk; meditate]
  /\ start meditate = "2024-01-03T08:00"
  /\ (exists date : Z,
        JsDate.parse h (start meditate) = Some date
        /\ JsDate.isoDate (date + JsDate.tzOffset h * JsDate.msPerMinute)
           = "2024-01-03"
        /\ JsDate.localeDate h date = "Wednesday, Jan 3"
        /\ JsDate.isoDate date = "2024-01-02")
  /\ map (fun v => (summary (proposal v), keyOf h v, dayLabel v))
       (elements h [walk; meditate])
     = [ ("Walk", "2024-01-02", "Tuesday, Jan 2");
         ("Meditate", "2024-01-02", "Wednesday, Jan 3") ]
  /\ exists grouped : Grouped,
       groupProposalsByDay h [walk; meditate] = Some grouped
       /\ grouped
          = [ ("2024-01-02",
               [ {| proposal := walk; dayLabel := "Tuesday, Jan 2" |};
                 {| proposal := meditate; dayLabel := "Wednesday, Jan 3" |} ]) ]
       /\ lookup "2024-01-03" grouped = None.
Proof.
  intros h. split; [repeat constructor; vm_compute; discriminate|].
  split; [reflexivity|]. split.
  - exists 1704236400000%Z. repeat split; vm_compute; reflexivity.
  - split; [vm_compute; reflexivity|].
    eexists. split; [vm_compute; reflexivity|].
    split; reflexivity.
Qed.

(** The same on the other side: five hours west of UTC a walk that starts
    on 2024-01-02 at 20:00 is keyed 2024-01-03, under the label of
    Tuesday. *)
Lemma west_of_utc_key_is_the_day_after_the_start :
  let h := {| JsDate.tzOffset := -300;
              JsDate.timeText := JsDate.timeTextEnUS |} in
  let evening := {| type := ""; summary := "Walk";
                    start := "2024-01-02T20:00"; end_ := "2024-01-02T20:30";
                    reason := None |} in
  groupProposalsByDay h [evening]
  = Some [ ("2024-01-03",
            [ {| proposal := evening; dayLabel := "Tuesday, Jan 2" |} ]) ].
Proof.
  vm_compute. reflexivity.
Qed.

(** In a browser on UTC the key is the date written in the start. *)
Lemma on_utc_key_is_the_start_date :
  map (fun v => (start (proposal v), keyOf JsDate.hostUTC v))
    (elements JsDate.hostUTC [walk; meditate])
  = [ ("2024-01-02T09:00", "2024-01-02");
      ("2024-01-03T08:00", "2024-01-03") ].
Proof.
  vm_compute. reflexivity.
Qed.

End ReviewFacts.

(** ** Answering a check-in question after the initial assessment *)

Module CheckinFacts.
Import JsString MainApp App Views Scenario.
Local Open Scope string_scope.



















(** Opening the questionnaire fetches one question. *)
Lemma opening_fetches_one_question (env : Env) (s : AppState) (w : World) :
  isQuestionnaireOpen s = true ->
  calls (snd (questionnaireEffect env s w))
  = (calls w ++ [ReqCheckinNext])%list.
Proof.
  intros Hopen. unfold questionnaireEffect. rewrite Hopen.
  unfold bind, set, tryCatch, loadNextQuestion, bind, fetch. cbn.
  destruct (onCheckinNext (backend env) _) as [res|]; cbn; [|reflexivity].
  destruct (ok res); cbn; [|reflexivity].
  unfold json. destruct (body res); reflexivity.
Qed.




End CheckinFacts.

(** ** The day-by-day review, from start to finish *)

Module ReviewRunFacts.
Import JsString MainApp App Views Scenario ReviewRun.
Local Open Scope string_scope.

Lemma rejectLoop_run (env : Env) (s : AppState) (day : list DayProposal) :
  forall w : World,
    rejectLoop env s day w
    = (Returned tt,
       afterCalls (repeat (ReqDecision (currentSessionId s) false)
                     (List.length day)) w).
Proof.
  induction day as [|v day IH]; intros w.
  - cbn. rewrite ConsentFacts.afterCalls_nil. reflexivity.
  - cbn [rejectLoop List.length repeat]. unfold bind at 1.
    assert (Hone : rejectOne env s w
                   = (Returned tt,
                      afterCalls [ReqDecision (currentSessionId s) false] w)).
    { unfold rejectOne, tryCatch, bind, fetch, ret, afterCalls.
      destruct (onDecision (backend env) _); reflexivity. }
    rewrite Hone, IH, ConsentFacts.afterCalls_app. reflexivity.
Qed.

Lemma handleDayApproval_run (env : Env) (s : AppState) (approve : bool)
    (w : World) :
  handleDayApproval env s approve w = (Returned tt, replied env s approve w).
Proof.
  unfold replied, handleDayApproval, summaryText, advance, moreDays, nextDay,
    decisionsFor, accepts, said, cleared.
  set (day := currentDayProposals s).
  set (next := (currentDayIndex s + 1
                <? List.length (sortedDayKeys (groupedProposals s)))%nat).
  assert (Hreject :
    (rejectLoop env s day ;; say env 1 (skippedText day)) w
    = say env 1 (skippedText day)
        (afterCalls (repeat (ReqDecision (currentSessionId s) false)
                       (List.length day)) w)).
  { unfold bind at 1. rewrite rejectLoop_run. reflexivity. }
  assert (Haccept :
    (acceptedCount <- acceptLoop env s day 0 ;;
     say env 1 (addedText acceptedCount day)) w
    = say env 1
        (addedText
           (scheduledCount env (calls w)
              (ReqDecision (currentSessionId s) true) (List.length day)) day)
        (afterCalls (repeat (ReqDecision (currentSessionId s) true)
                       (List.length day)) w)).
  { unfold bind at 1. rewrite ConsentFacts.acceptLoop_run. reflexivity. }
  destruct approve;
    [destruct (0 <? List.length day)%nat eqn:Hsome|]; cbn [andb];
    unfold bind at 1;
    rewrite ?Haccept, ?Hreject;
    destruct next; cbn; try reflexivity;
    unfold appendMessage, set; cbn; rewrite <- app_assoc; reflexivity.
Qed.

Lemma reply_not_blank (text : string) :
  isReply text = true -> String.eqb (trim text) "" = false.
Proof.
  unfold isReply. destruct (trim text); [discriminate | reflexivity].
Qed.

Lemma sendText_day_reply (env : Env) (text : string) (w : World) :
  awaitingDayConsent (app w) = true ->
  isReply text = true ->
  sendText env text w
  = (Returned tt,
     replied env (setInputMessage text (app w)) (approves text)
       (posted env text w)).
Proof.
  intros Hawait Hreply.
  pose proof (reply_not_blank text Hreply) as Hblank.
  unfold sendText, onSend, bind at 1. unfold set at 1. cbv beta iota.
  cbn [app]. unfold handleSendMessage.
  cbn [inputMessage setInputMessage awaitingDayConsent].
  rewrite Hblank, Hawait.
  unfold isReply in Hreply. unfold approves.
  destruct (isYes (toLowerCase (trim text))) eqn:Hyes.
  - unfold bind at 1. unfold newMessage, bind at 1. 
    cbn. rewrite handleDayApproval_run. reflexivity.
  - cbn [orb] in Hreply. rewrite Hreply.
    unfold bind at 1. unfold newMessage, bind at 1.
    cbn. rewrite handleDayApproval_run. reflexivity.
Qed.

Lemma decisionsFor_accepts (sessionId : option string) (approve : bool)
    (day : list DayProposal) :
  decisionsFor sessionId (approve && (0 <? List.length day)%nat) day
  = decisionsFor sessionId approve day.
Proof.
  destruct day; [reflexivity|]. cbn [List.length Nat.ltb Nat.leb].
  rewrite andb_true_r. reflexivity.
Qed.

Lemma nth_daysInOrder (grouped : Grouped) (i : nat) :
  (i < List.length (sortedDayKeys grouped))%nat ->
  dayOf (nth i (sortedDayKeys grouped) "") grouped
  = nth i (daysInOrder grouped) [].
Proof.
  intros Hi. unfold daysInOrder.
  rewrite (nth_indep _ [] (dayOf "" grouped)) by (rewrite length_map; exact Hi).
  rewrite (map_nth (fun k => dayOf k grouped)). reflexivity.
Qed.

Lemma skipn_nth {A : Type} (l : list A) (i : nat) (d : A) :
  (i < List.length l)%nat -> skipn i l = nth i l d :: skipn (S i) l.
Proof.
  revert i. induction l as [|x l IH]; intros [|i] Hi; simpl in *;
    try lia; [reflexivity|].
  apply IH. lia.
Qed.

(** The replies to the days from day [i] on. *)
Lemma sendTexts_run (env : Env) (grouped : Grouped)
    (sessionId : option string) :
  forall (texts : list string) (i : nat) (w : World),
    inReview grouped sessionId i (app w) ->
    (i + List.length texts = List.length (daysInOrder grouped))%nat ->
    texts <> [] ->
    forallb isReply texts = true ->
    exists w',
      sendTexts env texts w = (Returned tt, w')
      /\ calls w'
         = (calls w
            ++ decisionsOf sessionId texts (skipn i (daysInOrder grouped)))%list
      /\ timers w'
         = (timers w ++ promptTimers (skipn i (daysInOrder grouped)))%list
      /\ List.length (messages (app w'))
         = (List.length (messages (app w)) + 2 * List.length texts + 1)%nat
      /\ reviewOver (app w').
Proof.
  induction texts as [|text rest IH]; intros i w Hin Hlen Hsome Hreplies;
    [contradiction|].
  destruct Hin as (Hg & Hsid & Hidx & Hday & Hawait).
  cbn [forallb] in Hreplies. apply andb_prop in Hreplies.
  destruct Hreplies as [Hreply Hrest].
  cbn [sendTexts]. unfold bind at 1.
  rewrite (sendText_day_reply env text w Hawait Hreply).
  set (s := setInputMessage text (app w)).
  assert (Hi : (i < List.length (daysInOrder grouped))%nat)
    by (cbn [List.length] in Hlen; lia).
  rewrite (skipn_nth _ i [] Hi).
  unfold decisionsOf, promptTimers. cbn [combine map List.concat fst snd tl].
  assert (Hlog : decisionsFor (currentSessionId s) (accepts s (approves text))
                   (currentDayProposals s)
                 = decisionsFor sessionId (approves text)
                     (nth i (daysInOrder grouped) [])).
  { unfold accepts. rewrite decisionsFor_accepts. subst s.
    cbn [currentSessionId currentDayProposals setInputMessage].
    rewrite Hsid, Hday. reflexivity. }
  assert (Hmore : moreDays s
                  = (S i <? List.length (daysInOrder grouped))%nat).
  { unfold moreDays, daysInOrder. subst s.
    cbn [currentDayIndex groupedProposals setInputMessage].
    rewrite Hg, Hidx, length_map, Nat.add_1_r. reflexivity. }
  destruct rest as [|text' rest'].
  - (* the last day *)
    cbn [List.length] in Hlen.
    assert (Hlast : moreDays s = false).
    { rewrite Hmore. apply Nat.ltb_ge. lia. }
    eexists. split; [reflexivity|].
    unfold replied. rewrite Hlast, Hlog.
    rewrite skipn_all2 by lia.
    cbn [calls timers app map List.concat]. rewrite !app_nil_r.
    unfold advance. rewrite Hlast. unfold posted. cbn.
    rewrite !length_app. cbn [List.length].
    repeat split; lia.
  - (* a day is left *)
    cbn [List.length] in Hlen.
    assert (Hnext : moreDays s = true).
    { rewrite Hmore. apply Nat.ltb_lt. lia. }
    assert (Hnd : nextDay s = nth (S i) (daysInOrder grouped) []).
    { unfold nextDay. subst s.
      cbn [currentDayIndex groupedProposals setInputMessage].
      rewrite Hg, Hidx, Nat.add_1_r. apply nth_daysInOrder.
      unfold daysInOrder in Hlen. rewrite length_map in Hlen. lia. }
    set (w1 := replied env s (approves text) (posted env text w)).
    assert (Hin1 : inReview grouped sessionId (S i) (app w1)).
    { subst w1. unfold replied. rewrite Hnext. unfold advance.
      rewrite Hnext, Hnd. subst s. cbn.
      rewrite Hidx, Nat.add_1_r.
      repeat split; assumption. }
    destruct (IH (S i) w1 Hin1) as (w' & Hrun & Hcalls & Htimers & Hmsgs & Hover).
    + cbn [List.length]. lia.
    + discriminate.
    + exact Hrest.
    + exists w'. split; [exact Hrun|].
      assert (HSi : (S i < List.length (daysInOrder grouped))%nat) by lia.
      rewrite Hcalls, Htimers, Hmsgs.
      subst w1. unfold replied. rewrite Hnext, Hlog, Hnd.
      cbn [calls timers app].
      rewrite (skipn_nth _ (S i) [] HSi).
      unfold decisionsOf, promptTimers. cbn [tl map].
      rewrite <- !app_assoc. cbn [List.app].
      unfold advance. rewrite Hnext. unfold posted. subst s. cbn.
      rewrite !length_app. cbn [List.length].
      destruct Hover as (? & ? & ? & ? & ?).
      repeat split; try assumption; try reflexivity; try lia.
Qed.

(** *** Grouping, seen from its result *)

Lemma dated_none (h : JsDate.Host) (p : Proposal) :
  dated h p = None <-> JsDate.parse h (start p) = None.
Proof.
  unfold dated. destruct (JsDate.parse h (start p)); split; congruence.
Qed.

Lemma groupInto_valid (h : JsDate.Host) (proposals : list Proposal) :
  forall g grouped : Grouped,
    groupInto h proposals g = Some grouped ->
    Forall (fun p => dated h p <> None) proposals.
Proof.
  induction proposals as [|p rest IH]; intros g grouped Hrun; [constructor|].
  simpl in Hrun. destruct (dated h p) as [[k v]|] eqn:E; [|discriminate].
  constructor; [congruence | eapply IH, Hrun].
Qed.

Lemma groupInto_none (h : JsDate.Host) (proposals : list Proposal) :
  forall g : Grouped,
    groupInto h proposals g = None ->
    Exists (fun p => dated h p = None) proposals.
Proof.
  induction proposals as [|p rest IH]; simpl; intros g Hnone; [discriminate|].
  destruct (dated h p) as [[k v]|] eqn:E;
    [right; eapply IH, Hnone | left; exact E].
Qed.

Lemma grouped_groups (h : JsDate.Host) (proposals : list Proposal)
    (grouped : Grouped) :
  groupProposalsByDay h proposals = Some grouped ->
  groups h (elements h proposals) grouped
  /\ map proposal (elements h proposals) = proposals.
Proof.
  intros Hrun. pose proof (groupInto_valid _ _ _ _ Hrun) as Hvalid.
  destruct (GroupingFacts.groupInto_groups h proposals Hvalid [] []
              (GroupingFacts.groups_nil h)) as (g & Hg & Hgroups).
  unfold groupProposalsByDay in Hrun. rewrite Hrun in Hg.
  injection Hg as <-. split; [exact Hgroups|].
  apply GroupingFacts.elements_dated, Hvalid.
Qed.

Lemma flattened_elements (h : JsDate.Host) (vs : list DayProposal)
    (grouped : Grouped) :
  groups h vs grouped -> Permutation (flattened grouped) vs.
Proof.
  intros Hgr. pose proof Hgr as [Hnd _].
  pose proof (SortFacts.sortStrings_perm (map fst grouped)) as Hperm.
  rewrite (GroupingFacts.groups_flattened h _ _ Hgr).
  apply GroupingFacts.ofDay_cover.
  - eapply Permutation_NoDup; [apply Permutation_sym, Hperm | exact Hnd].
  - intros v Hv. eapply Permutation_in; [apply Permutation_sym, Hperm|].
    eapply GroupingFacts.groups_cover; eassumption.
Qed.

Lemma days_hold_the_proposals (h : JsDate.Host) (proposals : list Proposal)
    (grouped : Grouped) :
  groupProposalsByDay h proposals = Some grouped ->
  List.length (List.concat (daysInOrder grouped)) = List.length proposals.
Proof.
  intros Hrun. destruct (grouped_groups _ _ _ Hrun) as [Hgr Hps].
  unfold daysInOrder. rewrite <- flat_map_concat_map.
  change (flat_map (fun k => dayOf k grouped) (sortedDayKeys grouped))
    with (flattened grouped).
  rewrite (Permutation_length (flattened_elements _ _ _ Hgr)).
  rewrite <- Hps at 2. rewrite length_map. reflexivity.
Qed.

Lemma days_not_empty (h : JsDate.Host) (proposals : list Proposal)
    (grouped : Grouped) :
  groupProposalsByDay h proposals = Some grouped ->
  proposals <> [] ->
  sortedDayKeys grouped <> [].
Proof.
  intros Hrun Hsome Hkeys.
  pose proof (days_hold_the_proposals _ _ _ Hrun) as Hlen.
  unfold daysInOrder in Hlen. rewrite Hkeys in Hlen.
  destruct proposals; [contradiction | discriminate].
Qed.

Lemma day_groups_not_empty (h : JsDate.Host) (vs : list DayProposal)
    (grouped : Grouped) :
  groups h vs grouped -> Forall (fun day => day <> []) (daysInOrder grouped).
Proof.
  intros [Hnd Hlk]. unfold daysInOrder. apply Forall_map, Forall_forall.
  intros k Hk.
  assert (Hin : In k (map fst grouped)).
  { eapply Permutation_in; [apply SortFacts.sortStrings_perm | exact Hk]. }
  destruct (GroupingFacts.keys_have_lookup _ _ Hin) as (day & Hday).
  unfold dayOf. rewrite Hday. rewrite Hlk in Hday.
  destruct (ofDay h k vs); [discriminate|]. injection Hday as <-. discriminate.
Qed.

Lemma decisionsOf_length (sessionId : option string) :
  forall (texts : list string) (days : list (list DayProposal)),
    List.length texts = List.length days ->
    List.length (decisionsOf sessionId texts days)
    = List.length (List.concat days).
Proof.
  unfold decisionsOf.
  induction texts as [|t texts IH]; intros [|day days] Hlen;
    try discriminate; [reflexivity|].
  cbn [combine map List.concat fst snd]. rewrite !length_app.
  unfold decisionsFor at 1. rewrite repeat_length.
  rewrite IH by (simpl in Hlen; lia). reflexivity.
Qed.

(** *** The start of a review *)

(** The world a review starts from: the message is the prompt of the
    first day. *)
Lemma startDayByDayApproval_run (env : Env) (proposals : list Proposal)
    (sessionId : option string) (grouped : Grouped) (w : World) :
  groupProposalsByDay (host env) proposals = Some grouped ->
  proposals <> [] ->
  startDayByDayApproval env proposals sessionId w
  = (Returned tt,
     {| app :=
          setMessages
            (messages (app w)
             ++ [said env 0
                   (dayPrompt (host env) (nth 0 (daysInOrder grouped) []))
                   (clockReads w)])%list
            (setAwaitingDayConsent true
               (setCurrentDayProposals (nth 0 (daysInOrder grouped) [])
                  (setCurrentSessionId sessionId
                     (setCurrentDayIndex 0
                        (setGroupedProposals grouped (app w))))));
        calls := calls w; timers := timers w;
        clockReads := 2 + clockReads w |}).
Proof.
  intros Hrun Hsome.
  pose proof (days_not_empty _ _ _ Hrun Hsome) as Hkeys.
  unfold startDayByDayApproval. rewrite Hrun.
  unfold daysInOrder.
  destruct (sortedDayKeys grouped) as [|key keys]; [contradiction|].
  reflexivity.
Qed.

(** X1: rejecting a day never depends on the backend.  Whatever the
    decision endpoint answers, and whatever another backend would answer
    in its place, [handleDayApproval(false)] returns and leaves the same
    world: one decision request per proposal of the day, each for the
    session with [accept = false], and the summary "Skipped activities for
    <day>" as the next message of the chat. *)
Theorem day_rejection_ignores_the_backend (env : Env) (other : Backend)
    (s : AppState) (w : World) :
  let env' := {| host := host env; backend := other; clock := clock env;
                 userName := userName env |} in
  exists (w' : World) (summary : ChatMessage),
    handleDayApproval env s false w = (Returned tt, w')
    /\ handleDayApproval env' s false w = (Returned tt, w')
    /\ calls w'
       = (calls w
          ++ repeat (ReqDecision (currentSessionId s) false)
               (List.length (currentDayProposals s)))%list
    /\ nth_error (messages (app w')) (List.length (messages (app w)))
       = Some summary
    /\ sender summary = buddy
    /\ message summary = skippedText (currentDayProposals s).
Proof.
  intros env'.
  exists (replied env s false w),
    (said env 1 (skippedText (currentDayProposals s)) (clockReads w)).
  rewrite !handleDayApproval_run.
  split; [reflexivity|]. split; [|split; [|split; [|split; reflexivity]]].
  - unfold replied, summaryText, accepts, said. cbn [andb clock env'].
    reflexivity.
  - unfold replied, accepts, decisionsFor. cbn [andb].
    destruct (moreDays s); reflexivity.
  - unfold replied, summaryText, accepts, advance. cbn [andb].
    destruct (moreDays s); cbn;
      rewrite nth_error_app2, Nat.sub_diag by lia; reflexivity.
Qed.

(** X2: what a reply to a day prompt does to the review.  With a day left
    after the current one, [handleDayApproval] moves the index on by one,
    loads the group of the next key, keeps the session and the consent
    flag, appends its summary alone and queues one timer, one second out,
    that shows the prompt of the day just loaded.  With no day left it
    puts the five review cells back to their initial values, queues
    nothing, and appends the summary followed by the closing message. *)
Theorem day_reply_moves_on_or_finishes (env : Env) (approve : bool)
    (w : World) :
  let s := app w in
  let keys := sortedDayKeys (groupedProposals s) in
  exists (w' : World) (summary : ChatMessage),
    handleDayApproval env s approve w = (Returned tt, w')
    /\ if (currentDayIndex s + 1 <? List.length keys)%nat then
         currentDayIndex (app w') = (currentDayIndex s + 1)%nat
         /\ currentDayProposals (app w')
            = dayOf (nth (currentDayIndex s + 1) keys "") (groupedProposals s)
         /\ groupedProposals (app w') = groupedProposals s
         /\ currentSessionId (app w') = currentSessionId s
         /\ awaitingDayConsent (app w') = awaitingDayConsent s
         /\ messages (app w') = (messages s ++ [summary])%list
         /\ timers w'
            = (timers w
               ++ [(1000%Z, ShowDayPrompt (currentDayProposals (app w')))])%list
         /\ fire env (ShowDayPrompt (currentDayProposals (app w')))
            = say env 2 (dayPrompt (host env) (currentDayProposals (app w')))
       else
         reviewOver (app w')
         /\ timers w' = timers w
         /\ exists closing : ChatMessage,
              messages (app w') = (messages s ++ [summary; closing])%list
              /\ sender closing = buddy
              /\ message closing = finishedText.
Proof.
  intros s keys.
  exists (replied env s approve w),
    (said env 1 (summaryText env s approve (calls w)) (clockReads w)).
  split; [apply handleDayApproval_run|].
  unfold replied, advance, moreDays, nextDay. fold keys.
  destruct (currentDayIndex s + 1 <? List.length keys)%nat.
  - cbn. repeat split; reflexivity.
  - cbn. repeat split.
    exists (said env 3 finishedText (2 + clockReads w)).
    repeat split; reflexivity.
Qed.

(** X3: a whole review, from its first prompt to the reply to its last
    day.  For proposals that [groupProposalsByDay] accepts, not none, and
    one reply per day that the chat handler reads as yes or no, the run
    returns.  It sends the decision requests of the days in ascending key
    order, each day's with the user's answer to that day, which makes one
    request per proposal in all; it queues one prompt timer per day after
    the first; each reply adds the user's text and a summary to the chat,
    and the prompt of the first day and the closing message come on top;
    at the end the five review cells are back at their initial values. *)
Theorem review_decides_every_proposal_once (env : Env)
    (proposals : list Proposal) (sessionId : option string)
    (texts : list string) (grouped : Grouped) (w : World) :
  groupProposalsByDay (host env) proposals = Some grouped ->
  proposals <> [] ->
  List.length texts = List.length (daysInOrder grouped) ->
  forallb isReply texts = true ->
  exists w' : World,
    reviewRun env proposals sessionId texts w = (Returned tt, w')
    /\ calls w'
       = (calls w ++ decisionsOf sessionId texts (daysInOrder grouped))%list
    /\ List.length (calls w')
       = (List.length (calls w) + List.length proposals)%nat
    /\ timers w' = (timers w ++ promptTimers (daysInOrder grouped))%list
    /\ List.length (messages (app w'))
       = (List.length (messages (app w)) + 2 * List.length texts + 2)%nat
    /\ reviewOver (app w').
Proof.
  intros Hrun Hsome Hlen Hreplies.
  unfold reviewRun, bind at 1.
  rewrite (startDayByDayApproval_run env proposals sessionId grouped w Hrun Hsome).
  set (w0 := {| app := _; calls := calls w; timers := timers w;
                clockReads := 2 + clockReads w |}).
  assert (Htexts : texts <> []).
  { pose proof (days_not_empty _ _ _ Hrun Hsome) as Hkeys.
    unfold daysInOrder in Hlen. rewrite length_map in Hlen.
    destruct texts; [|discriminate].
    destruct (sortedDayKeys grouped); [contradiction | discriminate]. }
  destruct (sendTexts_run env grouped sessionId texts 0 w0)
    as (w' & Hsend & Hcalls & Htimers & Hmsgs & Hover).
  - subst w0. cbn. repeat split; reflexivity.
  - exact Hlen.
  - exact Htexts.
  - exact Hreplies.
  - exists w'. cbn [skipn] in Hcalls, Htimers.
    repeat split; try assumption; try apply Hover.
    + rewrite Hcalls, length_app, decisionsOf_length by exact Hlen.
      rewrite (days_hold_the_proposals _ _ _ Hrun). reflexivity.
    + rewrite Hmsgs. subst w0. cbn. rewrite length_app. cbn. lia.
Qed.

(** X4: [groupProposalsByDay] throws exactly when the start of some
    proposal is not a timestamp the host can read; the proposals before
    and after it do not matter. *)
Theorem grouping_throws_on_an_unreadable_start (h : JsDate.Host)
    (proposals : list Proposal) :
  groupProposalsByDay h proposals = None
  <-> Exists (fun p => JsDate.parse h (start p) = None) proposals.
Proof.
  split.
  - intros Hnone. eapply Exists_impl; [|eapply groupInto_none, Hnone].
    intros p. apply dated_none.
  - intros Hex. apply GroupingFacts.groupInto_invalid_start.
    eapply Exists_impl; [|exact Hex]. intros p. apply dated_none.
Qed.

(** X5: how a review starts.  For proposals that [groupProposalsByDay]
    accepts, not none, [startDayByDayApproval] returns with the groups and
    the session stored, the index at zero and the consent flag raised; the
    day loaded is the group of the least key and holds a proposal; the one
    message appended is the prompt of that day; no request is sent and no
    timer queued. *)
Theorem review_starts_on_the_first_day (env : Env)
    (proposals : list Proposal) (sessionId : option string)
    (grouped : Grouped) (w : World) :
  groupProposalsByDay (host env) proposals = Some grouped ->
  proposals <> [] ->
  exists (w' : World) (prompt : ChatMessage),
    startDayByDayApproval env proposals sessionId w = (Returned tt, w')
    /\ inReview grouped sessionId 0 (app w')
    /\ currentDayProposals (app w')
       = dayOf (nth 0 (sortedDayKeys grouped) "") grouped
    /\ currentDayProposals (app w') <> []
    /\ messages (app w') = (messages (app w) ++ [prompt])%list
    /\ sender prompt = buddy
    /\ message prompt = dayPrompt (host env) (currentDayProposals (app w'))
    /\ calls w' = calls w
    /\ timers w' = timers w.
Proof.
  intros Hrun Hsome.
  pose proof (days_not_empty _ _ _ Hrun Hsome) as Hkeys.
  destruct (grouped_groups _ _ _ Hrun) as [Hgr _].
  pose proof (day_groups_not_empty _ _ _ Hgr) as Hdays.
  rewrite (startDayByDayApproval_run env proposals sessionId grouped w Hrun Hsome).
  eexists _, _. split; [reflexivity|]. cbn.
  repeat split; try reflexivity.
  - symmetry. apply nth_daysInOrder.
    destruct (sortedDayKeys grouped); [contradiction | simpl; lia].
  - unfold daysInOrder in *.
    destruct (sortedDayKeys grouped); [contradiction|].
    cbn in *. inversion Hdays. assumption.
Qed.

(** X6: a review that cannot start.  When the start of some proposal is
    unreadable, [startDayByDayApproval] throws and has set no cell, sent
    no request, queued no timer and appended no message; so does the
    timer callback the chat handler queues for it. *)
Theorem unreadable_start_leaves_no_trace (env : Env)
    (proposals : list Proposal) (sessionId : option string) (w : World) :
  Exists (fun p => JsDate.parse (host env) (start p) = None) proposals ->
  startDayByDayApproval env proposals sessionId w = (Thrown, w)
  /\ fire env (StartApproval proposals sessionId) w = (Thrown, w).
Proof.
  intros Hex.
  assert (Hnone : groupProposalsByDay (host env) proposals = None).
  { apply GroupingFacts.groupInto_invalid_start.
    eapply Exists_impl; [|exact Hex]. intros p. apply dated_none. }
  unfold fire, startDayByDayApproval. rewrite Hnone. split; reflexivity.
Qed.

Lemma review_decides_every_proposal_once_witness :
  exists w' : World,
    reviewRun (envAt JsDate.hostUTC) [walk; meditate; stretch]
      (Some "session-1") ["yes"; " No "] opening
    = (Returned tt, w')
    /\ List.length (calls w') = 3%nat
    /\ reviewOver (app w').
Proof.
  pose (grouped :=
          match groupProposalsByDay JsDate.hostUTC [walk; meditate; stretch]
          with Some g => g | None => [] end).
  destruct (review_decides_every_proposal_once (envAt JsDate.hostUTC)
              [walk; meditate; stretch] (Some "session-1") ["yes"; " No "]
              grouped opening)
    as (w' & Hrun & _ & Hlen & _ & _ & Hover).
  - vm_compute. reflexivity.
  - discriminate.
  - vm_compute. reflexivity.
  - vm_compute. reflexivity.
  - exists w'. split; [exact Hrun|]. split; [exact Hlen | exact Hover].
Defined.

Lemma grouping_throws_on_an_unreadable_start_witness :
  groupProposalsByDay JsDate.hostUTC [walk; undated; nap] = None.
Proof.
  apply (proj2 (grouping_throws_on_an_unreadable_start JsDate.hostUTC
                  [walk; undated; nap])).
  right. left. vm_compute. reflexivity.
Defined.

Lemma review_starts_on_the_first_day_witness :
  exists (w' : World) (prompt : ChatMessage),
    startDayByDayApproval (envAt JsDate.hostUTC) [meditate; walk; stretch]
      (Some "session-1") opening
    = (Returned tt, w')
    /\ map (fun v => summary (proposal v)) (currentDayProposals (app w'))
       = ["Walk"; "Stretch"]
    /\ messages (app w') = (messages (app opening) ++ [prompt])%list
    /\ calls w' = [].
Proof.
  pose (grouped :=
          match groupProposalsByDay JsDate.hostUTC [meditate; walk; stretch]
          with Some g => g | None => [] end).
  destruct (review_starts_on_the_first_day (envAt JsDate.hostUTC)
              [meditate; walk; stretch] (Some "session-1") grouped opening)
    as (w' & prompt & Hrun & _ & Hday & _ & Hmsgs & _ & _ & Hcalls & _).
  - vm_compute. reflexivity.
  - discriminate.
  - exists w', prompt. split; [exact Hrun|].
    split; [rewrite Hday; vm_compute; reflexivity|].
    split; [exact Hmsgs | exact Hcalls].
Defined.

Lemma unreadable_start_leaves_no_trace_witness :
  startDayByDayApproval (envAt JsDate.hostUTC) [walk; undated]
    (Some "session-1") opening
  = (Thrown, opening).
Proof.
  apply (unreadable_start_leaves_no_trace (envAt JsDate.hostUTC)
           [walk; undated] (Some "session-1") opening).
  right. left. vm_compute. reflexivity.
Defined.

End ReviewRunFacts.

(** ** The chat handler, branch by branch *)

Module ChatFacts.
Import JsString MainApp App Views Scenario ReviewRun Chat.
Local Open Scope string_scope.

(** The head of [handleSendMessage] on a text that is not blank: the
    text is posted, and the branch is run from there. *)
Lemma handleSendMessage_posts (env : Env) (w : World) :
  let s := app w in
  String.eqb (trim (inputMessage s)) "" = false ->
  awaitingDayConsent s = false ->
  awaitingConsent s = false ->
  handleSendMessage env s w
  = (if wantsSchedulingIntent (trim (inputMessage s)) then
       plan <- planWithManager env s 3 ;;
       match plan with
       | PlanReady proposals sessionId detailedAnalysis _ =>
           if (0 <? List.length proposals)%nat then
             (if String.eqb detailedAnalysis "" then ret tt
              else say env 1 detailedAnalysis) ;;
             setTimeout (StartApproval proposals sessionId) 2000
           else ret tt
       | PlanFailed message _ => say env 2 message
       end
     else
       tryCatch
         (resp <- fetch (onSupport (backend env))
                    (ReqSupport (userName env) (trim (inputMessage s))) ;;
          data <- json resp ;;
          m <- createMessage env
                 (orElse (support_text data)
                    "I understand. How can I help further?") ;;
          appendMessage m)
         (m <- createMessage env
                 "I'm having trouble connecting right now. Please try again in a moment." ;;
          appendMessage m))
      {| app := setInputMessage ""
                  (setMessages
                     (messages s ++ [sent env (inputMessage s) (clockReads w)])%list
                     s);
         calls := calls w; timers := timers w;
         clockReads := 2 + clockReads w |}.
Proof.
  intros s Hblank Hday Hlegacy.
  unfold handleSendMessage. rewrite Hblank, Hday, Hlegacy.
  reflexivity.
Qed.

(** [planWithManager] on a response that is ok, has a body and is not a
    bare "finished". *)
Lemma planWithManager_ready (env : Env) (s : AppState) (days : Z)
    (w : World) (res : Response PlanData) (data : PlanData) :
  truthy (activeEmail s) = true ->
  onPlanStart (backend env) (calls w ++ [planRequest env s days]) = Some res ->
  ok res = true ->
  body res = Some data ->
  (finished data && negb (truthy (session_id data)))%bool = false ->
  planWithManager env s days w
  = (Returned
       (PlanReady (fst (readPlan data)) (session_id data)
          (snd (readPlan data)) (orElse (raw_text data) "")),
     afterCalls [planRequest env s days] w).
Proof.
  intros Hmail Hres Hok Hbody Hfin.
  unfold planWithManager, planRequest in *. rewrite Hmail. cbn [negb].
  unfold bind at 1, fetch. rewrite Hres, (ParserFacts.ok_not_401 _ Hok), Hok.
  cbn [negb]. unfold bind at 1, json. rewrite Hbody. unfold ret at 1.
  rewrite Hfin. unfold readPlan.
  destruct (truthy (raw_text data)); [|reflexivity].
  destruct (readRawText _). reflexivity.
Qed.

(** X7: every message that is neither a consent reply nor a request to
    plan goes to the advisor, once.  The handler returns whatever the
    backend does; it sends one support request with the user's name and
    the trimmed text, appends the user's message and one reply, empties
    the input and touches no other cell and no timer.  The reply is the
    text of the response, whatever its status, and a fixed sentence when
    the text is missing or empty, or when the fetch or the body fails. *)
Theorem advisor_answers_once (env : Env) (w : World) :
  let s := app w in
  let userText := trim (inputMessage s) in
  let log := (calls w ++ [ReqSupport (userName env) userText])%list in
  userText <> "" ->
  awaitingDayConsent s = false ->
  awaitingConsent s = false ->
  wantsSchedulingIntent userText = false ->
  exists (w' : World) (reply : ChatMessage),
    handleSendMessage env s w = (Returned tt, w')
    /\ calls w' = log
    /\ timers w' = timers w
    /\ app w'
       = setInputMessage ""
           (setMessages
              (messages s ++ [sent env (inputMessage s) (clockReads w); reply])%list
              s)
    /\ sender reply = buddy
    /\ message reply = advisorReply env log.
Proof.
  intros s userText log Hsome Hday Hlegacy Hintent.
  assert (Hblank : String.eqb userText "" = false)
    by (apply String.eqb_neq; exact Hsome).
  pose proof (handleSendMessage_posts env w Hblank Hday Hlegacy) as Hpost.
  subst s userText log. cbv zeta in Hpost. rewrite Hpost, Hintent.
  unfold advisorReply, tryCatch, bind at 1, fetch.
  cbn [calls app timers clockReads].
  destruct (onSupport (backend env) _) as [resp|].
  - unfold bind at 1, json.
    destruct (body resp) as [data|].
    + eexists _, _. split; [reflexivity|]. cbn.
      rewrite <- app_assoc. repeat split; reflexivity.
    + eexists _, _. split; [reflexivity|]. cbn.
      rewrite <- app_assoc. repeat split; reflexivity.
  - eexists _, _. split; [reflexivity|]. cbn.
    rewrite <- app_assoc. repeat split; reflexivity.
Qed.

Lemma advisor_answers_once_witness :
  exists (w' : World) (reply : ChatMessage),
    handleSendMessage (envAt JsDate.hostUTC)
      (app (typing "  I feel tired today " opening))
      (typing "  I feel tired today " opening)
    = (Returned tt, w')
    /\ calls w' = [ReqSupport "Ada" "I feel tired today"]
    /\ nth_error (messages (app w')) 2 = Some reply
    /\ message reply
       = "I'm having trouble connecting right now. Please try again in a moment.".
Proof.
  destruct (advisor_answers_once (envAt JsDate.hostUTC)
              (typing "  I feel tired today " opening))
    as (w' & reply & Hrun & Hcalls & _ & Happ & _ & Hreply).
  - vm_compute. discriminate.
  - reflexivity.
  - reflexivity.
  - vm_compute. reflexivity.
  - exists w', reply. split; [exact Hrun|].
    split; [rewrite Hcalls; vm_compute; reflexivity|].
    split; [rewrite Happ; reflexivity|].
    rewrite Hreply. vm_compute. reflexivity.
Defined.

(** X8: [planWithManager] asks the planner at most once and touches
    nothing else.  It changes no cell, queues no timer and does not read
    the clock.  Without a calendar email it sends nothing and returns the
    request to connect; with one it sends exactly one start request, for
    that email, the user and the days asked, and it throws exactly when
    the fetch fails or an ok response has no readable body. *)
Theorem planner_is_asked_at_most_once (env : Env) (s : AppState) (days : Z)
    (w : World) :
  exists (outcome : Outcome Plan) (w' : World),
    planWithManager env s days w = (outcome, w')
    /\ app w' = app w
    /\ timers w' = timers w
    /\ clockReads w' = clockReads w
    /\ if truthy (activeEmail s) then
         calls w' = (calls w ++ [planRequest env s days])%list
         /\ (outcome = Thrown <-> planThrows env (calls w') = true)
       else
         calls w' = calls w
         /\ outcome
            = Returned (PlanFailed "Please connect Google Calendar first." None).
Proof.
  unfold planWithManager, planThrows, planRequest.
  destruct (truthy (activeEmail s)); cbn [negb].
  - unfold bind at 1, fetch.
    destruct (onPlanStart (backend env) _) as [res|] eqn:Hres.
    + destruct (status res =? 401)%Z eqn:H401.
      * eexists _, _. split; [reflexivity|]. cbn. rewrite Hres, H401.
        repeat split; try reflexivity; discriminate.
      * destruct (ok res) eqn:Hok; cbn [negb].
        -- unfold bind at 1, json.
           destruct (body res) as [data|] eqn:Hbody.
           ++ unfold ret at 1.
              destruct (finished data && negb (truthy (session_id data)))%bool.
              ** eexists _, _. split; [reflexivity|]. cbn.
                 rewrite Hres, H401, Hok, Hbody.
                 repeat split; try reflexivity; discriminate.
              ** destruct (if truthy (raw_text data) then _ else _).
                 eexists _, _. split; [reflexivity|]. cbn.
                 rewrite Hres, H401, Hok, Hbody.
                 repeat split; try reflexivity; discriminate.
           ++ eexists _, _. split; [reflexivity|]. cbn.
              rewrite Hres, H401, Hok, Hbody.
              repeat split; reflexivity.
        -- eexists _, _. split; [reflexivity|]. cbn. rewrite Hres, H401, Hok.
           repeat split; try reflexivity; discriminate.
    + eexists _, _. split; [reflexivity|]. cbn. rewrite Hres.
      repeat split; reflexivity.
  - eexists _, _. split; [reflexivity|]. repeat split; reflexivity.
Qed.

(** X9: a request to plan whose fetch fails gets no reply.  With a
    calendar email and a text that asks for planning, a planner whose
    fetch fails, or whose ok response has no readable body, makes
    [handleSendMessage] throw: the user's message is in the chat and the
    one start request is in the log, and nothing else has happened. *)
Theorem failed_plan_request_gets_no_reply (env : Env) (w : World) :
  let s := app w in
  let userText := trim (inputMessage s) in
  userText <> "" ->
  awaitingDayConsent s = false ->
  awaitingConsent s = false ->
  wantsSchedulingIntent userText = true ->
  truthy (activeEmail s) = true ->
  planThrows env (calls w ++ [planRequest env s 3]) = true ->
  exists w' : World,
    handleSendMessage env s w = (Thrown, w')
    /\ calls w' = (calls w ++ [planRequest env s 3])%list
    /\ timers w' = timers w
    /\ app w'
       = setInputMessage ""
           (setMessages
              (messages s ++ [sent env (inputMessage s) (clockReads w)])%list s).
Proof.
  intros s userText Hsome Hday Hlegacy Hintent Hmail Hthrows.
  assert (Hblank : String.eqb userText "" = false)
    by (apply String.eqb_neq; exact Hsome).
  pose proof (handleSendMessage_posts env w Hblank Hday Hlegacy) as Hpost.
  subst s userText. cbv zeta in Hpost. rewrite Hpost, Hintent.
  unfold planThrows, planRequest in *.
  unfold bind at 1, planWithManager. rewrite Hmail. cbn [negb].
  unfold bind at 1, fetch. cbn [calls app timers clockReads].
  destruct (onPlanStart (backend env) _) as [res|].
  - destruct (status res =? 401)%Z; [discriminate|].
    destruct (ok res); [|discriminate]. cbn [negb].
    unfold bind at 1, json.
    destruct (body res); [discriminate|].
    eexists. split; [reflexivity|]. repeat split; reflexivity.
  - eexists. split; [reflexivity|]. repeat split; reflexivity.
Qed.

Lemma failed_plan_request_gets_no_reply_witness :
  exists w' : World,
    handleSendMessage (envAt JsDate.hostUTC)
      (app (typing "Plan my week" opening)) (typing "Plan my week" opening)
    = (Thrown, w')
    /\ List.length (messages (app w')) = 2%nat
    /\ timers w' = [].
Proof.
  destruct (failed_plan_request_gets_no_reply (envAt JsDate.hostUTC)
              (typing "Plan my week" opening))
    as (w' & Hrun & _ & Htimers & Happ).
  - vm_compute. discriminate.
  - reflexivity.
  - reflexivity.
  - vm_compute. reflexivity.
  - reflexivity.
  - reflexivity.
  - exists w'. split; [exact Hrun|].
    split; [rewrite Happ; reflexivity | exact Htimers].
Defined.

(** X10: a plan without proposals gets no reply either.  When the
    planner answers ok and nothing can be read off its raw text as a
    proposal, the result is neither a failure nor a plan to review:
    [handleSendMessage] returns with the user's message as the only new
    one, and queues no timer. *)
Theorem plan_without_proposals_gets_no_reply (env : Env) (w : World)
    (res : Response PlanData) (data : PlanData) :
  let s := app w in
  let userText := trim (inputMessage s) in
  userText <> "" ->
  awaitingDayConsent s = false ->
  awaitingConsent s = false ->
  wantsSchedulingIntent userText = true ->
  truthy (activeEmail s) = true ->
  onPlanStart (backend env) (calls w ++ [planRequest env s 3]) = Some res ->
  ok res = true ->
  body res = Some data ->
  (finished data && negb (truthy (session_id data)))%bool = false ->
  fst (readPlan data) = [] ->
  exists w' : World,
    handleSendMessage env s w = (Returned tt, w')
    /\ calls w' = (calls w ++ [planRequest env s 3])%list
    /\ timers w' = timers w
    /\ app w'
       = setInputMessage ""
           (setMessages
              (messages s ++ [sent env (inputMessage s) (clockReads w)])%list s).
Proof.
  intros s userText Hsome Hday Hlegacy Hintent Hmail Hres Hok Hbody Hfin Hnone.
  assert (Hblank : String.eqb userText "" = false)
    by (apply String.eqb_neq; exact Hsome).
  pose proof (handleSendMessage_posts env w Hblank Hday Hlegacy) as Hpost.
  subst s userText. cbv zeta in Hpost. rewrite Hpost, Hintent.
  unfold bind at 1.
  match goal with
  | |- context [planWithManager env (app w) 3 ?W] =>
      rewrite (planWithManager_ready env (app w) 3 W res data
                 Hmail Hres Hok Hbody Hfin)
  end.
  rewrite Hnone. cbn.
  eexists. split; [reflexivity|]. repeat split; reflexivity.
Qed.

Lemma plan_without_proposals_gets_no_reply_witness :
  let env := envWith (planning "Nothing to add this week.") in
  exists w' : World,
    handleSendMessage env (app (typing "Plan my week" opening))
      (typing "Plan my week" opening)
    = (Returned tt, w')
    /\ List.length (messages (app w')) = 2%nat
    /\ timers w' = [].
Proof.
  intros env.
  destruct (plan_without_proposals_gets_no_reply env
              (typing "Plan my week" opening)
              {| status := 200; bodyText := "";
                 body := Some {| session_id := Some "session-1";
                                 raw_text := Some "Nothing to add this week.";
                                 finished := false; plan_message := None |} |}
              {| session_id := Some "session-1";
                 raw_text := Some "Nothing to add this week.";
                 finished := false; plan_message := None |})
    as (w' & Hrun & _ & Htimers & Happ).
  - vm_compute. discriminate.
  - reflexivity.
  - reflexivity.
  - vm_compute. reflexivity.
  - reflexivity.
  - reflexivity.
  - reflexivity.
  - reflexivity.
  - reflexivity.
  - vm_compute. reflexivity.
  - exists w'. split; [exact Hrun|].
    split; [rewrite Happ; reflexivity | exact Htimers].
Defined.

(** X11: from a request to plan to the first day prompt.  When the
    planner answers ok with proposals that [groupProposalsByDay] accepts,
    [handleSendMessage] returns having appended the analysis, if there is
    one, and queued a single timer two seconds out; until it fires the
    chat is not waiting for a reply to a day.  The timer's callback then
    returns with the review started on the groups of those proposals,
    for the session of the response, its first day shown. *)
Theorem plan_leads_to_the_first_day (env : Env) (w : World)
    (res : Response PlanData) (data : PlanData) (grouped : Grouped) :
  let s := app w in
  let userText := trim (inputMessage s) in
  userText <> "" ->
  awaitingDayConsent s = false ->
  awaitingConsent s = false ->
  wantsSchedulingIntent userText = true ->
  truthy (activeEmail s) = true ->
  onPlanStart (backend env) (calls w ++ [planRequest env s 3]) = Some res ->
  ok res = true ->
  body res = Some data ->
  (finished data && negb (truthy (session_id data)))%bool = false ->
  fst (readPlan data) <> [] ->
  groupProposalsByDay (host env) (fst (readPlan data)) = Some grouped ->
  exists (w1 w2 : World) (callback : Deferred),
    handleSendMessage env s w = (Returned tt, w1)
    /\ calls w1 = (calls w ++ [planRequest env s 3])%list
    /\ timers w1 = (timers w ++ [(2000%Z, callback)])%list
    /\ awaitingDayConsent (app w1) = false
    /\ map message (messages (app w1))
       = (map message (messages s) ++ userText
          :: (if String.eqb (snd (readPlan data)) "" then []
              else [snd (readPlan data)]))%list
    /\ fire env callback w1 = (Returned tt, w2)
    /\ inReview grouped (session_id data) 0 (app w2)
    /\ calls w2 = calls w1.
Proof.
  intros s userText Hsome Hday Hlegacy Hintent Hmail Hres Hok Hbody Hfin
    Hprops Hgrouped.
  assert (Hblank : String.eqb userText "" = false)
    by (apply String.eqb_neq; exact Hsome).
  pose proof (handleSendMessage_posts env w Hblank Hday Hlegacy) as Hpost.
  subst s userText. cbv zeta in Hpost. rewrite Hpost, Hintent.
  unfold bind at 1.
  match goal with
  | |- context [planWithManager env (app w) 3 ?W] =>
      rewrite (planWithManager_ready env (app w) 3 W res data
                 Hmail Hres Hok Hbody Hfin)
  end.
  assert (Hlen : (0 <? List.length (fst (readPlan data)))%nat = true).
  { destruct (fst (readPlan data)); [contradiction | reflexivity]. }
  rewrite Hlen.
  set (ps := fst (readPlan data)) in *.
  destruct (String.eqb (snd (readPlan data)) "") eqn:Hanalysis.
  - eexists _, _, _. split; [reflexivity|]. cbn [calls timers app afterCalls].
    split; [reflexivity|]. split; [reflexivity|].
    split; [exact Hday|].
    split; [cbn; rewrite map_app; reflexivity|].
    unfold fire.
    rewrite (ReviewRunFacts.startDayByDayApproval_run env ps (session_id data)
               grouped _ Hgrouped Hprops).
    split; [reflexivity|]. split; [|reflexivity].
    cbn. repeat split; reflexivity.
  - eexists _, _, _. split; [reflexivity|]. cbn [calls timers app afterCalls].
    split; [reflexivity|]. split; [reflexivity|].
    split; [exact Hday|].
    split; [cbn; rewrite !map_app; cbn; rewrite <- app_assoc; reflexivity|].
    unfold fire.
    rewrite (ReviewRunFacts.startDayByDayApproval_run env ps (session_id data)
               grouped _ Hgrouped Hprops).
    split; [reflexivity|]. split; [|reflexivity].
    cbn. repeat split; reflexivity.
Qed.

Lemma plan_leads_to_the_first_day_witness :
  let env := envWith (planning oneWalk) in
  exists (w1 w2 : World) (callback : Deferred),
    handleSendMessage env (app (typing "Plan my week" opening))
      (typing "Plan my week" opening)
    = (Returned tt, w1)
    /\ map message (messages (app w1))
       = [ "Hi Ada! I'm your Unfrazzle Buddy. How can I support you today?";
           "Plan my week"; "You have a free morning." ]
    /\ fire env callback w1 = (Returned tt, w2)
    /\ map (fun v => summary (proposal v)) (currentDayProposals (app w2))
       = ["Walk"].
Proof.
  intros env.
  pose (data := {| session_id := Some "session-1"; raw_text := Some oneWalk;
                   finished := false; plan_message := None |}).
  pose (grouped :=
          match groupProposalsByDay JsDate.hostUTC (fst (readPlan data))
          with Some g => g | None => [] end).
  destruct (plan_leads_to_the_first_day env (typing "Plan my week" opening)
              {| status := 200; bodyText := ""; body := Some data |}
              data grouped)
    as (w1 & w2 & callback & Hrun & _ & _ & _ & Hmsgs & Hfire & Hin & _).
  - vm_compute. discriminate.
  - reflexivity.
  - reflexivity.
  - vm_compute. reflexivity.
  - reflexivity.
  - reflexivity.
  - reflexivity.
  - reflexivity.
  - reflexivity.
  - vm_compute. discriminate.
  - vm_compute. reflexivity.
  - exists w1, w2, callback. split; [exact Hrun|].
    split; [rewrite Hmsgs; vm_compute; reflexivity|].
    split; [exact Hfire|].
    destruct Hin as (_ & _ & _ & Hday & _). rewrite Hday.
    vm_compute. reflexivity.
Defined.

End ChatFacts.

(** ** What no sequence of events does *)

Module SessionFacts.
Import JsString MainApp App Views Scenario ReviewRun Chat Session.
Local Open Scope string_scope.

Section Frames.
Variable C : AppState -> AppState -> Prop.
Variable P : Request -> bool.
Variable T : Deferred -> bool.
Hypothesis C_refl : forall a, C a a.
Hypothesis C_trans : forall a b c, C a b -> C b c -> C a c.

Lemma Frame_refl (w : World) : Frame C P T w w.
Proof.
  split; [apply C_refl|].
  split; exists []; rewrite app_nil_r; split; reflexivity.
Qed.

Lemma Frame_trans (a b c : World) :
  Frame C P T a b -> Frame C P T b c -> Frame C P T a c.
Proof.
  intros (c1 & (n1 & e1 & f1) & (q1 & t1 & g1))
         (c2 & (n2 & e2 & f2) & (q2 & t2 & g2)).
  split; [eapply C_trans; eassumption|]. split.
  - exists (n1 ++ n2)%list. split.
    + rewrite e2, e1, app_assoc. reflexivity.
    + rewrite forallb_app, f1, f2. reflexivity.
  - exists (q1 ++ q2)%list. split.
    + rewrite t2, t1, app_assoc. reflexivity.
    + rewrite forallb_app, g1, g2. reflexivity.
Qed.

Lemma Frame_Calm (w w' : World) : Frame C P T w w' -> Calm C P w w'.
Proof. intros (Hc & Hcalls & _). split; assumption. Qed.

Lemma Calm_refl (w : World) : Calm C P w w.
Proof.
  split; [apply C_refl|]. exists []. rewrite app_nil_r. split; reflexivity.
Qed.

Lemma Calm_trans (a b c : World) :
  Calm C P a b -> Calm C P b c -> Calm C P a c.
Proof.
  intros (c1 & n1 & e1 & f1) (c2 & n2 & e2 & f2).
  split; [eapply C_trans; eassumption|].
  exists (n1 ++ n2)%list. split.
  - rewrite e2, e1, app_assoc. reflexivity.
  - rewrite forallb_app, f1, f2. reflexivity.
Qed.

Lemma Frame_ret {A : Type} (a : A) : Respects (Frame C P T) (ret a).
Proof. intros w. apply Frame_refl. Qed.

Lemma Frame_throw {A : Type} : Respects (Frame C P T) (@throw A).
Proof. intros w. apply Frame_refl. Qed.

Lemma Frame_bind {A B : Type} (m : M A) (k : A -> M B) :
  Respects (Frame C P T) m -> (forall a, Respects (Frame C P T) (k a)) ->
  Respects (Frame C P T) (bind m k).
Proof.
  intros Hm Hk w. unfold bind. specialize (Hm w).
  destruct (m w) as [[a|] w1]; simpl in *; [|exact Hm].
  eapply Frame_trans; [exact Hm | apply Hk].
Qed.

Lemma Frame_tryCatch {A : Type} (m h : M A) :
  Respects (Frame C P T) m -> Respects (Frame C P T) h ->
  Respects (Frame C P T) (tryCatch m h).
Proof.
  intros Hm Hh w. unfold tryCatch. specialize (Hm w).
  destruct (m w) as [[a|] w1]; simpl in *; [exact Hm|].
  eapply Frame_trans; [exact Hm | apply Hh].
Qed.

Lemma Frame_json {A : Type} (res : Response A) : Respects (Frame C P T) (json res).
Proof.
  unfold json. destruct (body res); [apply Frame_ret | apply Frame_throw].
Qed.

Lemma Frame_set (f : AppState -> AppState) :
  (forall a, C a (f a)) -> Respects (Frame C P T) (set f).
Proof.
  intros Hf w. split; [apply Hf|].
  split; exists []; simpl; rewrite app_nil_r; split; reflexivity.
Qed.

Lemma Frame_Date_now (env : Env) : Respects (Frame C P T) (Date_now env).
Proof.
  intros w. split; [apply C_refl|].
  split; exists []; simpl; rewrite app_nil_r; split; reflexivity.
Qed.

Lemma Frame_setTimeout (callback : Deferred) (delay : Z) :
  T callback = true -> Respects (Frame C P T) (setTimeout callback delay).
Proof.
  intros HT w. split; [apply C_refl|]. split.
  - exists []. simpl. rewrite app_nil_r. split; reflexivity.
  - exists [(delay, callback)]. simpl. rewrite HT. split; reflexivity.
Qed.

Lemma Frame_fetch {A : Type} (answer : list Request -> option (Response A))
    (req : Request) :
  P req = true -> Respects (Frame C P T) (fetch answer req).
Proof.
  intros Hreq w. unfold fetch.
  destruct (answer _); (split; [apply C_refl|]); split;
    first [ exists [req]; simpl; rewrite Hreq; split; reflexivity
          | exists []; simpl; rewrite app_nil_r; split; reflexivity ].
Qed.

Lemma Frame_readRef : Respects (Frame C P T) readRef.
Proof. intros w. apply Frame_refl. Qed.

Lemma Frame_acceptLoop (env : Env) (s : AppState) (day : list DayProposal) :
  P (ReqDecision (currentSessionId s) true) = true ->
  forall n, Respects (Frame C P T) (acceptLoop env s day n).
Proof.
  intros HP. induction day as [|v day IH]; intros n; cbn [acceptLoop].
  - apply Frame_ret.
  - apply Frame_bind; [|intros m; apply IH].
    unfold acceptOne. apply Frame_tryCatch; [|apply Frame_ret].
    apply Frame_bind; [apply Frame_fetch, HP|]. intros res.
    destruct (ok res); [|apply Frame_ret].
    apply Frame_bind; [apply Frame_json|]. intros result.
    destruct (isScheduled result); apply Frame_ret.
Qed.

Lemma Frame_rejectLoop (env : Env) (s : AppState) (day : list DayProposal) :
  P (ReqDecision (currentSessionId s) false) = true ->
  Respects (Frame C P T) (rejectLoop env s day).
Proof.
  intros HP. induction day as [|v day IH]; cbn [rejectLoop].
  - apply Frame_ret.
  - apply Frame_bind; [|intros _; apply IH].
    unfold rejectOne. apply Frame_tryCatch; [|apply Frame_ret].
    apply Frame_bind; [apply Frame_fetch, HP|]. intros res. apply Frame_ret.
Qed.

Lemma Frame_applyLoop (env : Env) (sessionId : option string)
    (proposals : list Proposal) :
  P (ReqDecision sessionId true) = true ->
  forall accepted,
    Respects (Frame C P T) (applyLoop env sessionId proposals accepted).
Proof.
  intros HP. induction proposals as [|p rest IH]; intros accepted;
    cbn [applyLoop].
  - apply Frame_ret.
  - apply Frame_bind; [apply Frame_fetch, HP|]. intros res.
    destruct (negb (ok res)); [apply Frame_ret|].
    apply Frame_bind; [apply Frame_json|]. intros result. cbv zeta.
    destruct (decision_finished result); [apply Frame_ret | apply IH].
Qed.

Lemma Frame_cells (w : World) (a : AppState) (new : list Request)
    (queued : list (Z * Deferred)) (n : nat) :
  C (app w) a ->
  forallb P new = true ->
  forallb (fun timer => T (snd timer)) queued = true ->
  Frame C P T w {| app := a; calls := (calls w ++ new)%list;
                   timers := (timers w ++ queued)%list; clockReads := n |}.
Proof.
  intros H1 H2 H3. split; [exact H1|].
  split; [exists new | exists queued]; split; trivial.
Qed.

Lemma Frame_cells_same (w : World) (a : AppState) (new : list Request)
    (n : nat) :
  C (app w) a ->
  forallb P new = true ->
  Frame C P T w {| app := a; calls := (calls w ++ new)%list;
                   timers := timers w; clockReads := n |}.
Proof.
  intros H1 H2. split; [exact H1|].
  split; [exists new; split; trivial|].
  exists []. simpl. rewrite app_nil_r. split; reflexivity.
Qed.

End Frames.

(** One step of a frame proof; [Hrefl] and [Htrans] are the two laws of
    the relation on the cells, [side] settles the condition on a setter. *)
Ltac frame_step Hrefl Htrans side :=
  match goal with
  | |- Respects _ (bind _ _) => apply (Frame_bind _ _ _ Htrans); [|intros ?]
  | |- Respects _ (tryCatch _ _) => apply (Frame_tryCatch _ _ _ Htrans)
  | |- Respects _ (ret _) => apply (Frame_ret _ _ _ Hrefl)
  | |- Respects _ throw => apply (Frame_throw _ _ _ Hrefl)
  | |- Respects _ readRef => apply (Frame_readRef _ _ _ Hrefl)
  | |- Respects _ (Date_now _) => apply (Frame_Date_now _ _ _ Hrefl)
  | |- Respects _ (setTimeout _ _) =>
      apply (Frame_setTimeout _ _ _ Hrefl); reflexivity
  | |- Respects _ (json _) => apply (Frame_json _ _ _ Hrefl)
  | |- Respects _ (fetch _ _) => apply (Frame_fetch _ _ _ Hrefl); reflexivity
  | |- Respects _ (set _) => apply Frame_set; intros ?; side
  | |- Respects _ (if ?b then _ else _) => destruct b
  | |- Respects _ (match ?x with _ => _ end) => destruct x
  end.

(** The steps shared by the handlers, for a frame whose requests [P]
    lets through those of the review, the planner and the advisor. *)
Ltac frame_handlers Hrefl Htrans side :=
  repeat
    first
      [ frame_step Hrefl Htrans side
      | progress cbv zeta
      | match goal with
        | |- Respects _ (newMessage _ _ _ _) => unfold newMessage
        | |- Respects _ (createMessage _ _) => unfold createMessage
        | |- Respects _ (appendMessage _) => unfold appendMessage
        | |- Respects _ (say _ _ _) => unfold say
        | |- Respects _ (planWithManager _ _ _) => unfold planWithManager
        | |- Respects _ (startDayByDayApproval _ _ _) =>
            unfold startDayByDayApproval
        | |- Respects _ (handleDayApproval _ _ _) => unfold handleDayApproval
        | |- Respects _ (acceptLoop _ _ _ _) =>
            apply (Frame_acceptLoop _ _ _ Hrefl Htrans); reflexivity
        | |- Respects _ (rejectLoop _ _ _) =>
            apply (Frame_rejectLoop _ _ _ Hrefl Htrans); reflexivity
        | |- Respects _ (applyLoop _ _ _ _) =>
            apply (Frame_applyLoop _ _ _ Hrefl Htrans); reflexivity
        | |- Respects _ (applyProposalsWithManager _ _ _ _) =>
            unfold applyProposalsWithManager
        | |- Respects _ (applyProposalsDirect _ _ _) =>
            unfold applyProposalsDirect
        | |- Respects _ (answerQuestion _ _ _) => unfold answerQuestion
        | |- Respects _ (loadNextQuestion _) => unfold loadNextQuestion
        end ].

Lemma legacyIdle_refl (a : AppState) : legacyIdle a a.
Proof. split; trivial. Qed.

Lemma legacyIdle_trans (a b c : AppState) :
  legacyIdle a b -> legacyIdle b c -> legacyIdle a c.
Proof. intros [H1 H2] [H3 H4]. split; auto. Qed.

Ltac legacy_side := split; intros ?; cbn; trivial.

Ltac lawful := frame_handlers legacyIdle_refl legacyIdle_trans legacy_side.

Lemma Lawful_handleSendMessage (env : Env) (s : AppState) :
  awaitingConsent s = false ->
  Respects (Frame legacyIdle notApply anyTimer) (handleSendMessage env s).
Proof.
  intros Hlegacy. unfold handleSendMessage. rewrite Hlegacy. lawful.
Qed.

Lemma Lawful_submitAnswer (env : Env) (s : AppState) (value : Z) :
  Respects (Frame legacyIdle notApply anyTimer) (submitAnswer env s value).
Proof.
  unfold submitAnswer. lawful.
Qed.

Lemma Lawful_handler (env : Env) (ev : Event) (w : World) :
  awaitingConsent (app w) = false ->
  Calm legacyIdle notApply w (snd (handler env ev w)).
Proof.
  intros Hlegacy. destruct ev; unfold handler.
  - apply (Frame_Calm _ _ anyTimer), Frame_set. intros a. legacy_side.
  - apply (Frame_Calm _ _ anyTimer), Lawful_handleSendMessage, Hlegacy.
  - revert w Hlegacy.
    assert (H : Respects (Frame legacyIdle notApply anyTimer)
                  (resetConversation env))
      by (unfold resetConversation; lawful).
    intros w _. apply (Frame_Calm _ _ anyTimer), H.
  - unfold openCheckin.
    destruct (negb (negb (questionsAvailable (app w))));
      [apply (Frame_Calm _ _ anyTimer), Frame_set; intros a; legacy_side
      | apply Calm_refl, legacyIdle_refl].
  - destruct (isQuestionnaireOpen (app w));
      [apply (Frame_Calm _ _ anyTimer), Frame_set; intros a; legacy_side
      | apply Calm_refl, legacyIdle_refl].
  - destruct (isQuestionnaireOpen (app w));
      [apply (Frame_Calm _ _ anyTimer), Lawful_submitAnswer
      | apply Calm_refl, legacyIdle_refl].
  - apply (Frame_Calm _ _ anyTimer), Frame_set. intros a. legacy_side.
  - apply (Frame_Calm _ _ anyTimer), Frame_set. intros a. legacy_side.
  - revert w Hlegacy.
    assert (H : Respects (Frame legacyIdle notApply anyTimer)
                  (checkAuthStatus answer))
      by (unfold checkAuthStatus; lawful).
    intros w _. apply (Frame_Calm _ _ anyTimer), H.
  - unfold bind, takeTimer.
    destruct (nth_error (timers w) n) as [[delay callback]|]; cbn;
      [|apply Calm_refl, legacyIdle_refl].
    assert (H : Respects (Frame legacyIdle notApply anyTimer)
                  (fire env callback))
      by (destruct callback; unfold fire; lawful).
    destruct (H {| app := app w; calls := calls w;
                   timers := without n (timers w);
                   clockReads := clockReads w |})
      as (Hcells & Hcalls & _).
    split; [exact Hcells | exact Hcalls].
Qed.

Lemma Lawful_effects (env : Env) (before : AppState) (w : World) :
  Calm legacyIdle notApply w (snd (effects env before w)).
Proof.
  unfold effects.
  destruct (Bool.eqb _ _); [apply Calm_refl, legacyIdle_refl|].
  assert (H : forall s, Respects (Frame legacyIdle notApply anyTimer)
                          (questionnaireEffect env s))
    by (intros s; unfold questionnaireEffect, loadNextQuestion; lawful).
  apply (Frame_Calm _ _ anyTimer), H.
Qed.

Lemma Lawful_step (env : Env) (ev : Event) (w : World) :
  awaitingConsent (app w) = false ->
  Calm legacyIdle notApply w (step env ev w).
Proof.
  intros Hlegacy. unfold step.
  eapply (Calm_trans _ _ legacyIdle_trans);
    [apply Lawful_handler, Hlegacy | apply Lawful_effects].
Qed.

(** *** A check-in that is shut *)

Lemma buttonKept_refl (a : AppState) : buttonKept a a.
Proof. split; reflexivity. Qed.

Lemma buttonKept_trans (a b c : AppState) :
  buttonKept a b -> buttonKept b c -> buttonKept a c.
Proof. intros [H1 H2] [H3 H4]. split; congruence. Qed.

Ltac button_side := split; reflexivity.

Ltac still := frame_handlers buttonKept_refl buttonKept_trans button_side.

Lemma forallb_without {A : Type} (f : A -> bool) (l : list A) :
  forallb f l = true -> forall n, forallb f (without n l) = true.
Proof.
  induction l as [|x l IH]; intros H n; [destruct n; reflexivity|].
  cbn [forallb] in H. apply andb_prop in H. destruct H as [Hx Hl].
  destruct n; cbn [without forallb]; [exact Hl|].
  rewrite Hx. apply IH, Hl.
Qed.

Lemma forallb_nth {A : Type} (f : A -> bool) (l : list A) (n : nat) (x : A) :
  forallb f l = true -> nth_error l n = Some x -> f x = true.
Proof.
  intros H Hn. apply nth_error_In in Hn.
  rewrite forallb_forall in H. apply H, Hn.
Qed.

Lemma shut_frame (w w' : World) :
  shut w -> Frame buttonKept anyRequest notWake w w' -> shut w'.
Proof.
  intros (Ha & Ho & Ht) ((Ha' & Ho') & _ & queued & Hq & Hwake).
  repeat split; [congruence | congruence|].
  rewrite Hq, forallb_app, Ht, Hwake. reflexivity.
Qed.

Lemma shut_step (env : Env) (ev : Event) (w : World) :
  shut w -> shut (step env ev w).
Proof.
  intros Hshut. pose proof Hshut as (Havail & Hopen & Htimers).
  assert (Hhandler : shut (snd (handler env ev w))).
  { destruct ev; unfold handler.
    - apply (shut_frame w); [exact Hshut|]. apply Frame_set. intros a.
      button_side.
    - apply (shut_frame w); [exact Hshut|].
      assert (H : forall s, Respects (Frame buttonKept anyRequest notWake)
                              (handleSendMessage env s))
        by (intros s; unfold handleSendMessage; still).
      apply H.
    - apply (shut_frame w); [exact Hshut|].
      assert (H : Respects (Frame buttonKept anyRequest notWake)
                    (resetConversation env))
        by (unfold resetConversation; still).
      apply H.
    - unfold openCheckin. rewrite Havail. exact Hshut.
    - rewrite Hopen. exact Hshut.
    - rewrite Hopen. exact Hshut.
    - apply (shut_frame w); [exact Hshut|]. apply Frame_set. intros a.
      button_side.
    - apply (shut_frame w); [exact Hshut|]. apply Frame_set. intros a.
      button_side.
    - apply (shut_frame w); [exact Hshut|].
      assert (H : Respects (Frame buttonKept anyRequest notWake)
                    (checkAuthStatus answer))
        by (unfold checkAuthStatus; still).
      apply H.
    - unfold bind, takeTimer.
      destruct (nth_error (timers w) n) as [[delay callback]|] eqn:Hn;
        cbn [snd]; [|exact Hshut].
      pose proof (forallb_nth _ _ _ _ Htimers Hn) as Hcb. cbn [snd] in Hcb.
      assert (H : Respects (Frame buttonKept anyRequest notWake)
                    (fire env callback))
        by (destruct callback; unfold fire; [still | still | discriminate]).
      eapply shut_frame; [|apply H].
      repeat split; try assumption. cbn [timers].
      apply forallb_without, Htimers. }
  unfold step, effects.
  destruct Hhandler as (Ha & Ho & Ht).
  rewrite Ho, Hopen. cbn [Bool.eqb ret snd]. repeat split; assumption.
Qed.

(** X12: the all-at-once consent is never asked for.  From cells that do
    not wait for it, whatever the user does and whatever the backend
    answers, no sequence of events raises [awaitingConsent]; proposals
    never become pending; and no request is sent to the apply endpoint:
    the second branch of the chat handler and the two apply functions
    behind it are out of reach. *)
Theorem legacy_consent_is_out_of_reach (env : Env) (evs : list Event)
    (w : World) :
  awaitingConsent (app w) = false ->
  awaitingConsent (app (run env evs w)) = false
  /\ (pendingProposals (app w) = [] ->
      pendingProposals (app (run env evs w)) = [])
  /\ exists new : list Request,
       calls (run env evs w) = (calls w ++ new)%list
       /\ existsb isApply new = false.
Proof.
  revert w. induction evs as [|ev evs IH]; intros w Hlegacy.
  - split; [exact Hlegacy|]. split; [trivial|].
    exists []. rewrite app_nil_r. split; reflexivity.
  - pose proof (Lawful_step env ev w Hlegacy) as ((H1 & H2) & new1 & Hc1 & Hn1).
    destruct (IH (step env ev w) (H1 Hlegacy)) as (H3 & H4 & new2 & Hc2 & Hn2).
    cbn [run fold_left]. fold (run env evs (step env ev w)).
    split; [exact H3|]. split; [auto|].
    exists (new1 ++ new2)%list. split.
    + rewrite Hc2, Hc1, app_assoc. reflexivity.
    + rewrite existsb_app, Hn2, orb_false_r.
      clear - Hn1. induction new1 as [|r new1 IHn]; [reflexivity|].
      simpl in *. apply andb_prop in Hn1. destruct Hn1 as [Hr Hrest].
      unfold notApply in Hr. apply negb_true_iff in Hr.
      rewrite Hr. apply IHn, Hrest.
Qed.

Lemma legacy_consent_is_out_of_reach_witness :
  awaitingConsent
    (app (run (envWith (planning oneWalk))
            [Typed "plan my week"; Send; TimerFires 0; Typed "yes"; Send]
            opening))
  = false.
Proof.
  apply (legacy_consent_is_out_of_reach (envWith (planning oneWalk))
           [Typed "plan my week"; Send; TimerFires 0; Typed "yes"; Send]
           opening).
  reflexivity.
Defined.

End SessionFacts.

(** ** The check-in, answer by answer *)

Module CheckinRunFacts.
Import JsString MainApp App Views Scenario ReviewRun Chat Session Checkin.
Import SessionFacts.
Local Open Scope string_scope.

Lemma answerQuestion_outcome (env : Env) (id : string) (value : Z) (w : World) :
  answerQuestion env id value w
  = match answerAccepted env (calls w ++ [ReqCheckinAnswer id value]) with
    | Some data => (Returned data, recorded env id value data w)
    | None => (Thrown, afterCalls [ReqCheckinAnswer id value] w)
    end.
Proof.
  unfold answerQuestion, answerAccepted, recorded, scored, bind at 1, fetch.
  destruct (onCheckinAnswer (backend env) _) as [res|]; [|reflexivity].
  destruct (ok res); cbn [negb]; [|reflexivity].
  unfold bind at 1, json.
  destruct (body res) as [data|]; [|reflexivity].
  unfold ret at 1.
  destruct (bs data) as [score|];
    destruct (0 <? next_interval_min data)%Z; reflexivity.
Qed.

Lemma loadNextQuestion_outcome (env : Env) (w : World) :
  loadNextQuestion env w
  = match questionOffered env (calls w ++ [ReqCheckinNext]) with
    | Some q =>
        (Returned tt,
         {| app := setCurrentQ (Some q) (app w);
            calls := (calls w ++ [ReqCheckinNext])%list;
            timers := timers w; clockReads := clockReads w |})
    | None => (Thrown, afterCalls [ReqCheckinNext] w)
    end.
Proof.
  unfold loadNextQuestion, questionOffered, bind at 1, fetch.
  destruct (onCheckinNext (backend env) _) as [res|]; [|reflexivity].
  destruct (ok res); cbn [negb]; [|reflexivity].
  unfold bind at 1, json.
  destruct (body res) as [q|]; reflexivity.
Qed.

(** X13: an answer the backend does not accept changes nothing but the
    chat.  When the fetch of the answer fails, or its response is not ok
    or has no readable body, [submitAnswer] returns with the one request
    in the log and an apology as the only new message; the questionnaire
    stays as it was, on the same question, with the same count, and no
    timer is queued. *)
Theorem rejected_answer_only_apologises (env : Env) (w : World) (q : NextQ)
    (value : Z) :
  currentQ (app w) = Some q ->
  answerAccepted env (calls w ++ [ReqCheckinAnswer (qid q) value]) = None ->
  exists w' : World,
    submitAnswer env (app w) value w = (Returned tt, w')
    /\ calls w' = (calls w ++ [ReqCheckinAnswer (qid q) value])%list
    /\ timers w' = timers w
    /\ app w'
       = setMessages
           (messages (app w) ++ [said env 1 apology (clockReads w)])%list
           (app w).
Proof.
  intros Hq Hnone.
  unfold submitAnswer. rewrite Hq.
  unfold tryCatch, bind at 1.
  rewrite answerQuestion_outcome, Hnone.
  eexists. split; [reflexivity|]. repeat split; reflexivity.
Qed.

Lemma recorded_keeps (env : Env) (id : string) (value : Z)
    (data : AnswerData) (w : World) :
  let a := app (recorded env id value data w) in
  initialCountRef a = initialCountRef (app w)
  /\ isQuestionnaireOpen a = isQuestionnaireOpen (app w)
  /\ needsInitialQuestions a = needsInitialQuestions (app w)
  /\ currentQ a = currentQ (app w)
  /\ messages a = messages (app w).
Proof.
  unfold recorded, scored.
  destruct (bs data); destruct (0 <? next_interval_min data)%Z;
    repeat split; reflexivity.
Qed.

Lemma counted_keeps (env : Env) (id : string) (value : Z)
    (data : AnswerData) (w : World) :
  let a := app (counted env id value data w) in
  initialCountRef a = (initialCountRef (app w) + 1)%nat
  /\ isQuestionnaireOpen a = isQuestionnaireOpen (app w)
  /\ needsInitialQuestions a = needsInitialQuestions (app w)
  /\ currentQ a = currentQ (app w)
  /\ messages a = messages (app w).
Proof.
  unfold counted, recorded, scored.
  destruct (bs data); destruct (0 <? next_interval_min data)%Z;
    repeat split; reflexivity.
Qed.

(** An accepted answer of the initial assessment that is not the last. *)
Lemma submitAnswer_initial (env : Env) (w : World) (q : NextQ) (value : Z)
    (data : AnswerData) :
  currentQ (app w) = Some q ->
  needsInitialQuestions (app w) = true ->
  (initialCountRef (app w) + 1 < 5)%nat ->
  answerAccepted env (calls w ++ [ReqCheckinAnswer (qid q) value]) = Some data ->
  submitAnswer env (app w) value w
  = tryCatch (loadNextQuestion env) (say env 1 apology)
      (counted env (qid q) value data w).
Proof.
  intros Hq Hinit Hcount Hdata.
  destruct (recorded_keeps env (qid q) value data w) as (Href & _).
  unfold submitAnswer. rewrite Hq, Hinit.
  unfold tryCatch, bind at 1. rewrite answerQuestion_outcome, Hdata.
  unfold bind at 1, readRef. rewrite Href.
  apply Nat.ltb_lt in Hcount. rewrite Hcount. cbn [andb].
  unfold bind at 1, set at 1. cbn [app calls timers clockReads].
  unfold counted. reflexivity.
Qed.

Lemma checkinKept_refl (a : AppState) : checkinKept a a.
Proof. repeat split. Qed.

Lemma checkinKept_trans (a b c : AppState) :
  checkinKept a b -> checkinKept b c -> checkinKept a c.
Proof.
  intros (a1 & a2 & a3 & a4 & a5 & a6 & a7 & a8)
         (b1 & b2 & b3 & b4 & b5 & b6 & b7 & b8).
  repeat split; congruence.
Qed.

Ltac checkin_side := repeat split.

Ltac aside := frame_handlers checkinKept_refl checkinKept_trans checkin_side.

(** An accepted answer that ends a check-in: what follows the closing of
    the questionnaire leaves the check-in alone. *)
Lemma submitAnswer_closing (env : Env) (w : World) (q : NextQ) (value : Z)
    (data : AnswerData) :
  currentQ (app w) = Some q ->
  ((initialCountRef (app w) + 1 <? 5)%nat && needsInitialQuestions (app w))%bool
  = false ->
  answerAccepted env (calls w ++ [ReqCheckinAnswer (qid q) value]) = Some data ->
  exists w' : World,
    submitAnswer env (app w) value w = (Returned tt, w')
    /\ Frame checkinKept notCheckin notWake (closed env (qid q) value data w) w'.
Proof.
  intros Hq Hlast Hdata.
  destruct (recorded_keeps env (qid q) value data w) as (Href & _).
  unfold submitAnswer. rewrite Hq.
  unfold tryCatch, bind at 1. rewrite answerQuestion_outcome, Hdata.
  unfold bind at 1, readRef. rewrite Href, Hlast.
  do 5 (unfold bind at 1; unfold set at 1).
  cbn [app calls timers clockReads].
  change {| app := _; calls := _; timers := _; clockReads := _ |}
    with (closed env (qid q) value data w).
  match goal with
  | |- context [bind (createMessage env ?t) ?k] =>
      remember (bind (createMessage env t) k) as rest eqn:Hrest
  end.
  assert (Hframe : Respects (Frame checkinKept notCheckin notWake) rest)
    by (subst rest; aside).
  clear Hrest. pose proof (Hframe (closed env (qid q) value data w)) as Hk.
  destruct (rest (closed env (qid q) value data w)) as [[[]|] w1];
    cbn [snd] in Hk.
  - exists w1. split; [reflexivity | exact Hk].
  - assert (Hsay : Respects (Frame checkinKept notCheckin notWake) (say env 1 apology))
      by aside.
    eexists. split; [reflexivity|].
    eapply (Frame_trans _ _ _ checkinKept_trans); [exact Hk | apply Hsay].
Qed.

Lemma rejected_answer_only_apologises_witness :
  exists w' : World,
    submitAnswer (envWith (planning "")) (app laterCheckin) 4 laterCheckin
    = (Returned tt, w')
    /\ calls w' = [ReqCheckinAnswer "q6" 4]
    /\ isQuestionnaireOpen (app w') = true
    /\ List.length (messages (app w')) = 2%nat.
Proof.
  destruct (rejected_answer_only_apologises (envWith (planning ""))
              laterCheckin
              {| qid := "q6"; text := "How rested do you feel?" |} 4)
    as (w' & Hrun & Hcalls & _ & Happ).
  - reflexivity.
  - reflexivity.
  - exists w'. split; [exact Hrun|]. split; [exact Hcalls|].
    rewrite Happ. split; reflexivity.
Defined.

(** X14: an answer of the initial assessment brings up the next
    question.  While fewer than five answers are counted, an accepted
    answer followed by an offered question makes [submitAnswer] return
    with the answer and then the question fetched, the count one higher,
    the new question current and the score of the answer, if it has one,
    stored; the questionnaire stays as open as it was, the assessment is
    still due and the chat has no new message. *)
Theorem initial_answer_brings_the_next_question (env : Env) (w : World)
    (q q' : NextQ) (value : Z) (data : AnswerData) :
  currentQ (app w) = Some q ->
  needsInitialQuestions (app w) = true ->
  (initialCountRef (app w) + 1 < 5)%nat ->
  answerAccepted env (calls w ++ [ReqCheckinAnswer (qid q) value]) = Some data ->
  questionOffered env
    (calls w ++ [ReqCheckinAnswer (qid q) value; ReqCheckinNext]) = Some q' ->
  exists w' : World,
    submitAnswer env (app w) value w = (Returned tt, w')
    /\ calls w'
       = (calls w ++ [ReqCheckinAnswer (qid q) value; ReqCheckinNext])%list
    /\ currentQ (app w') = Some q'
    /\ initialCountRef (app w') = (initialCountRef (app w) + 1)%nat
    /\ isQuestionnaireOpen (app w') = isQuestionnaireOpen (app w)
    /\ needsInitialQuestions (app w') = true
    /\ messages (app w') = messages (app w)
    /\ burnoutScore (app w')
       = match bs data with
         | Some score => Some score
         | None => burnoutScore (app w)
         end.
Proof.
  intros Hq Hinit Hcount Hdata Hnext.
  rewrite (submitAnswer_initial env w q value data Hq Hinit Hcount Hdata).
  unfold tryCatch. rewrite loadNextQuestion_outcome.
  assert (Hlog : (calls (counted env (qid q) value data w) ++ [ReqCheckinNext]
                  = calls w ++ [ReqCheckinAnswer (qid q) value; ReqCheckinNext])%list).
  { unfold counted, recorded.
    destruct (0 <? next_interval_min data)%Z; cbn [calls];
      rewrite <- app_assoc; reflexivity. }
  rewrite Hlog, Hnext.
  eexists. split; [reflexivity|]. cbn [calls app].
  split; [reflexivity|].
  unfold counted, recorded, scored.
  destruct (bs data); destruct (0 <? next_interval_min data)%Z; cbn;
    repeat split; assumption.
Qed.

Lemma initial_answer_brings_the_next_question_witness :
  exists w' : World,
    submitAnswer (envWith interviewer) (app firstQuestion) 3 firstQuestion
    = (Returned tt, w')
    /\ currentQ (app w') = Some {| qid := "q1"; text := "How are you?" |}
    /\ initialCountRef (app w') = 1%nat.
Proof.
  destruct (initial_answer_brings_the_next_question (envWith interviewer)
              firstQuestion {| qid := "q0"; text := "How are you?" |}
              {| qid := "q1"; text := "How are you?" |} 3
              {| bs := Some (1 # 2)%Q; next_interval_min := 0 |})
    as (w' & Hrun & _ & Hq & Hcount & _).
  - reflexivity.
  - reflexivity.
  - cbn. lia.
  - reflexivity.
  - vm_compute. reflexivity.
  - exists w'. split; [exact Hrun|]. split; [exact Hq | exact Hcount].
Defined.

(** X15: an answer that was recorded can be reported as lost.  In the
    initial assessment, when the backend accepts the answer and the fetch
    of the next question then fails, [submitAnswer] returns with the
    answer counted and its score stored, and yet the message it appends
    is the apology that the answer could not be recorded; the question
    shown is still the one just answered. *)
Theorem recorded_answer_is_reported_lost (env : Env) (w : World)
    (q : NextQ) (value : Z) (data : AnswerData) :
  currentQ (app w) = Some q ->
  needsInitialQuestions (app w) = true ->
  (initialCountRef (app w) + 1 < 5)%nat ->
  answerAccepted env (calls w ++ [ReqCheckinAnswer (qid q) value]) = Some data ->
  questionOffered env
    (calls w ++ [ReqCheckinAnswer (qid q) value; ReqCheckinNext]) = None ->
  exists (w' : World) (excuse : ChatMessage),
    submitAnswer env (app w) value w = (Returned tt, w')
    /\ calls w'
       = (calls w ++ [ReqCheckinAnswer (qid q) value; ReqCheckinNext])%list
    /\ initialCountRef (app w') = (initialCountRef (app w) + 1)%nat
    /\ burnoutScore (app w')
       = match bs data with
         | Some score => Some score
         | None => burnoutScore (app w)
         end
    /\ currentQ (app w') = Some q
    /\ isQuestionnaireOpen (app w') = isQuestionnaireOpen (app w)
    /\ messages (app w') = (messages (app w) ++ [excuse])%list
    /\ sender excuse = buddy
    /\ message excuse = apology.
Proof.
  intros Hq Hinit Hcount Hdata Hnext.
  rewrite (submitAnswer_initial env w q value data Hq Hinit Hcount Hdata).
  unfold tryCatch. rewrite loadNextQuestion_outcome.
  assert (Hlog : (calls (counted env (qid q) value data w) ++ [ReqCheckinNext]
                  = calls w ++ [ReqCheckinAnswer (qid q) value; ReqCheckinNext])%list).
  { unfold counted, recorded.
    destruct (0 <? next_interval_min data)%Z; cbn [calls];
      rewrite <- app_assoc; reflexivity. }
  rewrite Hlog, Hnext.
  unfold counted, recorded, scored.
  destruct (bs data); destruct (0 <? next_interval_min data)%Z;
    (eexists _, _; split; [reflexivity|]); cbn;
    rewrite <- ?app_assoc; repeat split; try assumption; reflexivity.
Qed.

Lemma recorded_answer_is_reported_lost_witness :
  exists (w' : World) (excuse : ChatMessage),
    submitAnswer (envAt JsDate.hostUTC) (app firstQuestion) 3 firstQuestion
    = (Returned tt, w')
    /\ initialCountRef (app w') = 1%nat
    /\ burnoutScore (app w') = Some (2 # 5)%Q
    /\ messages (app w') = (messages (app firstQuestion) ++ [excuse])%list
    /\ message excuse = apology.
Proof.
  destruct (recorded_answer_is_reported_lost (envAt JsDate.hostUTC)
              firstQuestion {| qid := "q0"; text := "How are you?" |} 3
              {| bs := Some (2 # 5)%Q; next_interval_min := 90 |})
    as (w' & excuse & Hrun & _ & Hcount & Hscore & _ & _ & Hmsgs & _ & Htext).
  - reflexivity.
  - reflexivity.
  - cbn. lia.
  - reflexivity.
  - reflexivity.
  - exists w', excuse. split; [exact Hrun|]. split; [exact Hcount|].
    split; [exact Hscore|]. split; [exact Hmsgs | exact Htext].
Defined.

(** What an event does after an answer that ends a check-in. *)
Lemma step_closing_world (env : Env) (w : World) (q : NextQ) (value : Z)
    (data : AnswerData) :
  isQuestionnaireOpen (app w) = true ->
  currentQ (app w) = Some q ->
  ((initialCountRef (app w) + 1 <? 5)%nat && needsInitialQuestions (app w))%bool
  = false ->
  answerAccepted env (calls w ++ [ReqCheckinAnswer (qid q) value]) = Some data ->
  exists w1 : World,
    Frame checkinKept notCheckin notWake (closed env (qid q) value data w) w1
    /\ step env (Answer value) w
       = snd (set (setQuestionnaireInProgress false) w1).
Proof.
  intros Hopen Hcur Hlast Hdata.
  destruct (submitAnswer_closing env w q value data Hcur Hlast Hdata)
    as (w1 & Hrun & Hframe).
  exists w1. split; [exact Hframe|].
  destruct Hframe as ((Hc1 & _) & _).
  assert (Ho : isQuestionnaireOpen (app w1) = false)
    by (rewrite Hc1; reflexivity).
  unfold step, handler, onAnswer. rewrite Hopen, Hrun. cbn [snd].
  unfold effects. rewrite Ho, Hopen. cbn [Bool.eqb].
  unfold questionnaireEffect. rewrite Ho. reflexivity.
Qed.

(** *** The initial assessment as a run of events *)

Lemma step_checkin (env : Env) (w : World) :
  attentive env ->
  isQuestionnaireOpen (app w) = false ->
  questionsAvailable (app w) = true ->
  needsInitialQuestions (app w) = true ->
  assessing 0 (app (step env CheckIn w))
  /\ calls (step env CheckIn w) = (calls w ++ [ReqCheckinNext])%list.
Proof.
  intros [Hoffer _] Hclosed Havail Hinit.
  unfold step, handler, openCheckin. rewrite Havail. cbn [negb snd set app].
  unfold effects. cbn [app isQuestionnaireOpen setIsQuestionnaireOpen].
  rewrite Hclosed. cbn [Bool.eqb].
  unfold questionnaireEffect.
  cbn [app isQuestionnaireOpen setIsQuestionnaireOpen].
  unfold bind, set, tryCatch. cbn [app calls timers clockReads].
  rewrite loadNextQuestion_outcome.
  cbn [app calls timers clockReads].
  specialize (Hoffer (calls w ++ [ReqCheckinNext])%list).
  destruct (questionOffered env _) as [q|]; [|contradiction].
  cbn. repeat split; try assumption; discriminate.
Qed.

Lemma step_initial (env : Env) (k : nat) (value : Z) (w : World) :
  attentive env ->
  assessing k (app w) ->
  (k + 1 < 5)%nat ->
  assessing (S k) (app (step env (Answer value) w))
  /\ exists id,
       calls (step env (Answer value) w)
       = (calls w ++ [ReqCheckinAnswer id value; ReqCheckinNext])%list.
Proof.
  intros [Hoffer Haccept] (Hopen & Hinit & Hk & Hq) Hcount.
  destruct (currentQ (app w)) as [q|] eqn:Hcur; [|contradiction].
  specialize (Haccept (calls w ++ [ReqCheckinAnswer (qid q) value])%list).
  destruct (answerAccepted env _) as [data|] eqn:Hdata; [|contradiction].
  specialize (Hoffer (calls w ++ [ReqCheckinAnswer (qid q) value;
                                   ReqCheckinNext])%list).
  destruct (questionOffered env _) as [q'|] eqn:Hnext; [|contradiction].
  unfold step, handler, onAnswer. rewrite Hopen.
  assert (Hcount' : (initialCountRef (app w) + 1 < 5)%nat)
    by (rewrite Hk; exact Hcount).
  rewrite (submitAnswer_initial env w q value data Hcur Hinit Hcount' Hdata).
  unfold tryCatch. rewrite loadNextQuestion_outcome.
  assert (Hlog : (calls (counted env (qid q) value data w) ++ [ReqCheckinNext]
                  = calls w ++ [ReqCheckinAnswer (qid q) value; ReqCheckinNext])%list).
  { unfold counted, recorded.
    destruct (0 <? next_interval_min data)%Z; cbn [calls];
      rewrite <- app_assoc; reflexivity. }
  rewrite Hlog, Hnext. cbn [snd].
  destruct (counted_keeps env (qid q) value data w)
    as (Href' & Hopen' & Hinit' & _).
  unfold effects. cbn [app isQuestionnaireOpen setCurrentQ].
  rewrite Hopen', Hopen. cbn [Bool.eqb ret snd app].
  split.
  - unfold assessing.
    cbn [isQuestionnaireOpen needsInitialQuestions initialCountRef currentQ
         setCurrentQ].
    rewrite Hopen', Hinit', Href', Hopen, Hinit, Hk, Nat.add_1_r.
    repeat split. discriminate.
  - exists (qid q). reflexivity.
Qed.

Lemma step_closing (env : Env) (k : nat) (value : Z) (w : World) :
  attentive env ->
  assessing k (app w) ->
  (5 <= k + 1)%nat ->
  let w' := step env (Answer value) w in
  isQuestionnaireOpen (app w') = false
  /\ needsInitialQuestions (app w') = false
  /\ questionsAvailable (app w') = false
  /\ questionnaireInProgress (app w') = false
  /\ initialCountRef (app w') = S k
  /\ exists id new,
       calls w' = (calls w ++ ReqCheckinAnswer id value :: new)%list
       /\ forallb notCheckin new = true.
Proof.
  intros [Hoffer Haccept] (Hopen & Hinit & Hk & Hq) Hcount.
  destruct (currentQ (app w)) as [q|] eqn:Hcur; [|contradiction].
  specialize (Haccept (calls w ++ [ReqCheckinAnswer (qid q) value])%list).
  destruct (answerAccepted env _) as [data|] eqn:Hdata; [|contradiction].
  assert (Hlast : ((initialCountRef (app w) + 1 <? 5)%nat
                   && needsInitialQuestions (app w))%bool = false).
  { rewrite Hk. apply andb_false_intro1, Nat.ltb_ge. exact Hcount. }
  destruct (submitAnswer_closing env w q value data Hcur Hlast Hdata)
    as (w1 & Hrun & (Hc1 & Hc2 & Hc3 & Hc4 & _ & _ & _ & Hc8)
              & (new & Hcalls & Hnew) & _).
  assert (Hclosed : isQuestionnaireOpen (app w1) = false /\
                    needsInitialQuestions (app w1) = false /\
                    questionsAvailable (app w1) = false /\
                    initialCountRef (app w1) = S k).
  { rewrite Hc1, Hc2, Hc3, Hc8. unfold closed.
    cbn [app isQuestionnaireOpen needsInitialQuestions questionsAvailable
         initialCountRef setQuestionnaireInProgress setQuestionsAvailable
         setIsQuestionnaireOpen setNeedsInitialQuestions].
    destruct (counted_keeps env (qid q) value data w) as (Href & _).
    rewrite Href, Hk, Nat.add_1_r. repeat split. }
  destruct Hclosed as (Ho & Hn & Ha & Hr).
  assert (Hstep : step env (Answer value) w
                  = snd (set (setQuestionnaireInProgress false) w1)).
  { unfold step, handler, onAnswer. rewrite Hopen, Hrun. cbn [snd].
    unfold effects. rewrite Ho, Hopen. cbn [Bool.eqb].
    unfold questionnaireEffect. rewrite Ho. reflexivity. }
  cbv zeta. rewrite Hstep. cbn.
  repeat split; try assumption.
  exists (qid q), new. rewrite Hcalls. split; [|exact Hnew].
  unfold closed, counted, recorded.
  destruct (0 <? next_interval_min data)%Z; cbn [calls];
    rewrite <- app_assoc; reflexivity.
Qed.

Lemma run_cons (env : Env) (ev : Event) (evs : list Event) (w : World) :
  run env (ev :: evs) w = run env evs (step env ev w).
Proof. reflexivity. Qed.

Lemma run_app (env : Env) (evs evs' : list Event) (w : World) :
  run env (evs ++ evs') w = run env evs' (run env evs w).
Proof. unfold run. apply fold_left_app. Qed.

(** The answers of the assessment that are not the last. *)
Lemma run_initial (env : Env) :
  attentive env ->
  forall (values : list Z) (k : nat) (w : World),
    assessing k (app w) ->
    (k + List.length values < 5)%nat ->
    let w' := run env (map Answer values) w in
    assessing (k + List.length values) (app w')
    /\ exists new,
         calls w' = (calls w ++ new)%list
         /\ answerValues new = values
         /\ List.length (filter isNext new) = List.length values.
Proof.
  intros Hatt. induction values as [|v values IH]; intros k w Hk Hlen.
  - cbn. rewrite Nat.add_0_r. split; [exact Hk|].
    exists []. rewrite app_nil_r. repeat split.
  - cbn [List.length map] in *. rewrite run_cons.
    destruct (step_initial env k v w Hatt Hk) as (Hk1 & id & Hcalls1); [lia|].
    destruct (IH (S k) (step env (Answer v) w) Hk1) as (Hk2 & new & Hcalls & Hvals & Hnext);
      [lia|].
    cbv zeta. replace (k + S (List.length values))%nat
      with (S k + List.length values)%nat by lia.
    split; [exact Hk2|].
    exists ([ReqCheckinAnswer id v; ReqCheckinNext] ++ new)%list.
    rewrite Hcalls, Hcalls1, <- app_assoc.
    split; [reflexivity|]. split.
    + unfold answerValues in *. cbn [flat_map List.app].
      rewrite Hvals. reflexivity.
    + cbn [filter isNext List.app List.length]. rewrite Hnext. reflexivity.
Qed.

Lemma notCheckin_none (new : list Request) :
  forallb notCheckin new = true ->
  answerValues new = [] /\ filter isNext new = [].
Proof.
  induction new as [|r new IH]; [split; reflexivity|].
  cbn [forallb]. intros H. apply andb_prop in H. destruct H as [Hr Hnew].
  destruct (IH Hnew) as [IH1 IH2]. unfold answerValues in *.
  destruct r; try discriminate; cbn [flat_map filter isNext List.app];
    rewrite IH1, IH2; split; reflexivity.
Qed.

(** X16: the initial assessment takes five answers.  With a backend that
    offers a question and accepts an answer whenever asked, from a closed
    questionnaire with questions available and the assessment due: a
    click on the check-in button followed by five answers ends with the
    questionnaire closed, the assessment done and questions unavailable;
    the answers sent carry the five values in order, and five questions
    were fetched, the first on opening and one after each of the first
    four answers.  After the click and any fewer answers the
    questionnaire is still open, on its next question. *)
Theorem initial_assessment_takes_five_answers (env : Env) (w : World)
    (values : list Z) :
  attentive env ->
  isQuestionnaireOpen (app w) = false ->
  questionsAvailable (app w) = true ->
  needsInitialQuestions (app w) = true ->
  List.length values = 5%nat ->
  let w' := run env (CheckIn :: map Answer values) w in
  isQuestionnaireOpen (app w') = false
  /\ needsInitialQuestions (app w') = false
  /\ questionsAvailable (app w') = false
  /\ initialCountRef (app w') = 5%nat
  /\ (exists new,
        calls w' = (calls w ++ new)%list
        /\ answerValues new = values
        /\ List.length (filter isNext new) = 5%nat)
  /\ forall k, (k < 5)%nat ->
       assessing k (app (run env (CheckIn :: map Answer (firstn k values)) w)).
Proof.
  intros Hatt Hclosed Havail Hinit Hlen.
  destruct (step_checkin env w Hatt Hclosed Havail Hinit) as (H0 & Hcalls0).
  assert (Hprefix : forall k, (k < 5)%nat ->
            let wk := run env (map Answer (firstn k values)) (step env CheckIn w) in
            assessing k (app wk)
            /\ exists new,
                 calls wk = (calls (step env CheckIn w) ++ new)%list
                 /\ answerValues new = firstn k values
                 /\ List.length (filter isNext new) = k).
  { intros k Hk.
    pose proof (run_initial env Hatt (firstn k values) 0 (step env CheckIn w) H0)
      as Hrun.
    rewrite length_firstn, Hlen, Nat.min_l in Hrun by lia.
    apply Hrun. lia. }
  cbv zeta. split; [|split; [|split; [|split; [|split]]]];
    try (intros k Hk; rewrite run_cons; apply (Hprefix k Hk)).
  all: rewrite run_cons.
  all: rewrite <- (firstn_skipn 4 values), map_app, run_app.
  all: destruct (Hprefix 4%nat) as (H4 & new4 & Hcalls4 & Hvals4 & Hnext4);
       [lia|].
  all: assert (Hlast : exists v, skipn 4 values = [v])
         by (do 5 (destruct values as [|? values]; try discriminate);
             destruct values; [eexists; reflexivity | discriminate]).
  all: destruct Hlast as (v & Hv); rewrite Hv; cbn [map].
  all: set (w4 := run env (map Answer (firstn 4 values)) (step env CheckIn w))
         in *.
  all: destruct (step_closing env 4 v w4 Hatt H4)
         as (Hc1 & Hc2 & Hc3 & Hc4 & Hc5 & id & new & Hcalls & Hnew); [lia|].
  all: change (run env [Answer v] w4) with (step env (Answer v) w4).
  all: try assumption.
  destruct (notCheckin_none new Hnew) as [Hnone1 Hnone2].
  exists ([ReqCheckinNext] ++ new4 ++ ReqCheckinAnswer id v :: new)%list.
  rewrite Hcalls, Hcalls4, Hcalls0, <- !app_assoc.
  split; [reflexivity|]. split.
  - unfold answerValues in *. cbn [flat_map List.app].
    rewrite flat_map_app. cbn [flat_map].
    rewrite Hvals4, Hnone1. reflexivity.
  - cbn [filter isNext List.app]. rewrite filter_app. cbn [filter isNext].
    rewrite Hnone2, app_nil_r. cbn [List.length]. rewrite Hnext4. reflexivity.
Qed.

Lemma initial_assessment_takes_five_answers_witness :
  let w' := run (envWith interviewer)
              (CheckIn :: map Answer [3; 4; 2; 5; 1]%Z) opening in
  isQuestionnaireOpen (app w') = false
  /\ needsInitialQuestions (app w') = false
  /\ initialCountRef (app w') = 5%nat.
Proof.
  destruct (initial_assessment_takes_five_answers (envWith interviewer)
              opening [3; 4; 2; 5; 1]%Z)
    as (Hopen & Hinit & _ & Hcount & _).
  - split; intros log; vm_compute; discriminate.
  - reflexivity.
  - reflexivity.
  - reflexivity.
  - reflexivity.
  - intros w'. split; [exact Hopen|]. split; [exact Hinit | exact Hcount].
Defined.

(** X17: closing the questionnaire and opening it again restarts the
    count.  In the initial assessment, with questions still available
    and a backend that offers questions, a click on [Close] followed by a
    click on the check-in button leaves the questionnaire open on a
    fresh question with no answer counted, however many were counted
    before; one question is fetched on the way, and the assessment is
    still due. *)
Theorem reopening_restarts_the_count (env : Env) (k : nat) (w : World) :
  attentive env ->
  assessing k (app w) ->
  questionsAvailable (app w) = true ->
  let w' := run env [CloseCheckIn; CheckIn] w in
  assessing 0 (app w')
  /\ calls w' = (calls w ++ [ReqCheckinNext])%list
  /\ questionsAvailable (app w') = true.
Proof.
  intros Hatt (Hopen & Hinit & Hk & Hq) Havail. cbv zeta.
  rewrite run_cons.
  assert (Hclose : step env CloseCheckIn w
                   = {| app := setQuestionnaireInProgress false
                                 (setIsQuestionnaireOpen false (app w));
                        calls := calls w; timers := timers w;
                        clockReads := clockReads w |}).
  { unfold step, handler. rewrite Hopen. cbn [snd set app].
    unfold effects. cbn [app isQuestionnaireOpen setIsQuestionnaireOpen].
    rewrite Hopen. cbn [Bool.eqb]. unfold questionnaireEffect.
    cbn [app isQuestionnaireOpen setIsQuestionnaireOpen]. reflexivity. }
  rewrite Hclose.
  change (run env [CheckIn] ?x) with (step env CheckIn x).
  match goal with
  | |- context [step env CheckIn ?x] =>
      destruct (step_checkin env x Hatt) as (Hzero & Hcalls);
        [reflexivity | exact Havail | exact Hinit |]
  end.
  split; [exact Hzero|]. split; [exact Hcalls|].
  clear Hzero Hcalls.
  unfold step, handler, openCheckin.
  cbn [app questionsAvailable setQuestionnaireInProgress
         setIsQuestionnaireOpen].
  rewrite Havail. cbn [negb snd set app].
  unfold effects. cbn [app isQuestionnaireOpen setIsQuestionnaireOpen
                         setQuestionnaireInProgress Bool.eqb].
  unfold questionnaireEffect.
  cbn [app isQuestionnaireOpen setIsQuestionnaireOpen].
  unfold bind, set, tryCatch. cbn [app calls timers clockReads].
  rewrite loadNextQuestion_outcome. cbn [app calls timers clockReads].
  destruct (questionOffered env _); cbn; exact Havail.
Qed.

Lemma reopening_restarts_the_count_witness :
  let env := envWith interviewer in
  let w := run env (CheckIn :: map Answer [3; 4]%Z) opening in
  initialCountRef (app w) = 2%nat
  /\ assessing 0 (app (run env [CloseCheckIn; CheckIn] w)).
Proof.
  intros env w.
  destruct (reopening_restarts_the_count env 2 w) as (Hzero & _).
  - split; intros log; vm_compute; discriminate.
  - vm_compute. repeat split. discriminate.
  - vm_compute. reflexivity.
  - split; [vm_compute; reflexivity | exact Hzero].
Defined.

Lemma shut_run (env : Env) (evs : list Event) :
  forall w, shut w -> shut (run env evs w).
Proof.
  induction evs as [|ev evs IH]; intros w Hshut; [exact Hshut|].
  rewrite run_cons. apply IH, shut_step, Hshut.
Qed.

(** X18: a check-in that ends without an interval never opens again.
    When the answer that ends a check-in is accepted with
    [next_interval_min] at zero or below, and no timer to make questions
    available is pending, the handler leaves questions unavailable with
    nothing queued to change that; then, whatever events follow and
    whatever the backend answers, questions stay unavailable, the
    questionnaire stays closed, and a click on the check-in button does
    nothing. *)
Theorem checkin_without_interval_never_reopens (env : Env) (w : World)
    (q : NextQ) (value : Z) (data : AnswerData) (evs : list Event) :
  isQuestionnaireOpen (app w) = true ->
  currentQ (app w) = Some q ->
  ((initialCountRef (app w) + 1 <? 5)%nat && needsInitialQuestions (app w))%bool
  = false ->
  answerAccepted env (calls w ++ [ReqCheckinAnswer (qid q) value]) = Some data ->
  (next_interval_min data <= 0)%Z ->
  forallb (fun timer => notWake (snd timer)) (timers w) = true ->
  let w' := run env (Answer value :: evs) w in
  questionsAvailable (app w') = false
  /\ isQuestionnaireOpen (app w') = false
  /\ forallb (fun timer => notWake (snd timer)) (timers w') = true
  /\ handler env CheckIn w' = (Returned tt, w').
Proof.
  intros Hopen Hcur Hlast Hdata Hmins Htimers.
  destruct (step_closing_world env w q value data Hopen Hcur Hlast Hdata)
    as (w1 & ((Hc1 & _ & Hc3 & _) & _ & queued & Hq & Hwake) & Hstep).
  assert (Hshut : shut (step env (Answer value) w)).
  { rewrite Hstep. cbn [snd set]. unfold shut.
    cbn [app timers questionsAvailable isQuestionnaireOpen
         setQuestionnaireInProgress].
    rewrite Hc1, Hc3, Hq.
    unfold closed, counted, recorded.
    apply Z.ltb_ge in Hmins. rewrite Hmins.
    cbn [app timers questionsAvailable isQuestionnaireOpen
         setQuestionnaireInProgress setQuestionsAvailable
         setIsQuestionnaireOpen].
    rewrite forallb_app, Htimers, Hwake. repeat split. }
  cbv zeta. rewrite run_cons.
  destruct (shut_run env evs _ Hshut) as (Ha & Ho & Ht).
  repeat split; try assumption.
  unfold handler, openCheckin. rewrite Ha. reflexivity.
Qed.

Lemma checkin_without_interval_never_reopens_witness :
  let env := envWith interviewer in
  let w := run env (CheckIn :: map Answer [3; 4; 2; 5]%Z) opening in
  let w' := run env [Answer 1%Z; CheckIn; Typed "hello"; Send; CheckIn] w in
  questionsAvailable (app w') = false
  /\ isQuestionnaireOpen (app w') = false.
Proof.
  intros env w.
  destruct (checkin_without_interval_never_reopens env w
              {| qid := "q4"; text := "How are you?" |} 1%Z
              {| bs := Some (1 # 2)%Q; next_interval_min := 0 |}
              [CheckIn; Typed "hello"; Send; CheckIn])
    as (Ha & Ho & _).
  - vm_compute. reflexivity.
  - vm_compute. reflexivity.
  - vm_compute. reflexivity.
  - vm_compute. reflexivity.
  - cbn. lia.
  - vm_compute. reflexivity.
  - intros w'. split; [exact Ha | exact Ho].
Defined.

End CheckinRunFacts.

(** ** Onboarding *)

Module OnboardingFacts.
Import Onboarding.
Local Open Scope string_scope.

Lemma includes_In (l : list string) (v : string) :
  includes l v = true <-> In v l.
Proof.
  unfold includes. rewrite existsb_exists. split.
  - intros (x & Hin & Heq). apply String.eqb_eq in Heq. subst. exact Hin.
  - intros Hin. exists v. split; [exact Hin | apply String.eqb_refl].
Qed.

Lemma includes_false (l : list string) (v : string) :
  includes l v = false <-> ~ In v l.
Proof.
  rewrite <- includes_In. destruct (includes l v); split; congruence.
Qed.

Lemma get_put (f : Field) (v : list string) (d : OnboardingData) :
  get f (put f v d) = v.
Proof. destruct f; reflexivity. Qed.

Lemma get_put_other (f g : Field) (v : list string) (d : OnboardingData) :
  f <> g -> get g (put f v d) = get g d.
Proof. destruct f, g; intros H; try reflexivity; contradiction. Qed.

Lemma filter_out_In (l : list string) (v u : string) :
  In u (filter (fun item => negb (String.eqb item v)) l) <-> In u l /\ u <> v.
Proof.
  rewrite filter_In, negb_true_iff, String.eqb_neq. reflexivity.
Qed.

Lemma filter_out_absent (l : list string) (v : string) :
  ~ In v l -> filter (fun item => negb (String.eqb item v)) l = l.
Proof.
  induction l as [|x l IH]; intros Hnot; [reflexivity|]. simpl.
  destruct (String.eqb x v) eqn:E.
  - apply String.eqb_eq in E. subst. exfalso. apply Hnot. left. reflexivity.
  - simpl. rewrite IH; [reflexivity|]. intros H. apply Hnot. right. exact H.
Qed.

(** X19: a click on an option badge toggles that option and nothing
    else.  After [handleMultiSelect(field, value)] the list of the field
    holds the value exactly when it did not before; every other value is
    in it exactly when it was, and in the same order; the name, the age
    and the other two lists are as they were; and a list without
    repetition stays so.  A second click on an option that was not
    selected restores the list, while a second click on one that was
    selected leaves it at the end of the list. *)
Theorem option_click_toggles_one_option (f : Field) (value : string)
    (d : OnboardingData) :
  let d' := handleMultiSelect f value d in
  includes (get f d') value = negb (includes (get f d) value)
  /\ (forall other, other <> value ->
        includes (get f d') other = includes (get f d) other)
  /\ filter (fun item => negb (String.eqb item value)) (get f d')
     = filter (fun item => negb (String.eqb item value)) (get f d)
  /\ name d' = name d /\ age d' = age d
  /\ (forall g, g <> f -> get g d' = get g d)
  /\ (NoDup (get f d) -> NoDup (get f d'))
  /\ get f (handleMultiSelect f value d')
     = if includes (get f d) value then
         (filter (fun item => negb (String.eqb item value)) (get f d)
          ++ [value])%list
       else get f d.
Proof.
  cbv zeta. unfold handleMultiSelect. rewrite !get_put.
  set (l := get f d).
  set (out := filter (fun item => negb (String.eqb item value)) l).
  assert (Hout : includes out value = false).
  { apply includes_false. unfold out. rewrite filter_out_In. tauto. }
  assert (Hidem : filter (fun item => negb (String.eqb item value)) out = out).
  { apply filter_out_absent, includes_false, Hout. }
  destruct (includes l value) eqn:Hin.
  - rewrite Hout.
    repeat split; try (destruct f; reflexivity).
    + intros other Hother.
      destruct (includes l other) eqn:E.
      * apply includes_In. apply includes_In in E.
        unfold out. rewrite filter_out_In. tauto.
      * apply includes_false. apply includes_false in E.
        unfold out. rewrite filter_out_In. tauto.
    + exact Hidem.
    + intros g Hg. apply get_put_other. congruence.
    + intros Hnd. apply NoDup_filter, Hnd.
  - assert (Hnow : includes (l ++ [value]) value = true).
    { apply includes_In, in_or_app. right. left. reflexivity. }
    rewrite Hnow.
    repeat split; try (destruct f; reflexivity).
    + intros other Hother.
      destruct (includes l other) eqn:E.
      * apply includes_In. apply includes_In in E.
        apply in_or_app. left. exact E.
      * apply includes_false. apply includes_false in E.
        intros H. apply in_app_or in H. destruct H as [H|[H|[]]];
          [contradiction | congruence].
    + rewrite filter_app. simpl. rewrite String.eqb_refl. simpl.
      rewrite app_nil_r. reflexivity.
    + intros g Hg. apply get_put_other. congruence.
    + intros Hnd. apply NoDup_app; [exact Hnd | repeat constructor; intros [] |].
      intros x Hx [Hv|[]]. subst x. apply includes_false in Hin. contradiction.
    + rewrite filter_app. simpl. rewrite String.eqb_refl. simpl.
      rewrite app_nil_r. apply filter_out_absent, includes_false, Hin.
Qed.

Lemma option_click_toggles_one_option_witness :
  let d := handleMultiSelect Goals "Manage anxiety" (data start) in
  get Goals (handleMultiSelect Goals "Stress less" d)
  = ["Manage anxiety"; "Stress less"]
  /\ NoDup (get Goals (handleMultiSelect Goals "Stress less" d))
  /\ get Goals
       (handleMultiSelect Goals "Manage anxiety"
          (handleMultiSelect Goals "Manage anxiety"
             (handleMultiSelect Goals "Stress less" d)))
     = ["Stress less"; "Manage anxiety"].
Proof.
  intros d.
  destruct (option_click_toggles_one_option Goals "Stress less" d)
    as (_ & _ & _ & _ & _ & _ & Hnd & _).
  split; [reflexivity|]. split.
  - apply Hnd. repeat constructor; simpl; intuition discriminate.
  - reflexivity.
Defined.

Lemma toggled_ok (l opts : list string) (v : string) :
  incl l opts -> NoDup l -> In v opts ->
  let l' := if includes l v
            then filter (fun item => negb (String.eqb item v)) l
            else (l ++ [v])%list in
  incl l' opts /\ NoDup l'.
Proof.
  intros Hincl Hnd Hv. cbv zeta.
  destruct (includes l v) eqn:E.
  - split; [|apply NoDup_filter, Hnd].
    intros x Hx. apply filter_In in Hx. apply Hincl, Hx.
  - apply includes_false in E. split.
    + intros x Hx. apply in_app_or in Hx.
      destruct Hx as [Hx|[Hx|[]]]; [apply Hincl, Hx | subst; exact Hv].
    + apply NoDup_app; [exact Hnd | repeat constructor; intros [] |].
      intros x Hx [Hxv|[]]. subst x. contradiction.
Qed.

Lemma length_positive (s : string) :
  (0 <? String.length s)%nat = true -> s <> "".
Proof. destruct s; [discriminate | discriminate]. Qed.

Lemma list_positive {A : Type} (l : list A) :
  (0 <? List.length l)%nat = true -> l <> [].
Proof. destruct l; discriminate. Qed.

Ltac no_call := intros ? Hcall; cbn in Hcall; discriminate Hcall.

Ltac sound_now :=
  unfold sound, handleNext;
  cbn -[peaceOptions freeDayOptions goalOptions ageRanges includes];
  repeat split;
  first [ assumption | lia | (intros _; assumption) | (intros; lia) | idtac ].

(** One click keeps the cells sound, and data handed to [onComplete] is
    complete. *)
Lemma click_sound (c : Click) (s : Flow) :
  sound s ->
  sound (fst (click c s))
  /\ forall d, snd (click c s) = Some d -> answeredAll d.
Proof.
  destruct s as [n d].
  intros (Hn & Hage & (Hp1 & Hp2) & (Hf1 & Hf2) & (Hg1 & Hg2)
          & H1 & H2 & H3 & H4).
  cbn [currentStep data] in *.
  assert (Hcases : (n = 0 \/ n = 1 \/ n = 2 \/ n = 3 \/ n = 4)%nat) by lia.
  destruct Hcases as [-> | [-> | [-> | [-> | ->]]]];
    try specialize (H1 ltac:(lia)); try specialize (H2 ltac:(lia));
    try specialize (H3 ltac:(lia)); try specialize (H4 ltac:(lia)).
  - (* the name *)
    destruct c; cbn -[Nat.ltb]; try (split; [sound_now | no_call]).
    destruct (0 <? String.length (name d))%nat eqn:E;
      (split; [sound_now | no_call]).
    intros _. apply length_positive, E.
  - (* the age *)
    destruct c; cbn -[Nat.ltb includes ageRanges];
      try (split; [sound_now | no_call]).
    + destruct (includes ageRanges value) eqn:E;
        (split; [sound_now | no_call]).
      right. apply includes_In, E.
    + destruct (0 <? String.length (age d))%nat eqn:E;
        (split; [sound_now | no_call]).
      intros _. apply length_positive, E.
  - (* what puts the mind at peace *)
    destruct c; cbn -[Nat.ltb includes peaceOptions];
      try (split; [sound_now | no_call]).
    + destruct (includes peaceOptions option) eqn:E;
        (split; [sound_now | no_call]);
        apply (toggled_ok (peaceActivities d) peaceOptions option);
        try assumption; apply includes_In, E.
    + destruct (0 <? List.length (peaceActivities d))%nat eqn:E;
        (split; [sound_now | no_call]).
      intros _. apply list_positive, E.
  - (* the free day *)
    destruct c; cbn -[Nat.ltb includes freeDayOptions];
      try (split; [sound_now | no_call]).
    + destruct (includes freeDayOptions option) eqn:E;
        (split; [sound_now | no_call]);
        apply (toggled_ok (freeDayActivities d) freeDayOptions option);
        try assumption; apply includes_In, E.
    + destruct (0 <? List.length (freeDayActivities d))%nat eqn:E;
        (split; [sound_now | no_call]).
      intros _. apply list_positive, E.
  - (* the goal *)
    destruct c; cbn -[Nat.ltb includes goalOptions];
      try (split; [sound_now | no_call]).
    + destruct (includes goalOptions option) eqn:E;
        (split; [sound_now | no_call]);
        apply (toggled_ok (goals d) goalOptions option);
        try assumption; apply includes_In, E.
    + destruct (0 <? List.length (goals d))%nat eqn:E;
        [|split; [sound_now | no_call]].
      split; [sound_now|].
      intros d' Hd'. injection Hd' as <-.
      unfold answeredAll. repeat split; try assumption.
      * destruct Hage as [Hage|Hage]; [contradiction | exact Hage].
      * apply list_positive, E.
Qed.

Lemma visit_snoc (actions : list Action) (a : Action) (p : Page) :
  visit (actions ++ [a]) p = act a (visit actions p).
Proof. unfold visit. rewrite fold_left_app. reflexivity. Qed.

Lemma start_sound : sound start.
Proof.
  unfold sound, start. cbn [currentStep data name age peaceActivities
                              freeDayActivities goals].
  split; [lia|]. split; [left; reflexivity|].
  repeat split; try lia; try apply NoDup_nil; intros x [].
Qed.

(** What holds of the page at every step. *)
Lemma page_sound (actions : list Action) :
  let p := visit actions entry in
  sound (flow p)
  /\ match appState p with
     | main => exists d, userData p = Some d /\ answeredAll d
     | _ => userData p = None
     end.
Proof.
  induction actions as [|a actions IH] using rev_ind.
  - split; [apply start_sound | reflexivity].
  - cbv zeta in *. rewrite visit_snoc.
    destruct IH as [Hflow Hdata].
    set (p := visit actions entry) in *.
    unfold act.
    destruct (appState p) eqn:Hstate; destruct a as [|c];
      try (rewrite Hstate; split; assumption).
    + split; [apply start_sound | exact Hdata].
    + destruct (click_sound c (flow p) Hflow) as [Hs Hd].
      destruct (click c (flow p)) as [s [d|]]; cbn in *.
      * split; [exact Hs|]. exists d. split; [reflexivity | apply Hd; reflexivity].
      * split; [exact Hs | exact Hdata].
Qed.

(** X20: onboarding ends with every question answered.  Whatever the
    user does on the welcome page and in the flow, the page always
    renders something; the step of the flow is one of the five, so the
    validity check always finds its question; and once the main screen
    is up, the data [onComplete] was called with, which is the data the
    main screen is given, has a name, one of the five age ranges, and for
    each of the three lists at least one of its own options, none
    twice. *)
Theorem onboarding_ends_with_every_answer (actions : list Action) :
  let p := visit actions entry in
  rendered p <> None
  /\ (currentStep (flow p) < List.length questions)%nat
  /\ isStepValid (currentStep (flow p)) (data (flow p)) <> None
  /\ match appState p with
     | main => exists d, userData p = Some d /\ answeredAll d
     | _ => userData p = None
     end.
Proof.
  cbv zeta. destruct (page_sound actions) as [Hflow Hdata].
  set (p := visit actions entry) in *.
  pose proof Hflow as (Hn & _).
  split; [|split; [exact Hn | split; [|exact Hdata]]].
  - unfold rendered. destruct (appState p); try discriminate.
    destruct Hdata as (d & -> & _). discriminate.
  - unfold isStepValid.
    assert (Hcases : (currentStep (flow p) = 0 \/ currentStep (flow p) = 1
                      \/ currentStep (flow p) = 2 \/ currentStep (flow p) = 3
                      \/ currentStep (flow p) = 4)%nat) by lia.
    destruct Hcases as [-> | [-> | [-> | [-> | ->]]]]; discriminate.
Qed.

End OnboardingFacts.

(** ** The burnout timer hook *)

Module BurnoutHookFacts.
Import BurnoutTimer BurnoutHook.

(** X21: the next check-in falls due between half an hour and four hours
    after the evaluation, sooner the higher the score.  After
    [updateBurnoutState] the due time lies 30 to 240 minutes after the
    clock reading it is computed from, whatever the score; of two scores
    the higher gives the earlier or the same due time; and the state and
    the stored copy carry the score, the time of the evaluation and the
    same due time. *)
Theorem next_checkin_due_within_bounds (now later : Z)
    (snapshot : BurnoutState) (newScore : R) (questionIds : list string)
    (h : Hook) :
  let h' := updateBurnoutState now later snapshot newScore questionIds h in
  exists due : Z,
    nextQuestionDue (burnoutState h') = Some due
    /\ (later + 30 * 60000 <= due <= later + 240 * 60000)%Z
    /\ (forall (higher : R) (due' : Z),
          (newScore <= higher)%R ->
          nextQuestionDue
            (burnoutState
               (updateBurnoutState now later snapshot higher questionIds h))
          = Some due' ->
          (due' <= due)%Z)
    /\ lastEval (burnoutState h') = Some now
    /\ score (burnoutState h') = newScore
    /\ option_map nextQuestionDue (stored h') = Some (Some due)
    /\ option_map lastEval (stored h') = Some (Some now).
Proof.
  cbv zeta. unfold updateBurnoutState. cbn.
  eexists. split; [reflexivity|].
  pose proof (BurnoutTimerFacts.interval_range newScore) as Hrange.
  split; [lia|]. split; [|repeat split].
  intros higher due' Hle Hdue. injection Hdue as <-.
  pose proof (BurnoutTimerFacts.interval_antitone newScore higher Hle).
  lia.
Qed.

Lemma next_checkin_due_within_bounds_witness :
  exists due : Z,
    nextQuestionDue
      (burnoutState
         (updateBurnoutState 1704150000000 1704150000001 initialState 50
            ["q1"]%string (mount None)))
    = Some due
    /\ (1704150000001 + 30 * 60000 <= due <= 1704150000001 + 240 * 60000)%Z.
Proof.
  destruct (next_checkin_due_within_bounds 1704150000000 1704150000001
              initialState 50 ["q1"]%string (mount None))
    as (due & Hdue & Hbounds & _).
  exists due. split; [exact Hdue | exact Hbounds].
Defined.

(** X22: when the check-in opens again.  Once five questions are
    completed, [updateBurnoutState] makes the hook report questions as
    unavailable, and a run of the polling callback at the time [t]
    reports them available exactly when [t] has reached the due time; so
    no poll within half an hour of the evaluation opens the check-in and
    any poll four hours after it does. *)
Theorem checkin_reopens_when_due (now later t : Z) (snapshot : BurnoutState)
    (newScore : R) (questionIds : list string) (h : Hook) :
  (5 <= List.length (questionsCompleted (burnoutState h))
        + List.length questionIds)%nat ->
  let h' := updateBurnoutState now later snapshot newScore questionIds h in
  available h' = false
  /\ available (tick t h')
     = (later + calculateNextInterval newScore * 60 * 1000 <=? t)%Z
  /\ ((t < later + 30 * 60000)%Z -> available (tick t h') = false)
  /\ ((later + 240 * 60000 <= t)%Z -> available (tick t h') = true).
Proof.
  intros Hdone. cbv zeta.
  pose proof (BurnoutTimerFacts.interval_range newScore) as Hrange.
  assert (Hneeds : needsInitialQuestions
                     (burnoutState
                        (updateBurnoutState now later snapshot newScore
                           questionIds h)) = false).
  { unfold needsInitialQuestions, updateBurnoutState.
    cbn [burnoutState questionsCompleted].
    rewrite length_app. apply Nat.ltb_ge. exact Hdone. }
  assert (Htick : available
                    (tick t (updateBurnoutState now later snapshot newScore
                               questionIds h))
                  = (later + calculateNextInterval newScore * 60 * 1000 <=? t)%Z).
  { unfold tick, polling. rewrite Hneeds.
    cbn [updateBurnoutState burnoutState nextQuestionDue negb].
    destruct (later + calculateNextInterval newScore * 60 * 1000 <=? t)%Z eqn:E.
    - reflexivity.
    - unfold available. rewrite Hneeds. reflexivity. }
  split; [unfold available; rewrite Hneeds; reflexivity|].
  split; [exact Htick|]. rewrite Htick. split; intros Ht.
  - apply Z.leb_gt. lia.
  - apply Z.leb_le. lia.
Qed.

Lemma checkin_reopens_when_due_witness :
  let h := updateBurnoutState 1704150000000 1704150000001 initialState 50
             ["q1"; "q2"; "q3"; "q4"; "q5"]%string (mount None) in
  available h = false
  /\ available (tick (1704150000001 + 135 * 60000) h) = true.
Proof.
  destruct (checkin_reopens_when_due 1704150000000 1704150000001
              (1704150000001 + 135 * 60000) initialState 50
              ["q1"; "q2"; "q3"; "q4"; "q5"]%string (mount None))
    as (Hshut & Hopen & _).
  - cbn. lia.
  - intros h. split; [exact Hshut|].
    subst h. rewrite Hopen, BurnoutTimerFacts.interval_at_50.
    reflexivity.
Defined.

End BurnoutHookFacts.

(** ** Words, prompts and labels *)

Module ReadingFacts.
Import JsString MainApp App Views Reading.
Local Open Scope string_scope.

Lemma matchIgnoreCase_spec (w : string) :
  forall s r : string,
    matchIgnoreCase w s = Some r
    <-> exists hit, s = hit ++ r /\ lowerAll hit = w.
Proof.
  induction w as [|a w IH]; intros s r; simpl.
  - split.
    + intros H. injection H as <-. exists "". split; reflexivity.
    + intros (hit & -> & Hhit). destruct hit; [reflexivity | discriminate].
  - destruct s as [|b s].
    + split; [discriminate|].
      intros (hit & Hs & Hhit). destruct hit; discriminate.
    + destruct (Ascii.eqb a (lowerAscii b)) eqn:E.
      * apply Ascii.eqb_eq in E. rewrite IH. split.
        -- intros (hit & -> & <-). exists (String b hit).
           simpl. rewrite E. split; reflexivity.
        -- intros (hit & Hs & Hhit). destruct hit as [|c hit]; [discriminate|].
           simpl in Hs, Hhit. injection Hs as <- ->. injection Hhit as _ <-.
           exists hit. split; reflexivity.
      * split; [discriminate|].
        intros (hit & Hs & Hhit). destruct hit as [|c hit]; [discriminate|].
        simpl in Hs, Hhit. injection Hs as <- _. injection Hhit as Hc _.
        rewrite Hc, Ascii.eqb_refl in E. discriminate.
Qed.

Lemma intentWordAt_spec (s : string) :
  intentWordAt s = true
  <-> exists hit rest,
        s = hit ++ rest /\ In (lowerAll hit) intentWords
        /\ startsInWord rest = false.
Proof.
  unfold intentWordAt. rewrite existsb_exists. split.
  - intros (w & Hw & Hmatch).
    destruct (matchIgnoreCase w s) as [r|] eqn:E; [|discriminate].
    apply matchIgnoreCase_spec in E. destruct E as (hit & -> & <-).
    exists hit, r. repeat split; [exact Hw|].
    destruct r; [reflexivity|]. simpl. apply negb_true_iff, Hmatch.
  - intros (hit & rest & -> & Hw & Hrest).
    exists (lowerAll hit). split; [exact Hw|].
    assert (E : matchIgnoreCase (lowerAll hit) (hit ++ rest) = Some rest)
      by (apply matchIgnoreCase_spec; exists hit; split; reflexivity).
    rewrite E. destruct rest; [reflexivity|].
    simpl in Hrest. rewrite Hrest. reflexivity.
Qed.

Lemma intentFrom_spec (s : string) :
  forall afterWord : bool,
    intentFrom afterWord s = true
    <-> exists before hit rest,
          s = before ++ hit ++ rest
          /\ In (lowerAll hit) intentWords
          /\ match lastChar before with
             | Some c => isWordChar c
             | None => afterWord
             end = false
          /\ startsInWord rest = false.
Proof.
  induction s as [|c s IH]; intros afterWord.
  - split.
    + cbn [intentFrom]. rewrite orb_false_r. intros H.
      apply andb_prop in H. destruct H as [_ H]. discriminate.
    + intros (before & hit & rest & Hs & Hw & _).
      destruct before; [|discriminate]. destruct hit; [|discriminate].
      simpl in Hw. exfalso. clear - Hw.
      repeat (destruct Hw as [Hw|Hw]; [discriminate|]). exact Hw.
  - cbn [intentFrom]. rewrite orb_true_iff, andb_true_iff, negb_true_iff.
    rewrite intentWordAt_spec, IH. split.
    + intros [[Hb (hit & rest & Hs & Hw & Hrest)]
             | (before & hit & rest & Hs & Hw & Hbefore & Hrest)].
      * exists "", hit, rest. repeat split; assumption.
      * exists (String c before), hit, rest. rewrite Hs.
        repeat split; try assumption.
        cbn [lastChar]. destruct (lastChar before); exact Hbefore.
    + intros (before & hit & rest & Hs & Hw & Hbefore & Hrest).
      destruct before as [|c' before].
      * left. split; [exact Hbefore|]. exists hit, rest.
        repeat split; assumption.
      * right. simpl in Hs. injection Hs as <- ->.
        exists before, hit, rest. repeat split; try assumption.
        cbn [lastChar] in Hbefore. destruct (lastChar before); exact Hbefore.
Qed.

(** X23: what counts as a request to plan.  [wantsSchedulingIntent]
    holds of a text exactly when one of the words plan, schedule, add,
    block, book and insert stands in it in any mix of upper and lower
    case, with no letter, digit or underscore right before it and none
    right after it. *)
Theorem planning_is_asked_by_a_whole_word (s : string) :
  wantsSchedulingIntent s = true <-> namesPlanning s.
Proof.
  unfold wantsSchedulingIntent, namesPlanning, endsInWord.
  rewrite intentFrom_spec. split;
    intros (before & hit & rest & Hs & Hw & Hbefore & Hrest);
    exists before, hit, rest; repeat split; assumption.
Qed.

Lemma planning_is_asked_by_a_whole_word_witness :
  wantsSchedulingIntent "Could you PLAN, please?" = true
  /\ ~ namesPlanning "planning ahead".
Proof.
  split.
  - apply (proj2 (planning_is_asked_by_a_whole_word "Could you PLAN, please?")).
    exists "Could you ", "PLAN", ", please?".
    repeat split. left. reflexivity.
  - intros H.
    apply (proj2 (planning_is_asked_by_a_whole_word "planning ahead")) in H.
    vm_compute in H. discriminate H.
Defined.

Lemma append_assoc (a b c : string) : (a ++ b) ++ c = a ++ b ++ c.
Proof. induction a as [|x a IH]; simpl; [reflexivity | rewrite IH; reflexivity]. Qed.

Lemma append_nil_r (a : string) : a ++ "" = a.
Proof. induction a as [|x a IH]; simpl; [reflexivity | rewrite IH; reflexivity]. Qed.

Lemma join_holds (sep : string) (parts : list string) (p : string) :
  In p parts -> exists a b, join sep parts = a ++ p ++ b.
Proof.
  induction parts as [|q parts IH]; intros Hin; [destruct Hin|].
  destruct Hin as [-> | Hin].
  - destruct parts as [|q' parts].
    + exists "", "". simpl. rewrite append_nil_r. reflexivity.
    + exists "", (sep ++ join sep (q' :: parts)). reflexivity.
  - destruct parts as [|q' parts]; [destruct Hin|].
    destruct (IH Hin) as (a & b & Hjoin).
    exists (q ++ sep ++ a), b.
    change (join sep (q :: q' :: parts))
      with (q ++ sep ++ join sep (q' :: parts)).
    rewrite Hjoin, !append_assoc. reflexivity.
Qed.

(** X24: the prompt of a day shows every proposal of the day.  For a day
    that holds proposals the prompt opens with the label of the first of
    them between asterisks, closes with the question, and holds in
    between the line of every proposal of the day, with its summary. *)
Theorem day_prompt_lists_every_proposal (h : JsDate.Host)
    (first : DayProposal) (others : list DayProposal) (v : DayProposal) :
  let day := first :: others in
  In v day ->
  startsWith (dayPrompt h day) ("**" ++ dayLabel first ++ ":**" ++ newline)
  = true
  /\ (exists body,
        dayPrompt h day
        = body ++ newline ++ newline
          ++ "Approve activities for this day? (yes/no)"
        /\ includes body (activityLine h v) = true)
  /\ includes (dayPrompt h day) (activityLine h v) = true
  /\ includes (dayPrompt h day) (summary (proposal v)) = true.
Proof.
  intros day Hin.
  destruct (join_holds newline (map (activityLine h) day) (activityLine h v))
    as (a & b & Hjoin); [apply in_map, Hin|].
  assert (Hline : exists tail,
            activityLine h v = "- " ++ summary (proposal v) ++ tail).
  { unfold activityLine. eexists. reflexivity. }
  destruct Hline as (tail & Hline).
  remember (activityLine h v) as line eqn:Eline.
  remember ("**" ++ dayLabel first ++ ":**" ++ newline) as head eqn:Ehead.
  remember (newline ++ newline ++ "Approve activities for this day? (yes/no)")
    as question eqn:Equestion.
  assert (Hprompt : dayPrompt h day = head ++ (a ++ line ++ b) ++ question).
  { unfold dayPrompt, formatDayProposals, day. cbv zeta. fold day.
    rewrite Hjoin, Ehead, Equestion, !append_assoc. reflexivity. }
  rewrite Hprompt. clear Hprompt Hjoin Eline Ehead Equestion.
  split; [|split; [|split]].
  - unfold startsWith. rewrite ParserFacts.dropPrefix_app. reflexivity.
  - exists (head ++ a ++ line ++ b). split.
    + rewrite !append_assoc. reflexivity.
    + apply ParserFacts.includes_spec. exists (head ++ a), b.
      rewrite !append_assoc. reflexivity.
  - apply ParserFacts.includes_spec. exists (head ++ a), (b ++ question).
    rewrite !append_assoc. reflexivity.
  - apply ParserFacts.includes_spec. subst line.
    exists (head ++ a ++ "- "), (tail ++ b ++ question).
    rewrite !append_assoc. reflexivity.
Qed.

Lemma day_prompt_lists_every_proposal_witness :
  let day := [ {| proposal := Scenario.walk; dayLabel := "Tuesday" |};
               {| proposal := Scenario.nap; dayLabel := "Tuesday" |} ] in
  includes (dayPrompt JsDate.hostUTC day) "Nap" = true.
Proof.
  intros day.
  destruct (day_prompt_lists_every_proposal JsDate.hostUTC
              {| proposal := Scenario.walk; dayLabel := "Tuesday" |}
              [ {| proposal := Scenario.nap; dayLabel := "Tuesday" |} ]
              {| proposal := Scenario.nap; dayLabel := "Tuesday" |})
    as (_ & _ & _ & Hsummary).
  - right. left. reflexivity.
  - exact Hsummary.
Defined.

Lemma ceilDiv_spec (a : Z) :
  let m := ceilDiv a 60000 in
  ((m - 1) * 60000 < a <= m * 60000)%Z.
Proof.
  unfold ceilDiv. cbv zeta.
  pose proof (Z.div_mod (- a) 60000 ltac:(lia)) as Hdiv.
  pose proof (Z.mod_pos_bound (- a) 60000 ltac:(lia)) as Hmod.
  lia.
Qed.

(** X25: the label under the check-in button counts whole minutes, and
    only during a cooldown.  While the initial assessment is due the
    label asks for it, whatever the cooldown.  After it, with questions
    unavailable, the label reads "Next check in ~M min" where M is zero
    once the cooldown is over or when there is none, and otherwise the
    remaining time rounded up to the minute; computed within a minute of
    an answer that asked for [mins] minutes it shows [mins].  The clock
    is taken to read a time at or after the epoch. *)
Theorem checkin_label_counts_whole_minutes (s : AppState) (now : Z) :
  (0 <= now)%Z ->
  (needsInitialQuestions s = true ->
   checkinCTASecondaryText s now = "Complete initial questions")
  /\ (needsInitialQuestions s = false -> questionsAvailable s = true ->
      checkinCTASecondaryText s now = "New questions available")
  /\ (needsInitialQuestions s = false -> questionsAvailable s = false ->
      checkinCTASecondaryText s now
      = "Next check in ~" ++ intText (minsLeft (cooldownUntil s) now) ++ " min"
      /\ (0 <= minsLeft (cooldownUntil s) now)%Z
      /\ (cooldownUntil s = None -> minsLeft (cooldownUntil s) now = 0%Z)
      /\ forall expiry, cooldownUntil s = Some expiry ->
           ((expiry <= now)%Z -> minsLeft (cooldownUntil s) now = 0%Z)
           /\ ((now < expiry)%Z ->
               ((minsLeft (cooldownUntil s) now - 1) * 60000
                < expiry - now
                <= minsLeft (cooldownUntil s) now * 60000)%Z)
           /\ forall answered mins,
                (0 < mins)%Z ->
                expiry = (answered + mins * 60000)%Z ->
                (answered <= now < answered + 60000)%Z ->
                minsLeft (cooldownUntil s) now = mins).
Proof.
  intros Hepoch. unfold checkinCTASecondaryText.
  split; [intros ->; reflexivity|].
  split; [intros -> ->; reflexivity|].
  intros -> ->. cbn [negb]. split; [reflexivity|].
  split; [unfold minsLeft; destruct (cooldownUntil s) as [u|];
          [destruct (u =? 0)%Z|]; lia|].
  split; [intros ->; reflexivity|].
  intros expiry ->. unfold minsLeft.
  pose proof (ceilDiv_spec (expiry - now)) as Hceil. cbv zeta in Hceil.
  destruct (expiry =? 0)%Z eqn:Hzero.
  - apply Z.eqb_eq in Hzero. subst expiry.
    split; [reflexivity|]. split; [intros; lia|].
    intros answered mins Hmins Huntil Hnow. lia.
  - split; [|split].
    + intros Hover. lia.
    + intros Hleft. lia.
    + intros answered mins Hmins Huntil Hnow. lia.
Qed.

Lemma checkin_label_counts_whole_minutes_witness :
  checkinCTASecondaryText
    (setQuestionsAvailable false
       (setCooldownUntil (Some (1704150000000 + 90 * 60000)%Z)
          (setNeedsInitialQuestions false Scenario.initial)))
    1704150030000
  = "Next check in ~90 min".
Proof.
  destruct (checkin_label_counts_whole_minutes
              (setQuestionsAvailable false
                 (setCooldownUntil (Some (1704150000000 + 90 * 60000)%Z)
                    (setNeedsInitialQuestions false Scenario.initial)))
              1704150030000)
    as (_ & _ & Hlabel); [lia|].
  destruct Hlabel as (Htext & _ & _ & Huntil); [reflexivity | reflexivity|].
  destruct (Huntil (1704150000000 + 90 * 60000)%Z eq_refl) as (_ & _ & Hmins).
  rewrite Htext, (Hmins 1704150000000%Z 90%Z); [reflexivity | lia | reflexivity|].
  lia.
Defined.

End ReadingFacts.

(** ** The calendar connection *)

Module AuthFacts.
Import JsString MainApp App Views Session.
Local Open Scope string_scope.

(** X26: what a status check does to the calendar connection.
    [checkAuthStatus] always returns, sends nothing through the logged
    endpoints, queues nothing, and writes the two cells
    [isCalendarConnected] and [activeEmail] only.  It leaves them
    disconnected with no email, or connected with an email; a check that
    fails, or a body that names no email, disconnects whatever was
    connected before.  The planner goes by the email alone: after a check
    that leaves no usable email, [planWithManager] sends nothing and asks
    to connect the calendar, also when the check has set the connected
    flag for an empty first address. *)
Theorem status_check_sets_flag_and_email_together (env : Env)
    (answer : option AuthStatus) (days : Z) (w : World) :
  exists w' : World,
    checkAuthStatus answer w = (Returned tt, w')
    /\ calls w' = calls w
    /\ timers w' = timers w
    /\ app w'
       = setActiveEmail (activeEmail (app w'))
           (setIsCalendarConnected (isCalendarConnected (app w')) (app w))
    /\ (isCalendarConnected (app w') = false -> activeEmail (app w') = None)
    /\ (isCalendarConnected (app w') = true -> activeEmail (app w') <> None)
    /\ (answer = None -> isCalendarConnected (app w') = false)
    /\ (truthy (activeEmail (app w')) = false ->
        planWithManager env (app w') days w'
        = (Returned (PlanFailed "Please connect Google Calendar first." None),
           w'))
    /\ (isCalendarConnected (app w') = true ->
        truthy (activeEmail (app w')) = false ->
        exists data rest,
          answer = Some data /\ authorized_emails data = Some ("" :: rest)).
Proof.
  assert (Hplan : forall (s : AppState) (w' : World),
            truthy (activeEmail s) = false ->
            planWithManager env s days w'
            = (Returned (PlanFailed "Please connect Google Calendar first." None),
               w')).
  { intros s w' Hfalsy. unfold planWithManager. rewrite Hfalsy. reflexivity. }
  assert (Hsome : forall data, truthy (auth_email data) = true ->
                   auth_email data <> None).
  { intros data Hmail. destruct (auth_email data); discriminate. }
  unfold checkAuthStatus.
  destruct answer as [data|];
    [destruct (authorized_emails data) as [[|first rest]|] eqn:Hemails;
     [destruct (authorized data && truthy (auth_email data))%bool eqn:Hauth
     | | destruct (authorized data && truthy (auth_email data))%bool eqn:Hauth]
    |];
    (eexists; split; [reflexivity|]);
    cbn [app calls timers activeEmail isCalendarConnected
         setActiveEmail setIsCalendarConnected];
    (split; [reflexivity|]); (split; [reflexivity|]);
    (split; [reflexivity|]);
    (split; [first [reflexivity | discriminate]|]);
    (split; [first [discriminate | intros _; discriminate
                   | intros _; apply Hsome;
                     apply andb_prop in Hauth; apply Hauth]|]);
    (split; [first [reflexivity | discriminate]|]);
    (split; [intros Hfalsy; apply Hplan; exact Hfalsy|]);
    try (intros Hc; discriminate Hc).
  - intros _ Hfalsy. apply andb_prop in Hauth. destruct Hauth as [_ Hmail].
    congruence.
  - intros _ Hfalsy. cbn [truthy] in Hfalsy. apply negb_false_iff in Hfalsy.
    apply String.eqb_eq in Hfalsy. subst first.
    exists data, rest. split; [reflexivity | exact Hemails].
  - intros _ Hfalsy. apply andb_prop in Hauth. destruct Hauth as [_ Hmail].
    congruence.
Qed.

Lemma status_check_sets_flag_and_email_together_witness :
  exists w' : World,
    checkAuthStatus None Scenario.opening = (Returned tt, w')
    /\ isCalendarConnected (app w') = false
    /\ planWithManager (Scenario.envAt JsDate.hostUTC) (app w') 3 w'
       = (Returned (PlanFailed "Please connect Google Calendar first." None),
          w').
Proof.
  destruct (status_check_sets_flag_and_email_together
              (Scenario.envAt JsDate.hostUTC) None 3 Scenario.opening)
    as (w' & Hrun & _ & _ & Happ & Hoff & _ & Hfail & Hplan & _).
  exists w'. split; [exact Hrun|].
  split; [apply Hfail; reflexivity|].
  apply Hplan. rewrite (Hoff (Hfail eq_refl)). reflexivity.
Defined.

End AuthFacts.
